(** * bingeworthy.ai: the search aggregation flow, embedded and verified

    The development follows [src/lib/omdb.ts] (the movie-api module:
    [searchContent], [searchMovies], [searchTVShows], [applyFilters],
    [parseQueryIntelligently]), [src/app/api/content/search/route.ts]
    (the [GET] handler) and the recommendation route
    ([generateAIRecommendations], [generateTopListRecommendations],
    [generateMockRecommendations]).

    Conventions of the embedding.
    - A JavaScript string is a [string] holding the UTF-8 encoding of its
      characters.  White space ([trim], [parseInt], the class [\s]) is the
      WhiteSpace and LineTerminator code points of ECMAScript, and the
      length of a string counts UTF-16 code units.  Case mapping touches the
      letters A-Z and a-z only.
    - JavaScript numbers that hold ratings are exact rationals [Q]: the
      code only compares them and takes the sign of a difference, and on
      finite numbers both agree with the exact values.  Years, counts and
      identifiers are integers [Z]; [NaN] never occurs in a [Content].
    - An optional property is an [option]; [None] is [undefined].
    - A [while] loop is a function with fuel returning [None] while the loop
      is still running.
    - The network is an oracle from requests to outcomes; every request the
      code issues is appended to a trace. *)

From Stdlib Require Import String Ascii List ZArith QArith Lia Lqa Permutation Sorted Bool.
From stdpp Require Import base list strings pretty.
Import ListNotations.

Local Open Scope string_scope.
Local Open Scope list_scope.

(** ** JavaScript built-ins used by the sources *)

Module JS.

(** A thrown value: [error instanceof Error] with its [message], or anything
    else. *)
Inductive JsError : Type :=
| ErrorObject (msg : string)
| ThrownValue.

Inductive JsResult (A : Type) : Type :=
| Ok (a : A)
| Throw (e : JsError).
Arguments Ok {A} a.
Arguments Throw {A} e.

(** [error instanceof Error ? error.message : "Unknown error"] *)
Definition errorMessage (e : JsError) : string :=
  match e with
  | ErrorObject msg => msg
  | ThrownValue => "Unknown error"
  end.

(** Truthiness of a string: every string but the empty one. *)
Definition truthy (s : string) : bool := negb (s =? "").

(** *** Characters of a UTF-8 text *)

Definition isContinuation (c : ascii) : bool :=
  let n := N_of_ascii c in
  ((128 <=? n) && (n <=? 191))%N.

(** The second byte of a well-formed sequence, whose range depends on the
    first byte. *)
Definition secondByte (lead : N) (c : ascii) : bool :=
  let n := N_of_ascii c in
  ((if lead =? 224 then 160 <=? n else if lead =? 240 then 144 <=? n else 128 <=? n)
   && (if lead =? 237 then n <=? 159 else if lead =? 244 then n <=? 143 else n <=? 191))%N.

(** The number of bytes of the character a text begins with: the length of
    the well-formed UTF-8 sequence at its head, and 1 for a byte that begins
    none (a decoder puts U+FFFD for it). *)
Definition sequenceLength (l : list ascii) : nat :=
  match l with
  | [] => 0
  | a :: rest =>
      let lead := N_of_ascii a in
      let continued (n : nat) :=
        match firstn n rest with
        | b :: more =>
            secondByte lead b && forallb isContinuation more
            && (List.length more =? n - 1)%nat
        | [] => false
        end in
      if ((194 <=? lead) && (lead <=? 223))%N && continued 1 then 2
      else if ((224 <=? lead) && (lead <=? 239))%N && continued 2 then 3
      else if ((240 <=? lead) && (lead <=? 244))%N && continued 3 then 4
      else 1
  end.

(** The code point of the character a text begins with. *)
Definition codePoint (l : list ascii) : N :=
  let byte (c : ascii) := N_of_ascii c in
  match sequenceLength l, l with
  | 1, a :: _ => if (byte a <? 128)%N then byte a else 65533%N
  | 2, a :: b :: _ => ((byte a - 192) * 64 + (byte b - 128))%N
  | 3, a :: b :: c :: _ => ((byte a - 224) * 4096 + (byte b - 128) * 64 + (byte c - 128))%N
  | 4, a :: b :: c :: d :: _ =>
      ((byte a - 240) * 262144 + (byte b - 128) * 4096 + (byte c - 128) * 64
       + (byte d - 128))%N
  | _, _ => 65533%N
  end.

(** LineTerminator: LF, CR, U+2028 and U+2029. *)
Definition isLineTerminator (n : N) : bool :=
  ((n =? 10) || (n =? 13) || (n =? 8232) || (n =? 8233))%N.

(** WhiteSpace and LineTerminator, which [trim], [parseInt] and the class
    [\s] all go by: TAB, LF, VT, FF, CR, SPACE, U+00A0, U+1680, U+2000 to
    U+200A, U+2028, U+2029, U+202F, U+205F, U+3000 and U+FEFF. *)
Definition isWhiteSpace (n : N) : bool :=
  ((9 <=? n) && (n <=? 13) || (n =? 32) || (n =? 160) || (n =? 5760)
   || (8192 <=? n) && (n <=? 8202) || (n =? 8232) || (n =? 8233) || (n =? 8239)
   || (n =? 8287) || (n =? 12288) || (n =? 65279))%N.

(** [s.length]: the number of UTF-16 code units, two for a character above
    U+FFFF (a sequence of four bytes) and one for any other. *)
Fixpoint codeUnits (l : list ascii) : nat :=
  match l with
  | [] => 0
  | _ :: l1 =>
      match sequenceLength l, l1 with
      | 2, _ :: l2 => 1 + codeUnits l2
      | 3, _ :: _ :: l3 => 1 + codeUnits l3
      | 4, _ :: _ :: _ :: l4 => 2 + codeUnits l4
      | _, _ => 1 + codeUnits l1
      end
  end.

Definition lengthUTF16 (s : string) : nat := codeUnits (list_ascii_of_string s).

(** The text without the white space it begins with. *)
Fixpoint trimStartChars (l : list ascii) : list ascii :=
  match l with
  | [] => []
  | _ :: l1 =>
      if isWhiteSpace (codePoint l) then
        match sequenceLength l, l1 with
        | 2, _ :: l2 => trimStartChars l2
        | 3, _ :: _ :: l3 => trimStartChars l3
        | _, _ => trimStartChars l1
        end
      else l
  end.

(** The text without the white space it ends with: it is cut at the first
    position from which only white space follows. *)
Fixpoint trimEndChars (l : list ascii) : list ascii :=
  match l with
  | [] => []
  | c :: l1 =>
      match trimStartChars l with
      | [] => []
      | _ :: _ => c :: trimEndChars l1
      end
  end.

Definition trimStart (s : string) : string :=
  string_of_list_ascii (trimStartChars (list_ascii_of_string s)).

Definition trimEnd (s : string) : string :=
  string_of_list_ascii (trimEndChars (list_ascii_of_string s)).

(** [String.prototype.trim] *)
Definition trim (s : string) : string := trimEnd (trimStart s).

Definition lowerChar (c : ascii) : ascii :=
  let n := N_of_ascii c in
  if ((65 <=? n) && (n <=? 90))%N then ascii_of_N (n + 32) else c.

Definition upperChar (c : ascii) : ascii :=
  let n := N_of_ascii c in
  if ((97 <=? n) && (n <=? 122))%N then ascii_of_N (n - 32) else c.

Fixpoint mapString (f : ascii -> ascii) (s : string) : string :=
  match s with
  | EmptyString => EmptyString
  | String c s' => String (f c) (mapString f s')
  end.

Definition toLowerCase : string -> string := mapString lowerChar.
Definition toUpperCase : string -> string := mapString upperChar.

(** [s.includes(sub)]: [sub] occurs in [s] at some position. *)
Fixpoint includes (s sub : string) : bool :=
  String.prefix sub s ||
  match s with
  | EmptyString => false
  | String _ s' => includes s' sub
  end.

(** [Array.prototype.some] *)
Definition some {A : Type} (f : A -> bool) (l : list A) : bool := existsb f l.

(** [Array.prototype.slice(0, n)]; a negative [n] counts from the end. *)
Definition slice0 {A : Type} (n : Z) (l : list A) : list A :=
  if (n <? 0)%Z then firstn (Z.to_nat (Z.of_nat (length l) + n)) l
  else firstn (Z.to_nat n) l.

(** Comparison of numbers. *)
Definition Qltb (a b : Q) : bool := negb (Qle_bool b a).
Definition Qgtb (a b : Q) : bool := Qltb b a.

(** A JavaScript number that may not be finite. *)
Inductive JsNumber : Type :=
| NaN
| Infinity (negative : bool)
| Finite (q : Q).

(** [lo <= x && x <= hi], and the value when it holds. *)
Definition withinRange (lo hi : Q) (x : JsNumber) : option Q :=
  match x with
  | Finite q => if Qle_bool lo q && Qle_bool q hi then Some q else None
  | _ => None
  end.

(** The value of a digit in radix 10 or 16. *)
Definition digitValue (radix : Z) (c : ascii) : option Z :=
  let n := Z.of_N (N_of_ascii c) in
  let v := if ((48 <=? n) && (n <=? 57))%Z then Some (n - 48)%Z
           else if ((97 <=? n) && (n <=? 102))%Z then Some (n - 87)%Z
           else if ((65 <=? n) && (n <=? 70))%Z then Some (n - 55)%Z
           else None in
  match v with
  | Some d => if (d <? radix)%Z then Some d else None
  | None => None
  end.

(** The longest prefix of digits, read in [radix]: the number of digits
    read, their value, and the rest. *)
Fixpoint readDigits (radix : Z) (count : nat) (acc : Z) (l : list ascii)
    : nat * Z * list ascii :=
  match l with
  | c :: l' =>
      match digitValue radix c with
      | Some d => readDigits radix (S count) (acc * radix + d)%Z l'
      | None => (count, acc, l)
      end
  | [] => (count, acc, l)
  end.

Definition readSign (l : list ascii) : bool * list ascii :=
  match l with
  | "-"%char :: l' => (true, l')
  | "+"%char :: l' => (false, l')
  | _ => (false, l)
  end.

(** [Number.parseInt(s)] without a radix: leading white space, a sign, an
    optional [0x] prefix, then digits; [None] is [NaN].  The value is the
    exact integer. *)
Definition parseInt (s : string) : option Z :=
  let '(negative, l) := readSign (trimStartChars (list_ascii_of_string s)) in
  let '(radix, l) :=
    match l with
    | "0"%char :: "x"%char :: l' => (16%Z, l')
    | "0"%char :: "X"%char :: l' => (16%Z, l')
    | _ => (10%Z, l)
    end in
  let '(count, value, _) := readDigits radix 0 0%Z l in
  match count with
  | O => None
  | S _ => Some (if negative then (- value)%Z else value)
  end.

(** [Array.prototype.sort(compareFn)]: a stable sort; [compareFn a b > 0]
    places [a] after [b].  For a consistent [compareFn] the sorted, stable
    arrangement is unique, and this insertion sort computes it. *)
Section Sort.
Context {A : Type} (compareFn : A -> A -> Q).

Fixpoint insertSorted (x : A) (l : list A) : list A :=
  match l with
  | [] => [x]
  | y :: l' => if Qgtb (compareFn x y) 0 then y :: insertSorted x l' else x :: l
  end.

Fixpoint sort (l : list A) : list A :=
  match l with
  | [] => []
  | x :: l' => insertSorted x (sort l')
  end.
End Sort.

End JS.

Import JS.

(** ** Data model ([src/lib/types.ts]) *)

Inductive ContentType : Type := Movie | TV.

Definition typeString (t : ContentType) : string :=
  match t with
  | Movie => "movie"
  | TV => "tv"
  end.

Record Content : Type := {
  id : Z;
  title : string;
  type : ContentType;
  description : string;
  release_year : Z;
  poster_url : string;
  backdrop_url : option string;
  imdb_rating : Q;
  rotten_tomatoes_rating : option Q;
  tmdb_rating : Q;
  genre : string;
  streaming_platforms : list string;
  cast : list string;
  runtime : Q;
  country : string;
  language : string;
  trailer_url : option string;
  status : string
}.

(** [SearchFilters]; the string fields are optional here as well, which
    covers [Partial<SearchFilters>] and a missing property at run time. *)
Module Filters.
Record SearchFilters : Type := {
  platform : option string;
  genre : option string;
  language : option string;
  country : option string;
  type : option string;
  year : option Z;
  rating_min : option Q
}.
End Filters.
Abbreviation SearchFilters := Filters.SearchFilters.

Record APIResponse (T : Type) : Type := {
  success : bool;
  data : option T;
  error : option string;
  message : option string
}.
Arguments success {T} _.
Arguments data {T} _.
Arguments error {T} _.
Arguments message {T} _.

Definition failure {T : Type} (msg : string) : APIResponse T :=
  {| success := false; data := None; error := Some msg; message := None |}.

(** [LANGUAGE_CODES], in the order of [Object.entries]. *)
Definition LANGUAGE_CODES : list (string * string) :=
  [ ("hindi", "hi"); ("english", "en"); ("spanish", "es"); ("french", "fr");
    ("german", "de"); ("italian", "it"); ("japanese", "ja"); ("korean", "ko");
    ("chinese", "zh"); ("portuguese", "pt"); ("russian", "ru"); ("arabic", "ar");
    ("tamil", "ta"); ("telugu", "te"); ("bengali", "bn"); ("marathi", "mr");
    ("gujarati", "gu"); ("punjabi", "pa"); ("malayalam", "ml"); ("kannada", "kn") ].

(** [LANGUAGE_CODES[key]]; no inherited property of a plain object is a
    string, so comparing one with a string is [false], like [None] here. *)
Fixpoint lookupCode (table : list (string * string)) (key : string) : option string :=
  match table with
  | [] => None
  | (name, code) :: rest => if name =? key then Some code else lookupCode rest key
  end.

(** ** [applyFilters] *)

(** [x && x.trim() !== ""]: the value of an active string filter. *)
Definition activeFilter (x : option string) : option string :=
  match x with
  | Some s => if truthy s && negb (trim s =? "") then Some s else None
  | None => None
  end.

(** The language test of [applyFilters]: direct comparison, the code the
    filter names, or an entry of [LANGUAGE_CODES] that relates the two. *)
Definition languageIsMatch (filterLanguage itemLanguage : string) : bool :=
  (itemLanguage =? filterLanguage)
  || match lookupCode LANGUAGE_CODES (toLowerCase filterLanguage) with
     | Some code => itemLanguage =? code
     | None => false
     end
  || some (fun '(name, code) =>
             (toUpperCase name =? filterLanguage) && (toUpperCase code =? itemLanguage)
             || (toUpperCase code =? filterLanguage) && (toUpperCase code =? itemLanguage))
          LANGUAGE_CODES.

(** The platform test: some platform of the item contains the filter or is
    contained in it. *)
Definition platformMatches (filterPlatform : string) (platforms : list string) : bool :=
  some (fun platform =>
          let platformLower := toLowerCase platform in
          includes platformLower filterPlatform || includes filterPlatform platformLower)
       platforms.

(** The callback of [content.filter] in [applyFilters], block by block, each
    block returning [false] early. *)
Definition filterCallback (filters : SearchFilters) (item : Content) : bool :=
  if match activeFilter (Filters.type filters) with
     | Some ftype => negb (typeString (type item) =? ftype)
     | None => false
     end
  then false else
  if match activeFilter (Filters.genre filters) with
     | Some fgenre =>
         let filterGenre := trim (toLowerCase fgenre) in
         let itemGenres := toLowerCase (genre item) in
         negb (includes itemGenres filterGenre)
     | None => false
     end
  then false else
  if match activeFilter (Filters.language filters) with
     | Some flang =>
         let filterLanguage := trim (toUpperCase flang) in
         let itemLanguage := trim (toUpperCase (language item)) in
         let isMatch := languageIsMatch filterLanguage itemLanguage in
         negb isMatch
     | None => false
     end
  then false else
  if match activeFilter (Filters.country filters) with
     | Some fcountry =>
         let filterCountry := trim (toUpperCase fcountry) in
         let itemCountry := trim (toUpperCase (country item)) in
         negb (itemCountry =? filterCountry)
     | None => false
     end
  then false else
  if match activeFilter (Filters.platform filters) with
     | Some fplatform =>
         let filterPlatform := trim (toLowerCase fplatform) in
         let hasMatchingPlatform := platformMatches filterPlatform (streaming_platforms item) in
         negb hasMatchingPlatform
     | None => false
     end
  then false else
  if match Filters.rating_min filters with
     | Some r =>
         negb (Qeq_bool r 0) && Qgtb r 0
         && (Qltb (tmdb_rating item) r && Qltb (imdb_rating item) r)
     | None => false
     end
  then false else
  if match Filters.year filters with
     | Some y =>
         negb (y =? 0)%Z && (y >? 1900)%Z
         && (Z.abs (release_year item - y) >? 1)%Z
     | None => false
     end
  then false else
  true.

Definition applyFilters (content : list Content) (filters : SearchFilters) : list Content :=
  List.filter (filterCallback filters) content.

(** *** The seven field-level predicates

    Each one reads a single filter field: an inactive field accepts every
    item, an active one states the condition its block tests. *)

Definition typePredicate (filters : SearchFilters) (item : Content) : bool :=
  match activeFilter (Filters.type filters) with
  | Some ftype => typeString (type item) =? ftype
  | None => true
  end.

Definition genrePredicate (filters : SearchFilters) (item : Content) : bool :=
  match activeFilter (Filters.genre filters) with
  | Some fgenre => includes (toLowerCase (genre item)) (trim (toLowerCase fgenre))
  | None => true
  end.

Definition languagePredicate (filters : SearchFilters) (item : Content) : bool :=
  match activeFilter (Filters.language filters) with
  | Some flang => languageIsMatch (trim (toUpperCase flang)) (trim (toUpperCase (language item)))
  | None => true
  end.

Definition countryPredicate (filters : SearchFilters) (item : Content) : bool :=
  match activeFilter (Filters.country filters) with
  | Some fcountry => trim (toUpperCase (country item)) =? trim (toUpperCase fcountry)
  | None => true
  end.

Definition platformPredicate (filters : SearchFilters) (item : Content) : bool :=
  match activeFilter (Filters.platform filters) with
  | Some fplatform => platformMatches (trim (toLowerCase fplatform)) (streaming_platforms item)
  | None => true
  end.

(** The rating floor is in force for a minimum that is a number above 0. *)
Definition activeRating (x : option Q) : option Q :=
  match x with
  | Some r => if negb (Qeq_bool r 0) && Qgtb r 0 then Some r else None
  | None => None
  end.

Definition ratingPredicate (filters : SearchFilters) (item : Content) : bool :=
  match activeRating (Filters.rating_min filters) with
  | Some r => Qle_bool r (tmdb_rating item) || Qle_bool r (imdb_rating item)
  | None => true
  end.

Definition activeYear (x : option Z) : option Z :=
  match x with
  | Some y => if (negb (y =? 0) && (y >? 1900))%Z then Some y else None
  | None => None
  end.

Definition yearPredicate (filters : SearchFilters) (item : Content) : bool :=
  match activeYear (Filters.year filters) with
  | Some y => (Z.abs (release_year item - y) <=? 1)%Z
  | None => true
  end.

Definition fieldPredicates (filters : SearchFilters) : list (Content -> bool) :=
  [ typePredicate filters; genrePredicate filters; languagePredicate filters;
    countryPredicate filters; platformPredicate filters; ratingPredicate filters;
    yearPredicate filters ].

(** The six predicates beside the rating floor. *)
Definition besidesRating (filters : SearchFilters) : list (Content -> bool) :=
  [ typePredicate filters; genrePredicate filters; languagePredicate filters;
    countryPredicate filters; platformPredicate filters; yearPredicate filters ].

(** An item passes a list of predicates when it passes each of them. *)
Definition passesAll (ps : list (Content -> bool)) (item : Content) : bool :=
  forallb (fun p => p item) ps.

(** Filtering by one predicate after the other. *)
Definition filterEach (ps : list (Content -> bool)) (content : list Content) : list Content :=
  fold_left (fun acc p => List.filter p acc) ps content.

(** ** The upstream metadata API *)

Module TMDBMovie.
Record t : Type := {
  id : Z;
  title : string;
  overview : string;
  release_date : string;
  poster_path : option string;
  backdrop_path : option string;
  vote_average : Q;
  genre_ids : list Z;
  adult : bool;
  original_language : string;
  runtime : option Q;
  status : option string
}.
End TMDBMovie.

Module TMDBTVShow.
Record t : Type := {
  id : Z;
  name : string;
  overview : string;
  first_air_date : string;
  poster_path : option string;
  backdrop_path : option string;
  vote_average : Q;
  genre_ids : list Z;
  origin_country : list string;
  original_language : string;
  episode_run_time : option (list Q);
  status : option string
}.
End TMDBTVShow.

(** The endpoints of the upstream API that the library addresses. *)
Inductive Endpoint : Type :=
| SearchMovieEndpoint      (* /search/movie *)
| SearchTVEndpoint         (* /search/tv *)
| DiscoverMovieEndpoint    (* /discover/movie *)
| DiscoverTVEndpoint.      (* /discover/tv *)

(** One outbound call of the pagination loops: the endpoint, the [query]
    parameter of the URL and its [page] parameter. *)
Record Request : Type := {
  endpoint : Endpoint;
  requestQuery : string;
  requestPage : nat
}.

(** A complete HTTP response.  [json] is the outcome of
    [await response.json()] followed by reading [data.results]: a thrown
    error (the body is no JSON, or holds no object), no [results] property,
    or the array. *)
Module Http.
Record Response (Item : Type) : Type := {
  ok : bool;
  status : N;
  statusText : string;
  json : JsResult (option (list Item))
}.
Arguments ok {Item} _.
Arguments status {Item} _.
Arguments statusText {Item} _.
Arguments json {Item} _.
End Http.
Abbreviation Response := Http.Response.

(** What [await fetch(url)] and the reading of the body come to: no complete
    response ([fetch] rejects, or the connection breaks while the body is
    read, and the awaiting statement throws), or a response. *)
Inductive FetchOutcome (Item : Type) : Type :=
| Failed (e : JsError)
| Responded (r : Response Item).
Arguments Failed {Item} e.
Arguments Responded {Item} r.

(** The surroundings of one request to the application: the environment
    variable, the network, and the four converters.  The converters build a
    [Content] from an upstream record; they read the clock ([Date]), draw
    random platforms and, for the first five items of a page, call further
    endpoints, each behind its own [try]/[catch]. *)
Record World : Type := {
  env_TMDB_API_KEY : option string;
  fetchMovies : string -> nat -> FetchOutcome TMDBMovie.t;
  fetchTVShows : string -> nat -> FetchOutcome TMDBTVShow.t;
  convertTMDBMovieToContent : TMDBMovie.t -> Content;
  convertTMDBMovieToContentWithRealData : TMDBMovie.t -> Content;
  convertTMDBTVToContent : TMDBTVShow.t -> Content;
  convertTMDBTVToContentWithRealData : TMDBTVShow.t -> Content
}.

Definition placeholderKey : string := "your_tmdb_api_key_here".

(** [process.env.TMDB_API_KEY || "your_tmdb_api_key_here"] *)
Definition TMDB_API_KEY (w : World) : string :=
  match env_TMDB_API_KEY w with
  | Some k => if truthy k then k else placeholderKey
  | None => placeholderKey
  end.

(** [!TMDB_API_KEY || TMDB_API_KEY === "your_tmdb_api_key_here"] *)
Definition keyNotConfigured (w : World) : bool :=
  negb (truthy (TMDB_API_KEY w)) || (TMDB_API_KEY w =? placeholderKey).

Definition authenticationMessage : string :=
  "API authentication failed. Please check your TMDB API key is valid and active.".

(** [`API request failed: ${response.status} ${response.statusText}`] *)
Definition requestFailedMessage {Item : Type} (r : Response Item) : string :=
  "API request failed: " +:+ pretty (Http.status r) +:+ " " +:+ Http.statusText r.

(** The body of the [try] block shared by [searchMovies] and
    [searchTVShows], after the key check; [Throw] transfers to [catch].  The
    text of an error reply is read for the log line only and does not reach
    the result. *)
Definition searchAttempt {Item : Type} (outcome : FetchOutcome Item)
    (convertWithRealData convert : Item -> Content) : JsResult (APIResponse (list Content)) :=
  match outcome with
  | Failed e => Throw e
  | Responded response =>
      if negb (Http.ok response) then
        if (Http.status response =? 401)%N then Ok (failure authenticationMessage)
        else Ok (failure (requestFailedMessage response))
      else
        match Http.json response with
        | Throw e => Throw e
        | Ok results =>
            let results := default [] results in
            let first := map convertWithRealData (firstn 5 results) in
            let remaining := map convert (skipn 5 results) in
            Ok {| success := true; data := Some (first ++ remaining);
                  error := None; message := None |}
        end
  end.

(** [searchMovies(query, filters, page)] *)
Definition searchMovies (w : World) (query : string) (filters : option SearchFilters)
    (page : nat) : APIResponse (list Content) :=
  if keyNotConfigured w then failure "TMDB API key is not configured" else
  match searchAttempt (fetchMovies w query page)
          (convertTMDBMovieToContentWithRealData w) (convertTMDBMovieToContent w) with
  | Ok response => response
  | Throw e => failure ("Movie search failed: " +:+ errorMessage e)
  end.

(** [searchTVShows(query, filters, page)] *)
Definition searchTVShows (w : World) (query : string) (filters : option SearchFilters)
    (page : nat) : APIResponse (list Content) :=
  if keyNotConfigured w then failure "TMDB API key is not configured" else
  match searchAttempt (fetchTVShows w query page)
          (convertTMDBTVToContentWithRealData w) (convertTMDBTVToContent w) with
  | Ok response => response
  | Throw e => failure ("TV search failed: " +:+ errorMessage e)
  end.

(** ** [searchContent] *)

(** What one of the two [while] loops leaves behind: the items pushed to
    [allResults], the errors pushed to its error array, and the pages it
    asked for, in order. *)
Record Collected : Type := {
  items : list Content;
  searchErrors : list string;
  pagesRequested : list nat
}.

(** [while (hasMoreResults) { ... }] of [searchContent], for one content
    type; [search] is [searchMovies] or [searchTVShows] at the query and the
    filters of the call.  [None]: the loop has not left after [fuel] rounds. *)
Fixpoint searchPages (fuel : nat) (search : nat -> APIResponse (list Content))
    (currentPage : nat) (acc : Collected) : option Collected :=
  match fuel with
  | O => None
  | S fuel' =>
      let response := search currentPage in
      let asked := pagesRequested acc ++ [currentPage] in
      match (if success response then data response else None) with
      | Some ((_ :: _) as pageData) =>
          let acc' := {| items := items acc ++ pageData;
                         searchErrors := searchErrors acc;
                         pagesRequested := asked |} in
          if (length pageData <? 20)%nat then Some acc'
          else searchPages fuel' search (S currentPage) acc'
      | _ =>
          let errors :=
            if negb (success response) then
              match error response with
              | Some e => if truthy e then searchErrors acc ++ [e] else searchErrors acc
              | None => searchErrors acc
              end
            else searchErrors acc in
          Some {| items := items acc; searchErrors := errors; pagesRequested := asked |}
      end
  end.

Definition emptyCollected : Collected :=
  {| items := []; searchErrors := []; pagesRequested := [] |}.

(** The state of [searchContent] after both loops. *)
Record Gathered : Type := {
  allResults : list Content;
  movieSearchErrors : list string;
  tvSearchErrors : list string;
  requests : list Request
}.

Definition requestOf (e : Endpoint) (query : string) (page : nat) : Request :=
  {| endpoint := e; requestQuery := query; requestPage := page |}.

(** Lines 160 to 209: the movie loop, then the TV loop, both from page 1. *)
Definition gatherResults (w : World) (fuel : nat) (query : string)
    (filters : option SearchFilters) : option Gathered :=
  match searchPages fuel (searchMovies w query filters) 1 emptyCollected with
  | None => None
  | Some movies =>
      match searchPages fuel (searchTVShows w query filters) 1 emptyCollected with
      | None => None
      | Some shows =>
          Some {| allResults := items movies ++ items shows;
                  movieSearchErrors := searchErrors movies;
                  tvSearchErrors := searchErrors shows;
                  requests := map (requestOf SearchMovieEndpoint query) (pagesRequested movies)
                              ++ map (requestOf SearchTVEndpoint query) (pagesRequested shows) |}
      end
  end.

(** The comparator of the final sort: TMDB rating first, IMDb rating on a
    tie, both descending. *)
Definition compareRatings (a b : Content) : Q :=
  if negb (Qeq_bool (tmdb_rating b) (tmdb_rating a))
  then tmdb_rating b - tmdb_rating a
  else imdb_rating b - imdb_rating a.

Definition noMatchMessage : string :=
  "No movies or TV shows found matching your search criteria. Try different keywords or remove some filters.".

(** [applyFilters(allResults, filters)] as [searchContent] calls it, with
    [filters] possibly [undefined]: the callback then throws a [TypeError]
    on the first item it is given. *)
Definition applyOptionalFilters (content : list Content) (filters : option SearchFilters)
    : JsResult (list Content) :=
  match filters with
  | Some f => Ok (applyFilters content f)
  | None =>
      match content with
      | [] => Ok []
      | _ :: _ => Throw (ErrorObject "Cannot read properties of undefined (reading 'type')")
      end
  end.

(** The success envelope of [searchContent]. *)
Definition found (sortedResults : list Content) : APIResponse (list Content) :=
  {| success := true; data := Some sortedResults; error := None;
     message := Some ("Found " +:+ pretty (length sortedResults) +:+ " results") |}.

(** Lines 211 to 252: the part of [searchContent] after the loops. *)
Definition respond (g : Gathered) (filters : option SearchFilters)
    : JsResult (APIResponse (list Content)) :=
  let allErrors := movieSearchErrors g ++ tvSearchErrors g in
  match allResults g, allErrors with
  | [], errorMessage :: _ => Ok (failure errorMessage)
  | _, _ =>
      match applyOptionalFilters (allResults g) filters with
      | Throw e => Throw e
      | Ok filteredResults =>
          let sortedResults := sort compareRatings filteredResults in
          match sortedResults with
          | [] => Ok (failure noMatchMessage)
          | _ :: _ => Ok (found sortedResults)
          end
      end
  end.

(** [searchContent(query, filters)]: the response and the outbound search
    calls made on the way, or [None] while a loop is still running. *)
Definition searchContent (w : World) (fuel : nat) (query : string)
    (filters : option SearchFilters) : option (APIResponse (list Content) * list Request) :=
  if keyNotConfigured w then
    Some (failure "TMDB API key is not configured. Please add your TMDB API key to environment variables.", [])
  else
    match gatherResults w fuel query filters with
    | None => None
    | Some g =>
        match respond g filters with
        | Ok response => Some (response, requests g)
        | Throw e => Some (failure ("Search failed: " +:+ errorMessage e), requests g)
        end
    end.

(** *** Vocabulary for statements about the pagination loops *)

(** The items a loop round appends for a page: those of a successful
    response, none otherwise. *)
Definition pageItems (r : APIResponse (list Content)) : list Content :=
  if success r then default [] (data r) else [].

(** A page that ends the loop: failed, empty, or fewer than 20 items. *)
Definition shortPage (r : APIResponse (list Content)) : bool :=
  (length (pageItems r) <? 20)%nat.

(** The error a loop round records for a page. *)
Definition pageError (r : APIResponse (list Content)) : list string :=
  if success r then []
  else match error r with
       | Some e => if truthy e then [e] else []
       | None => []
       end.

(** Page [n] is the first short page of [search], pages counting from 1. *)
Definition firstShortPage (search : nat -> APIResponse (list Content)) (n : nat) : Prop :=
  1 <= n /\ shortPage (search n) = true
  /\ forall p, 1 <= p < n -> shortPage (search p) = false.

(** All items of pages 1 to [n]. *)
Definition pagesUpTo (search : nat -> APIResponse (list Content)) (n : nat) : list Content :=
  concat (map (fun p => pageItems (search p)) (seq 1 n)).

(** The order of the final sort on two neighbours: the first is rated at
    least as high on TMDB, and at least as high on IMDb when the TMDB
    ratings are equal. *)
Definition ratingsDescend (a b : Content) : Prop :=
  (tmdb_rating b <= tmdb_rating a)%Q
  /\ (tmdb_rating a == tmdb_rating b -> imdb_rating b <= imdb_rating a)%Q.

(** ** The search route ([GET /api/content/search]) *)

Module Route.

(** [URLSearchParams.get(name)]: the first value under [name], or [null]. *)
Fixpoint get (searchParams : list (string * string)) (name : string) : option string :=
  match searchParams with
  | [] => None
  | (key, value) :: rest => if key =? name then Some value else get rest name
  end.

(** The JSON body of a reply. *)
Record Body : Type := {
  bodySuccess : bool;
  bodyData : option (list Content);
  bodyError : option string;
  bodyMessage : option string;
  bodySource : option string
}.

Record Reply : Type := {
  replyStatus : N;
  replyBody : Body;
  replyHeaders : list (string * string)
}.

(** [NextResponse.json({ success: false, error }, { status })] *)
Definition errorReply (code : N) (err : option string) : Reply :=
  {| replyStatus := code;
     replyBody := {| bodySuccess := false; bodyData := None; bodyError := err;
                     bodyMessage := None; bodySource := None |};
     replyHeaders := [] |}.

(** [NextResponse.json({ ...result, source: "tmdb_search" }, { headers })] *)
Definition resultReply (result : APIResponse (list Content)) : Reply :=
  {| replyStatus := 200;
     replyBody := {| bodySuccess := success result; bodyData := data result;
                     bodyError := error result; bodyMessage := message result;
                     bodySource := Some "tmdb_search" |};
     replyHeaders := [("Cache-Control", "public, s-maxage=1800, stale-while-revalidate=3600")] |}.

(** What the handler needs from its surroundings: [Number.parseFloat]
    (which rounds to a binary64 number and is therefore left to the run
    time), the year of [new Date()], and the imported [searchContent], which
    answers or is still running ([None]). *)
Record Runtime : Type := {
  Number_parseFloat : string -> JsNumber;
  currentYear : Z;
  searchContentOf : string -> SearchFilters -> option (APIResponse (list Content))
}.

(** [searchParams.get(name) || ""] *)
Definition getOrEmpty (searchParams : list (string * string)) (name : string) : string :=
  match get searchParams name with
  | Some v => if truthy v then v else ""
  | None => ""
  end.

(** The [year] filter: present when the parameter is given, parses, and
    lies between 1900 and the current year plus 5. *)
Definition yearFilter (rt : Runtime) (searchParams : list (string * string)) : option Z :=
  match get searchParams "year" with
  | Some year =>
      if truthy year then
        match parseInt year with
        | Some yearNum =>
            if ((yearNum >=? 1900) && (yearNum <=? currentYear rt + 5))%Z
            then Some yearNum else None
        | None => None
        end
      else None
  | None => None
  end.

(** The [rating_min] filter: present when the parameter is given, parses,
    and lies between 0 and 10. *)
Definition ratingFilter (rt : Runtime) (searchParams : list (string * string)) : option Q :=
  match get searchParams "rating_min" with
  | Some ratingMin =>
      if truthy ratingMin then withinRange 0 10 (Number_parseFloat rt ratingMin) else None
  | None => None
  end.

Definition buildFilters (rt : Runtime) (searchParams : list (string * string)) : SearchFilters :=
  {| Filters.platform := Some (getOrEmpty searchParams "platform");
     Filters.genre := Some (getOrEmpty searchParams "genre");
     Filters.language := Some (getOrEmpty searchParams "language");
     Filters.country := Some (getOrEmpty searchParams "country");
     Filters.type := Some (getOrEmpty searchParams "type");
     Filters.year := yearFilter rt searchParams;
     Filters.rating_min := ratingFilter rt searchParams |}.

(** The outcome of a request: the reply ([None] while [searchContent] is
    still running) and the calls of [searchContent] made for it. *)
Record Handled : Type := {
  reply : option Reply;
  searchCalls : list (string * SearchFilters)
}.

(** The handler, for the query parameters of the request URL. *)
Definition GET (rt : Runtime) (searchParams : list (string * string)) : Handled :=
  let query := get searchParams "q" in
  match query with
  | None =>
      {| reply := Some (errorReply 400 (Some "Search query is required")); searchCalls := [] |}
  | Some query =>
      if negb (truthy query) || (lengthUTF16 (trim query) =? 0)%nat then
        {| reply := Some (errorReply 400 (Some "Search query is required")); searchCalls := [] |}
      else if (100 <? lengthUTF16 query)%nat then
        {| reply := Some (errorReply 400 (Some "Search query too long (max 100 characters)"));
           searchCalls := [] |}
      else
        let filters := buildFilters rt searchParams in
        let call := (trim query, filters) in
        match searchContentOf rt (trim query) filters with
        | None => {| reply := None; searchCalls := [call] |}
        | Some result =>
            if negb (success result) then
              {| reply := Some (errorReply 500 (error result)); searchCalls := [call] |}
            else
              {| reply := Some (resultReply result); searchCalls := [call] |}
        end
  end.

(** The handler in front of the library: [searchContent] of a world. *)
Definition liveRuntime (w : World) (fuel : nat) (parseFloat : string -> JsNumber) (now : Z)
    : Runtime :=
  {| Number_parseFloat := parseFloat; currentYear := now;
     searchContentOf := fun query filters =>
       option_map fst (searchContent w fuel query (Some filters)) |}.

End Route.

(** ** Regular expressions

    The fragment of JavaScript's regular expressions that the sources use,
    with the backtracking semantics of the language: alternatives and
    iterations are tried in priority order, an iteration must consume input,
    and the first complete match is the result. *)

Module Regex.

Inductive regex : Type :=
| Chr (c : ascii)               (* a literal character *)
| Dot                           (* [.]: any character but a line terminator *)
| Digit                         (* [\d] *)
| Space                         (* [\s] *)
| WordBoundary                  (* [\b] *)
| Eps                           (* the empty pattern *)
| Seq (r1 r2 : regex)
| Alt (r1 r2 : regex)           (* [r1|r2] *)
| Opt (r : regex)               (* [r?], greedy *)
| Star (r : regex)              (* [r*], greedy *)
| LazyStar (r : regex)          (* [r*?] *)
| Group (n : nat) (r : regex).  (* the capturing group number [n] *)

(** [r+] and [r+?] *)
Definition Plus (r : regex) : regex := Seq r (Star r).
Definition LazyPlus (r : regex) : regex := Seq r (LazyStar r).

(** A literal string. *)
Fixpoint Lit (s : string) : regex :=
  match s with
  | EmptyString => Eps
  | String c EmptyString => Chr c
  | String c s' => Seq (Chr c) (Lit s')
  end.

Definition isDigit (c : ascii) : bool :=
  let n := N_of_ascii c in ((48 <=? n) && (n <=? 57))%N.

Definition isWordChar (c : ascii) : bool :=
  let n := N_of_ascii c in
  ((48 <=? n) && (n <=? 57) || (65 <=? n) && (n <=? 90)
   || (97 <=? n) && (n <=? 122) || (n =? 95))%N.

Definition wordBefore (prev : option ascii) : bool :=
  match prev with
  | Some c => isWordChar c
  | None => false
  end.

Definition wordAfter (s : list ascii) : bool :=
  match s with
  | c :: _ => isWordChar c
  | [] => false
  end.

(** The captures made so far, most recent first. *)
Definition Captures : Type := list (nat * string).

Fixpoint capture (caps : Captures) (n : nat) : option string :=
  match caps with
  | [] => None
  | (m, text) :: rest => if (m =? n)%nat then Some text else capture rest n
  end.

(** The text between two positions of the same input: what was consumed
    from [s] to reach its suffix [s']. *)
Definition consumed (s s' : list ascii) : string :=
  string_of_list_ascii (firstn (length s - length s') s).

(** A match in progress: the character before the position, the rest of the
    input, the captures.  A continuation receives the state after a
    sub-pattern and returns the final state, or [None] to make the matcher
    backtrack. *)
Definition Cont : Type :=
  option ascii -> list ascii -> Captures -> option (list ascii * Captures).

Fixpoint run (ignoreCase : bool) (r : regex) (prev : option ascii) (s : list ascii)
    (caps : Captures) (k : Cont) {struct r} : option (list ascii * Captures) :=
  let single (accepts : ascii -> bool) :=
    match s with
    | c :: s' => if accepts c then k (Some c) s' caps else None
    | [] => None
    end in
  (* a whole character, for the classes that go by code point; a character
     above U+FFFF, which is two code units, is taken in one step *)
  let character (accepts : N -> bool) :=
    match s with
    | _ :: _ =>
        if accepts (codePoint s)
        then k (nth_error s (sequenceLength s - 1)) (skipn (sequenceLength s) s) caps
        else None
    | [] => None
    end in
  match r with
  | Chr x =>
      single (fun c => if ignoreCase then (upperChar c =? upperChar x)%char else (c =? x)%char)
  | Dot => character (fun n => negb (isLineTerminator n))
  | Digit => single isDigit
  | Space => character isWhiteSpace
  | WordBoundary => if xorb (wordBefore prev) (wordAfter s) then k prev s caps else None
  | Eps => k prev s caps
  | Seq r1 r2 =>
      run ignoreCase r1 prev s caps (fun prev' s' caps' => run ignoreCase r2 prev' s' caps' k)
  | Alt r1 r2 =>
      match run ignoreCase r1 prev s caps k with
      | Some result => Some result
      | None => run ignoreCase r2 prev s caps k
      end
  | Opt r1 =>
      match run ignoreCase r1 prev s caps k with
      | Some result => Some result
      | None => k prev s caps
      end
  | Star r1 =>
      (fix iterate (bound : nat) (prev : option ascii) (s : list ascii) (caps : Captures)
         {struct bound} : option (list ascii * Captures) :=
         match bound with
         | O => k prev s caps
         | S bound' =>
             match run ignoreCase r1 prev s caps
                     (fun prev' s' caps' =>
                        if (length s' <? length s)%nat then iterate bound' prev' s' caps'
                        else None) with
             | Some result => Some result
             | None => k prev s caps
             end
         end) (length s) prev s caps
  | LazyStar r1 =>
      (fix iterate (bound : nat) (prev : option ascii) (s : list ascii) (caps : Captures)
         {struct bound} : option (list ascii * Captures) :=
         match k prev s caps with
         | Some result => Some result
         | None =>
             match bound with
             | O => None
             | S bound' =>
                 run ignoreCase r1 prev s caps
                   (fun prev' s' caps' =>
                      if (length s' <? length s)%nat then iterate bound' prev' s' caps'
                      else None)
             end
         end) (length s) prev s caps
  | Group n r1 =>
      run ignoreCase r1 prev s caps
        (fun prev' s' caps' => k prev' s' ((n, consumed s s') :: caps'))
  end.

(** A successful match: the matched text (element 0 of the match array) and
    the captures. *)
Record Match : Type := {
  matched : string;
  groups : Captures
}.

(** The match of [r] that starts at the current position, if any. *)
Definition matchHere (ignoreCase : bool) (r : regex) (prev : option ascii) (s : list ascii)
    : option Match :=
  match run ignoreCase r prev s [] (fun _ s' caps' => Some (s', caps')) with
  | Some (s', caps') => Some {| matched := consumed s s'; groups := caps' |}
  | None => None
  end.

(** The leftmost match: every start position is tried, from left to right. *)
Fixpoint search (ignoreCase : bool) (r : regex) (prev : option ascii) (s : list ascii)
    : option Match :=
  match matchHere ignoreCase r prev s with
  | Some m => Some m
  | None =>
      match s with
      | [] => None
      | c :: s' => search ignoreCase r (Some c) s'
      end
  end.

(** [text.match(r)] for a pattern without the [g] flag. *)
Definition exec (ignoreCase : bool) (r : regex) (text : string) : option Match :=
  search ignoreCase r None (list_ascii_of_string text).

End Regex.

(** ** The recommendation route ([POST /api/ai/recommendations]) *)

Module Recommendations.

Import Regex.

Record Recommendation : Type := {
  id : string;
  title : string;
  description : string;
  category : string;
  confidence : Q
}.

Definition rec (i t d c : string) (conf : Q) : Recommendation :=
  {| id := i; title := t; description := d; category := c; confidence := conf |}.

(** [(?:list|show|give me|find)\s+(?:top\s+)?(\d+)?\s*(?:best|top|greatest|most popular)\s+(.+?)(?:movies?|tv shows?|series)],
    with the flag [i]. *)
Definition topListPattern : regex :=
  Seq (Alt (Lit "list") (Alt (Lit "show") (Alt (Lit "give me") (Lit "find"))))
 (Seq (Plus Space)
 (Seq (Opt (Seq (Lit "top") (Plus Space)))
 (Seq (Opt (Group 1 (Plus Digit)))
 (Seq (Star Space)
 (Seq (Alt (Lit "best") (Alt (Lit "top") (Alt (Lit "greatest") (Lit "most popular"))))
 (Seq (Plus Space)
 (Seq (Group 2 (LazyPlus Dot))
      (Alt (Seq (Lit "movie") (Opt (Chr "s")))
      (Alt (Seq (Lit "tv show") (Opt (Chr "s")))
           (Lit "series")))))))))).

(** The static table of [generateTopListRecommendations], in the order of
    [Object.entries]. *)
Definition topLists : list (string * list Recommendation) :=
  [
    ("action",
     [
       rec "a1" "Mad Max: Fury Road"
           "High-octane post-apocalyptic action masterpiece"
           "Action Movie" (95 # 100);
       rec "a2" "John Wick"
           "Stylish revenge thriller with incredible choreography"
           "Action Movie" (92 # 100);
       rec "a3" "The Raid"
           "Indonesian martial arts action film with brutal intensity"
           "Action Movie" (9 # 10);
       rec "a4" "Mission: Impossible - Fallout"
           "Tom Cruise's most dangerous stunts in this spy thriller"
           "Action Movie" (89 # 100);
       rec "a5" "Daredevil"
           "Netflix's gritty superhero series with amazing fight scenes"
           "Action Series" (87 # 100)
     ]);
    ("horror",
     [
       rec "h1" "Hereditary"
           "Psychological horror that redefines family trauma"
           "Horror Movie" (94 # 100);
       rec "h2" "The Conjuring"
           "Classic supernatural horror with perfect atmosphere"
           "Horror Movie" (91 # 100);
       rec "h3" "Get Out"
           "Social thriller that revolutionized horror cinema"
           "Horror Movie" (93 # 100);
       rec "h4" "The Haunting of Hill House"
           "Netflix's masterful horror series about family and ghosts"
           "Horror Series" (9 # 10);
       rec "h5" "Midsommar"
           "Disturbing folk horror set in broad daylight"
           "Horror Movie" (88 # 100)
     ]);
    ("comedy",
     [
       rec "c1" "The Grand Budapest Hotel"
           "Wes Anderson's whimsical comedy masterpiece"
           "Comedy Movie" (92 # 100);
       rec "c2" "Brooklyn Nine-Nine"
           "Perfect workplace comedy with diverse cast"
           "Comedy Series" (9 # 10);
       rec "c3" "Parasite"
           "Dark comedy thriller about class warfare"
           "Comedy-Thriller" (95 # 100);
       rec "c4" "Schitt's Creek"
           "Heartwarming comedy about family and growth"
           "Comedy Series" (89 # 100);
       rec "c5" "What We Do in the Shadows"
           "Vampire mockumentary series that's absolutely hilarious"
           "Comedy Series" (87 # 100)
     ]);
    ("drama",
     [
       rec "d1" "Breaking Bad"
           "The ultimate character transformation drama"
           "Crime Drama" (97 # 100);
       rec "d2" "The Godfather"
           "Epic crime saga that defined cinema"
           "Drama Movie" (96 # 100);
       rec "d3" "Better Call Saul"
           "Breaking Bad prequel with incredible character depth"
           "Crime Drama" (94 # 100);
       rec "d4" "Moonlight"
           "Coming-of-age drama with beautiful cinematography"
           "Drama Movie" (93 # 100);
       rec "d5" "The Crown"
           "Royal family drama with stunning production values"
           "Historical Drama" (91 # 100)
     ]);
    ("sci-fi",
     [
       rec "s1" "Blade Runner 2049"
           "Visually stunning cyberpunk masterpiece"
           "Sci-Fi Movie" (94 # 100);
       rec "s2" "The Expanse"
           "Hard science fiction with realistic space politics"
           "Sci-Fi Series" (92 # 100);
       rec "s3" "Arrival"
           "Thoughtful alien contact film about communication"
           "Sci-Fi Movie" (91 # 100);
       rec "s4" "Black Mirror"
           "Anthology series exploring technology's dark side"
           "Sci-Fi Series" (9 # 10);
       rec "s5" "Dune"
           "Epic space opera with incredible world-building"
           "Sci-Fi Movie" (89 # 100)
     ]);
    ("netflix",
     [
       rec "n1" "Stranger Things"
           "80s nostalgia meets supernatural horror"
           "Netflix Original" (93 # 100);
       rec "n2" "The Queen's Gambit"
           "Chess prodigy's journey through addiction and genius"
           "Netflix Original" (92 # 100);
       rec "n3" "Ozark"
           "Money laundering family drama in the Missouri Ozarks"
           "Netflix Original" (9 # 10);
       rec "n4" "Mindhunter"
           "FBI profilers study serial killers in the 1970s"
           "Netflix Original" (89 # 100);
       rec "n5" "Dark"
           "German time-travel thriller with complex storytelling"
           "Netflix Original" (88 # 100)
     ])
  ].

(** The table of [generateMockRecommendations]. *)
Definition mockRecommendations : list (string * list Recommendation) :=
  [
    ("netflix",
     [
       rec "1" "Stranger Things"
           "Supernatural thriller series set in the 1980s with great character development"
           "Netflix Original" (9 # 10);
       rec "2" "The Crown"
           "Historical drama about the British Royal Family with excellent production values"
           "Netflix Original" (85 # 100)
     ]);
    ("hbo",
     [
       rec "3" "Game of Thrones"
           "Epic fantasy series with complex characters and political intrigue"
           "HBO Original" (9 # 10);
       rec "4" "The Last of Us"
           "Post-apocalyptic drama based on the popular video game"
           "HBO Original" (88 # 100)
     ]);
    ("sci-fi",
     [
       rec "5" "Blade Runner 2049"
           "Visually stunning sequel to the classic cyberpunk film"
           "Sci-Fi Movie" (92 # 100);
       rec "6" "The Expanse"
           "Hard science fiction series with realistic space politics"
           "Sci-Fi Series" (87 # 100)
     ]);
    ("thriller",
     [
       rec "7" "Mindhunter"
           "Psychological crime series about FBI profilers studying serial killers"
           "Crime Thriller" (89 # 100);
       rec "8" "Gone Girl"
           "Psychological thriller about a missing wife and suspicious husband"
           "Psychological Thriller" (86 # 100)
     ]);
    ("comedy",
     [
       rec "9" "The Office"
           "Mockumentary sitcom about office workers with great character humor"
           "Comedy Series" (91 # 100);
       rec "10" "Brooklyn Nine-Nine"
           "Police procedural comedy with diverse cast and clever writing"
           "Comedy Series" (84 # 100)
     ]);
    ("ryan gosling",
     [
       rec "11" "La La Land"
           "Musical romantic drama about aspiring artists in Los Angeles"
           "Musical Drama" (93 # 100);
       rec "12" "Drive"
           "Neo-noir action film with stylish cinematography and minimal dialogue"
           "Action Thriller" (88 # 100)
     ]);
    ("default",
     [
       rec "13" "Breaking Bad"
           "Crime drama about a chemistry teacher turned methamphetamine manufacturer"
           "Crime Drama" (95 # 100);
       rec "14" "The Mandalorian"
           "Star Wars series following a bounty hunter in the outer rim"
           "Sci-Fi Adventure" (87 # 100);
       rec "15" "Parasite"
           "Korean thriller about class conflict and social inequality"
           "International Thriller" (94 # 100)
     ])
  ].


(** The surroundings of a recommendation request: the environment variable,
    the text-generation service behind [generateRealAIRecommendations]
    (its answer, already converted, or the error it throws), and the
    arrangement that [sort(() => Math.random() - 0.5)] leaves. *)
Record Env : Type := {
  env_HUGGINGFACE_API_KEY : option string;
  generateRealAIRecommendations : string -> string -> option Z -> JsResult (list Recommendation);
  shuffled : list Recommendation -> list Recommendation
}.

(** [recommendations.length > count]; the comparison is false for [NaN]. *)
Definition longerThan (l : list Recommendation) (count : option Z) : bool :=
  match count with
  | Some n => (Z.of_nat (length l) >? n)%Z
  | None => false
  end.

(** The first entry of the table whose key contains the category or is
    contained in it. *)
Fixpoint findCategory (table : list (string * list Recommendation)) (categoryLower : string)
    : option (string * list Recommendation) :=
  match table with
  | [] => None
  | (key, list) :: rest =>
      if includes categoryLower key || includes key categoryLower then Some (key, list)
      else findCategory rest categoryLower
  end.

(** [generateTopListRecommendations(category, count)] *)
Definition generateTopListRecommendations (category : string) (count : option Z)
    : list Recommendation :=
  let categoryLower := toLowerCase category in
  let recommendations :=
    match findCategory topLists categoryLower with
    | Some (_, list) => list
    | None => []
    end in
  let recommendations :=
    match recommendations with
    | [] =>
        let allRecommendations := concat (map snd topLists) in
        sort (fun a b => (confidence b - confidence a)%Q) allRecommendations
    | _ :: _ => recommendations
    end in
  if longerThan recommendations count
  then slice0 (default 0%Z count) recommendations
  else recommendations.

(** [generateMockRecommendations(query, maxRecommendations)] *)
Definition generateMockRecommendations (env : Env) (query : string) (maxRecommendations : Z)
    : list Recommendation :=
  let queryLower := toLowerCase query in
  let selectedRecommendations :=
    concat (map (fun '(key, recommendations) =>
                   if negb (key =? "default") && includes queryLower key
                   then recommendations else [])
                mockRecommendations) in
  let selectedRecommendations :=
    match selectedRecommendations with
    | [] => default [] (snd <$> List.find (fun '(key, _) => key =? "default") mockRecommendations)
    | _ :: _ => selectedRecommendations
    end in
  slice0 maxRecommendations (shuffled env selectedRecommendations).

(** [match[1] ? Number.parseInt(match[1]) : maxRecommendations]; [None] is
    [NaN]. *)
Definition requestedCount (m : Match) (maxRecommendations : Z) : option Z :=
  match capture (groups m) 1 with
  | Some digits => if truthy digits then parseInt digits else Some maxRecommendations
  | None => Some maxRecommendations
  end.

(** [match[2].trim()] *)
Definition categoryOf (m : Match) : string :=
  trim (default "" (capture (groups m) 2)).

(** [generateAIRecommendations(query, maxRecommendations)] *)
Definition generateAIRecommendations (env : Env) (query : string) (maxRecommendations : Z)
    : list Recommendation :=
  match exec true topListPattern query with
  | Some m =>
      let count := requestedCount m maxRecommendations in
      let category := categoryOf m in
      let fallback := generateTopListRecommendations category count in
      match env_HUGGINGFACE_API_KEY env with
      | Some key =>
          if truthy key then
            match generateRealAIRecommendations env query category count with
            | Ok recommendations => recommendations
            | Throw _ => fallback
            end
          else fallback
      | None => fallback
      end
  | None => generateMockRecommendations env query maxRecommendations
  end.

(** *** Vocabulary for statements about the top lists *)

(** An entry is tagged with a category when its [category] text names it. *)
Definition taggedWith (key : string) (r : Recommendation) : bool :=
  includes (toLowerCase (category r)) key.

(** The text-generation service is out of the picture: no key, or the call
    throws. *)
Definition staticOnly (env : Env) (query category : string) (count : option Z) : Prop :=
  env_HUGGINGFACE_API_KEY env = None
  \/ env_HUGGINGFACE_API_KEY env = Some ""
  \/ exists e, generateRealAIRecommendations env query category count = Throw e.

End Recommendations.

(** ** The query interpreter ([parseQueryIntelligently])

    The rule-based interpreter and its result.  [interpretSearchQueryWithLLM]
    returns [parseQueryIntelligently(query, filters)] on each of its paths;
    neither function, nor [discoverContent], is called from
    [searchContent]. *)

Module Interpreter.

Import Regex.

Record Intent : Type := {
  searchTerms : option string;
  filters : SearchFilters;
  useDiscoverAPI : bool;
  reasoning : string
}.

(** [{ ...filters }] for a [filters] that may be [undefined]. *)
Definition emptyFilters : SearchFilters :=
  {| Filters.platform := None; Filters.genre := None; Filters.language := None;
     Filters.country := None; Filters.type := None; Filters.year := None;
     Filters.rating_min := None |}.

Definition setLanguage (f : SearchFilters) (v : string) : SearchFilters :=
  {| Filters.platform := Filters.platform f; Filters.genre := Filters.genre f;
     Filters.language := Some v; Filters.country := Filters.country f;
     Filters.type := Filters.type f; Filters.year := Filters.year f;
     Filters.rating_min := Filters.rating_min f |}.

Definition setGenre (f : SearchFilters) (v : string) : SearchFilters :=
  {| Filters.platform := Filters.platform f; Filters.genre := Some v;
     Filters.language := Filters.language f; Filters.country := Filters.country f;
     Filters.type := Filters.type f; Filters.year := Filters.year f;
     Filters.rating_min := Filters.rating_min f |}.

Definition setPlatform (f : SearchFilters) (v : string) : SearchFilters :=
  {| Filters.platform := Some v; Filters.genre := Filters.genre f;
     Filters.language := Filters.language f; Filters.country := Filters.country f;
     Filters.type := Filters.type f; Filters.year := Filters.year f;
     Filters.rating_min := Filters.rating_min f |}.

Definition setYear (f : SearchFilters) (v : option Z) : SearchFilters :=
  {| Filters.platform := Filters.platform f; Filters.genre := Filters.genre f;
     Filters.language := Filters.language f; Filters.country := Filters.country f;
     Filters.type := Filters.type f; Filters.year := v;
     Filters.rating_min := Filters.rating_min f |}.

Definition setType (f : SearchFilters) (v : string) : SearchFilters :=
  {| Filters.platform := Filters.platform f; Filters.genre := Filters.genre f;
     Filters.language := Filters.language f; Filters.country := Filters.country f;
     Filters.type := Some v; Filters.year := Filters.year f;
     Filters.rating_min := Filters.rating_min f |}.

(** [Object.keys(enhancedFilters).length] *)
Definition keyCount (f : SearchFilters) : nat :=
  let present {A : Type} (x : option A) :=
    match x with
    | Some _ => 1
    | None => 0
    end in
  present (Filters.platform f) + present (Filters.genre f) + present (Filters.language f)
  + present (Filters.country f) + present (Filters.type f) + present (Filters.year f)
  + present (Filters.rating_min f).

Definition topPatterns : list string :=
  ["top"; "best"; "highest rated"; "greatest"; "popular"; "trending"; "recommended"].

Definition genres : list string :=
  ["action"; "comedy"; "drama"; "horror"; "thriller"; "romance"; "sci-fi"; "fantasy";
   "animation"; "documentary"].

Definition platforms : list string :=
  ["netflix"; "hbo"; "amazon prime"; "disney"; "apple tv"; "paramount"; "hulu"; "zee5";
   "hotstar"].

(** [\b(19|20)\d{2}\b] *)
Definition yearPattern : regex :=
  Seq WordBoundary
 (Seq (Group 1 (Alt (Lit "19") (Lit "20")))
 (Seq Digit (Seq Digit WordBoundary))).

Definition discover (f : SearchFilters) (why : string) : Intent :=
  {| searchTerms := None; filters := f; useDiscoverAPI := true; reasoning := why |}.

Definition withFilters (i : Intent) (f : SearchFilters) : Intent :=
  {| searchTerms := searchTerms i; filters := f; useDiscoverAPI := useDiscoverAPI i;
     reasoning := reasoning i |}.

(** [parseQueryIntelligently(query, filters)] *)
Definition parseQueryIntelligently (query : string) (given : option SearchFilters) : Intent :=
  let queryLower := trim (toLowerCase query) in
  let start :=
    {| searchTerms := Some query; filters := default emptyFilters given;
       useDiscoverAPI := false; reasoning := "Using specific title search" |} in
  let hasTopPattern := some (fun pattern => includes queryLower pattern) topPatterns in
  (* language patterns: the first language named in the query *)
  let afterLanguage :=
    match List.find (fun '(langName, _) => includes queryLower langName) LANGUAGE_CODES with
    | Some (langName, langCode) =>
        let f := setLanguage (filters start) (toUpperCase langCode) in
        if includes queryLower (langName +:+ " movies")
           || includes queryLower (langName +:+ " shows")
        then discover f ("Language-specific content discovery for " +:+ langName)
        else withFilters start f
    | None => start
    end in
  (* genre patterns *)
  let afterGenre :=
    match List.find (fun genre => includes queryLower genre) genres with
    | Some genre =>
        let f := setGenre (filters afterLanguage) genre in
        if hasTopPattern || includes queryLower (genre +:+ " movies")
           || includes queryLower (genre +:+ " shows")
        then discover f ("Genre-based discovery for " +:+ genre)
        else withFilters afterLanguage f
    | None => afterLanguage
    end in
  (* platform patterns *)
  let afterPlatform :=
    match List.find (fun platform => includes queryLower platform) platforms with
    | Some platform =>
        let f := setPlatform (filters afterGenre) platform in
        if hasTopPattern
        then discover f ("Platform-specific discovery for " +:+ platform)
        else withFilters afterGenre f
    | None => afterGenre
    end in
  (* year patterns *)
  let afterYear :=
    match exec false yearPattern queryLower with
    | Some yearMatch =>
        withFilters afterPlatform (setYear (filters afterPlatform) (parseInt (matched yearMatch)))
    | None => afterPlatform
    end in
  (* type patterns *)
  let afterType :=
    if includes queryLower "movies" && negb (includes queryLower "tv")
    then withFilters afterYear (setType (filters afterYear) "movie")
    else if includes queryLower "shows" || includes queryLower "series"
            || includes queryLower "tv"
    then withFilters afterYear (setType (filters afterYear) "tv")
    else afterYear in
  if hasTopPattern && (0 <? keyCount (filters afterType))%nat
  then discover (filters afterType) "Top-rated content discovery with filters"
  else afterType.

End Interpreter.

(** ** Sample data used by the examples *)

Module Samples.

Definition item (t : ContentType) (name : string) (tmdb imdb : Q) (year : Z) : Content :=
  {| id := 1; title := name; type := t; description := "No description available";
     release_year := year; poster_url := "/placeholder.svg"; backdrop_url := None;
     imdb_rating := imdb; rotten_tomatoes_rating := None; tmdb_rating := tmdb;
     genre := "Drama"; streaming_platforms := ["Netflix"]; cast := [];
     runtime := 120; country := "US"; language := "EN"; trailer_url := None;
     status := "released" |}.

(** The text with the given UTF-8 bytes. *)
Definition utf8 (bytes : list nat) : string :=
  string_of_list_ascii (map ascii_of_nat bytes).

(** U+00A0, the no-break space. *)
Definition noBreakSpace : string := utf8 [194; 160].

(** Sixty times U+00E9, e with acute: 60 code units in 120 bytes. *)
Definition sixtyAccents : string := utf8 (concat (repeat [195; 169] 60)).

(** Fifty-one times U+1F600, a character above U+FFFF: 102 code units. *)
Definition fiftyOneFaces : string := utf8 (concat (repeat [240; 159; 152; 128] 51)).

(** The filter object the route builds when only [q] is given. *)
Definition noFilters : SearchFilters :=
  {| Filters.platform := Some ""; Filters.genre := Some ""; Filters.language := Some "";
     Filters.country := Some ""; Filters.type := Some ""; Filters.year := None;
     Filters.rating_min := None |}.

Definition ratingFloor (r : Q) : SearchFilters :=
  {| Filters.platform := Some ""; Filters.genre := Some ""; Filters.language := Some "";
     Filters.country := Some ""; Filters.type := Some ""; Filters.year := None;
     Filters.rating_min := Some r |}.

Definition onlyType (t : string) : SearchFilters :=
  {| Filters.platform := Some ""; Filters.genre := Some ""; Filters.language := Some "";
     Filters.country := Some ""; Filters.type := Some t; Filters.year := None;
     Filters.rating_min := None |}.

(** Liked by one source only: 5.0 on TMDB, 8.0 on IMDb; and the reverse. *)
Definition splitA : Content := item Movie "Split A" 5 8 2020.
Definition splitB : Content := item TV "Split B" 8 5 2021.

(** Converters that copy the fields the examples look at. *)
Definition movieContent (m : TMDBMovie.t) : Content :=
  item Movie (TMDBMovie.title m) (TMDBMovie.vote_average m) (TMDBMovie.vote_average m) 2024.

Definition showContent (s : TMDBTVShow.t) : Content :=
  item TV (TMDBTVShow.name s) (TMDBTVShow.vote_average s) (TMDBTVShow.vote_average s) 2024.

Definition movie (name : string) (vote : Q) : TMDBMovie.t :=
  {| TMDBMovie.id := 1; TMDBMovie.title := name; TMDBMovie.overview := "";
     TMDBMovie.release_date := "2024-01-01"; TMDBMovie.poster_path := None;
     TMDBMovie.backdrop_path := None; TMDBMovie.vote_average := vote;
     TMDBMovie.genre_ids := [18%Z]; TMDBMovie.adult := false;
     TMDBMovie.original_language := "en"; TMDBMovie.runtime := None;
     TMDBMovie.status := None |}.

Definition show (name : string) (vote : Q) : TMDBTVShow.t :=
  {| TMDBTVShow.id := 2; TMDBTVShow.name := name; TMDBTVShow.overview := "";
     TMDBTVShow.first_air_date := "2024-01-01"; TMDBTVShow.poster_path := None;
     TMDBTVShow.backdrop_path := None; TMDBTVShow.vote_average := vote;
     TMDBTVShow.genre_ids := [18%Z]; TMDBTVShow.origin_country := ["US"];
     TMDBTVShow.original_language := "en"; TMDBTVShow.episode_run_time := None;
     TMDBTVShow.status := None |}.

Definition okPage {Item : Type} (results : list Item) : FetchOutcome Item :=
  Responded {| Http.ok := true; Http.status := 200; Http.statusText := "OK";
               Http.json := Ok (Some results) |}.

Definition errorPage {Item : Type} (code : N) (text : string) : FetchOutcome Item :=
  Responded {| Http.ok := false; Http.status := code; Http.statusText := text;
               Http.json := Ok None |}.

Definition world (movies : string -> nat -> FetchOutcome TMDBMovie.t)
    (shows : string -> nat -> FetchOutcome TMDBTVShow.t) : World :=
  {| env_TMDB_API_KEY := Some "0123456789abcdef";
     fetchMovies := movies; fetchTVShows := shows;
     convertTMDBMovieToContent := movieContent;
     convertTMDBMovieToContentWithRealData := movieContent;
     convertTMDBTVToContent := showContent;
     convertTMDBTVToContentWithRealData := showContent |}.

Definition duneShows : list TMDBTVShow.t :=
  [show "Dune (2000)" (68 # 10); show "Dune: Prophecy" (73 # 10)].

Definition duneMovies : list TMDBMovie.t :=
  [movie "Dune" (78 # 10); movie "Dune: Part Two" (81 # 10)].

(** The movie endpoint answers 500; the TV endpoint has two shows. *)
Definition moviesDown : World :=
  world (fun _ _ => errorPage 500 "Internal Server Error")
        (fun _ page => if (page =? 1)%nat then okPage duneShows else okPage []).

(** The TV endpoint is unreachable; the movie endpoint has two films. *)
Definition showsDown : World :=
  world (fun _ page => if (page =? 1)%nat then okPage duneMovies else okPage [])
        (fun _ _ => Failed (ErrorObject "fetch failed")).

(** The movie endpoint rejects the key; the TV endpoint answers 503. *)
Definition bothDown : World :=
  world (fun _ _ => errorPage 401 "Unauthorized")
        (fun _ _ => errorPage 503 "Service Unavailable").

(** Two full movie pages and a third with three items; one page of shows. *)
Definition threePages : World :=
  world (fun _ page => if (page <=? 2)%nat then okPage (repeat (movie "Alien" 8) 20)
                       else okPage (repeat (movie "Aliens" (79 # 10)) 3))
        (fun _ page => okPage [show "Alien: Earth" 7]).

(** An upstream that never runs out of full pages. *)
Definition endless : World :=
  world (fun _ _ => okPage (repeat (movie "Again" 5) 20))
        (fun _ _ => okPage (repeat (show "Again" 5) 20)).

(** A [parseFloat] for decimal literals, with exact values: white space, a
    sign, [Infinity] or digits with an optional fraction and exponent.  It
    agrees with [Number.parseFloat] wherever the decimal value is a binary64
    number, as for 7.5 or 11.5. *)
Definition decimalParseFloat (s : string) : JsNumber :=
  let '(negative, l) := readSign (trimStartChars (list_ascii_of_string s)) in
  if String.prefix "Infinity" (string_of_list_ascii l) then Infinity negative else
  let '(ni, vi, l1) := readDigits 10 0 0%Z l in
  let '(nf, vf, l2) :=
    match l1 with
    | "."%char :: l' => readDigits 10 0 0%Z l'
    | _ => (O, 0%Z, l1)
    end in
  if (ni + nf =? 0)%nat then NaN else
  let exponent :=
    match l2 with
    | c :: l' =>
        if (c =? "e")%char || (c =? "E")%char then
          let '(eneg, l'') := readSign l' in
          let '(ne, ve, _) := readDigits 10 0 0%Z l'' in
          if (ne =? 0)%nat then 0%Z else if eneg then (- ve)%Z else ve
        else 0%Z
    | [] => 0%Z
    end in
  let scale := Z.to_pos (10 ^ Z.of_nat nf) in
  let mantissa := ((vi * Z.pos scale + vf) # scale)%Q in
  let value := (mantissa * Qpower 10 exponent)%Q in
  Finite (Qred (if negative then - value else value)%Q).

(** A run time in the year 2026 in front of a [searchContent] that answers
    with whatever [result] it is given. *)
Definition runtime (result : option (APIResponse (list Content))) : Route.Runtime :=
  {| Route.Number_parseFloat := decimalParseFloat; Route.currentYear := 2026;
     Route.searchContentOf := fun _ _ => result |}.

(** No text-generation key; the random comparator leaves the array as it
    is. *)
Definition noLLM : Recommendations.Env :=
  {| Recommendations.env_HUGGINGFACE_API_KEY := None;
     Recommendations.generateRealAIRecommendations :=
       fun _ _ _ => Throw (ErrorObject "Hugging Face API key not configured");
     Recommendations.shuffled := fun l => l |}.

(** A text-generation service that answers with one title of its own. *)
Definition withLLM : Recommendations.Env :=
  {| Recommendations.env_HUGGINGFACE_API_KEY := Some "hf_0123";
     Recommendations.generateRealAIRecommendations :=
       fun _ category _ =>
         Ok [Recommendations.rec "ai_0_0" "Alien" "AI-generated recommendation" category (8 # 10)];
     Recommendations.shuffled := fun l => l |}.

Definition horrorMatch : Regex.Match :=
  {| Regex.matched := "list top 3 best horror movies";
     Regex.groups := [(2, "horror "); (1, "3")] |}.

Definition horrorList : list Recommendations.Recommendation :=
  default [] (snd <$> List.find (fun '(key, _) => key =? "horror") Recommendations.topLists).

Definition defaultList : list Recommendations.Recommendation :=
  default [] (snd <$> List.find (fun '(key, _) => key =? "default")
                                Recommendations.mockRecommendations).

End Samples.

(** ** Proof automation *)

(** Case analysis on the innermost scrutinee of a [match] or [if] in the
    goal. *)
Ltac case_bool_subterm :=
  match goal with
  | |- context [match ?x with _ => _ end] =>
      lazymatch x with
      | context [match _ with _ => _ end] => fail
      | _ => destruct x eqn:?
      end
  end.

(** * Further parts of the library and of the routes *)

From Stdlib Require Import Qround.

(** ** The converters ([convertTMDBMovieToContent] and its siblings) *)

Module Convert.

(** [GENRE_MAP], as written. *)
Definition GENRE_MAP : list (Z * string) :=
  [ (28, "Action"); (12, "Adventure"); (16, "Animation"); (35, "Comedy"); (80, "Crime");
    (99, "Documentary"); (18, "Drama"); (10751, "Family"); (14, "Fantasy"); (36, "History");
    (27, "Horror"); (10749, "Romance"); (878, "Science Fiction"); (10770, "TV Movie");
    (53, "Thriller"); (10752, "War"); (37, "Western") ]%Z.

(** [GENRE_MAP[id]] *)
Fixpoint genreName (table : list (Z * string)) (id : Z) : option string :=
  match table with
  | [] => None
  | (key, name) :: rest => if (key =? id)%Z then Some name else genreName rest id
  end.

Definition TMDB_IMAGE_BASE_URL : string := "https://image.tmdb.org/t/p/w500".

(** [Array.prototype.join(separator)] *)
Fixpoint join (separator : string) (l : list string) : string :=
  match l with
  | [] => ""
  | [x] => x
  | x :: rest => x +:+ separator +:+ join separator rest
  end.

(** [a || b] on strings. *)
Definition orElse (a b : string) : string := if truthy a then a else b.

(** [genre_ids.map((id) => GENRE_MAP[id]).filter(Boolean).join(", ") || "Unknown"] *)
Definition genreText (genre_ids : list Z) : string :=
  let names := List.filter truthy (omap (genreName GENRE_MAP) genre_ids) in
  orElse (join ", " names) "Unknown".

(** What a conversion takes from the run time: the year of [new Date(s)]
    in local time, [Math.round(x * 10) / 10] on binary64 numbers, and
    [encodeURIComponent]. *)
Record Builtins : Type := {
  getFullYear : string -> Z;
  roundToTenth : Q -> Q;
  encodeURIComponent : string -> string
}.

(** [path ? `${TMDB_IMAGE_BASE_URL}${path}` : otherwise] *)
Definition imageUrl (path : option string) : option string :=
  match path with
  | Some p => if truthy p then Some (TMDB_IMAGE_BASE_URL +:+ p) else None
  | None => None
  end.

(** [x || fallback] on an optional number. *)
Definition numberOr (x : option Q) (fallback : Q) : Q :=
  match x with
  | Some v => if Qeq_bool v 0 then fallback else v
  | None => fallback
  end.

Definition stringOr (x : option string) (fallback : string) : string :=
  match x with
  | Some s => orElse s fallback
  | None => fallback
  end.

(** The fields common to [convertTMDBMovieToContent] and
    [convertTMDBMovieToContentWithRealData]; the two differ in where the
    platforms come from and in the trailer. *)
Definition movieToContent (b : Builtins) (platforms : list string) (trailer : option string)
    (movie : TMDBMovie.t) : Content :=
  {| id := TMDBMovie.id movie;
     title := TMDBMovie.title movie;
     type := Movie;
     description := orElse (TMDBMovie.overview movie) "No description available";
     release_year := getFullYear b (orElse (TMDBMovie.release_date movie) "2024");
     poster_url :=
       default ("/placeholder.svg?height=384&width=256&query="
                +:+ encodeURIComponent b (TMDBMovie.title movie +:+ " movie poster"))
               (imageUrl (TMDBMovie.poster_path movie));
     backdrop_url := imageUrl (TMDBMovie.backdrop_path movie);
     imdb_rating := roundToTenth b (TMDBMovie.vote_average movie);
     rotten_tomatoes_rating := None;
     tmdb_rating := TMDBMovie.vote_average movie;
     genre := genreText (TMDBMovie.genre_ids movie);
     streaming_platforms := platforms;
     cast := [];
     runtime := numberOr (TMDBMovie.runtime movie) 120;
     country := "US";
     language := toUpperCase (TMDBMovie.original_language movie);
     trailer_url := trailer;
     status := stringOr (TMDBMovie.status movie) "released" |}.

(** [convertTMDBMovieToContent(movie)]; [randomPlatforms] is what its call of
    [getRandomStreamingPlatforms] returns. *)
Definition convertTMDBMovieToContent (b : Builtins) (randomPlatforms : list string)
    (movie : TMDBMovie.t) : Content :=
  movieToContent b randomPlatforms None movie.

(** [convertTMDBMovieToContentWithRealData(movie)], given the results of
    [fetchWatchProviders] and [fetchTrailerUrl]. *)
Definition convertTMDBMovieToContentWithRealData (b : Builtins)
    (streamingPlatforms : list string) (trailerUrl : option string)
    (movie : TMDBMovie.t) : Content :=
  movieToContent b streamingPlatforms trailerUrl movie.

Definition showToContent (b : Builtins) (platforms : list string) (trailer : option string)
    (show : TMDBTVShow.t) : Content :=
  {| id := TMDBTVShow.id show;
     title := TMDBTVShow.name show;
     type := TV;
     description := orElse (TMDBTVShow.overview show) "No description available";
     release_year := getFullYear b (orElse (TMDBTVShow.first_air_date show) "2024");
     poster_url :=
       default ("/placeholder.svg?height=384&width=256&query="
                +:+ encodeURIComponent b (TMDBTVShow.name show +:+ " tv show poster"))
               (imageUrl (TMDBTVShow.poster_path show));
     backdrop_url := imageUrl (TMDBTVShow.backdrop_path show);
     imdb_rating := roundToTenth b (TMDBTVShow.vote_average show);
     rotten_tomatoes_rating := None;
     tmdb_rating := TMDBTVShow.vote_average show;
     genre := genreText (TMDBTVShow.genre_ids show);
     streaming_platforms := platforms;
     cast := [];
     runtime :=
       numberOr (match TMDBTVShow.episode_run_time show with
                 | Some (first :: _) => Some first
                 | _ => None
                 end) 45;
     country :=
       match TMDBTVShow.origin_country show with
       | first :: _ => orElse first "US"
       | [] => "US"
       end;
     language := toUpperCase (TMDBTVShow.original_language show);
     trailer_url := trailer;
     status := stringOr (TMDBTVShow.status show) "released" |}.

Definition convertTMDBTVToContent (b : Builtins) (randomPlatforms : list string)
    (show : TMDBTVShow.t) : Content :=
  showToContent b randomPlatforms None show.

Definition convertTMDBTVToContentWithRealData (b : Builtins)
    (streamingPlatforms : list string) (trailerUrl : option string)
    (show : TMDBTVShow.t) : Content :=
  showToContent b streamingPlatforms trailerUrl show.

End Convert.

(** ** Platforms and trailers ([fetchWatchProviders], [fetchTrailerUrl]) *)

Module Enrich.

(** What a [fetch] and the reading of a JSON body come to, for the calls
    that read one object: [fetch] rejects, the response is not ok, or the
    body is read (and may fail to parse). *)
Inductive Fetched (Body : Type) : Type :=
| NoResponse (e : JsError)
| Refused (status : N)
| Answered (body : JsResult Body).
Arguments NoResponse {Body} e.
Arguments Refused {Body} status.
Arguments Answered {Body} body.

(** The two sources of chance in [getRandomStreamingPlatforms]: the value of
    the first [Math.random()], and the arrangement that sorting with the
    comparator [() => 0.5 - Math.random()] leaves. *)
Record Randomness : Type := {
  firstDraw : Q;
  arrangement : list string -> list string
}.

Definition fallbackPlatforms : list string :=
  ["Netflix"; "HBO Max"; "Amazon Prime"; "Disney+"; "Apple TV+"; "Paramount+"; "Hulu"].

(** [getRandomStreamingPlatforms()] *)
Definition getRandomStreamingPlatforms (rnd : Randomness) : list string :=
  let count := (Qfloor (firstDraw rnd * 3) + 1)%Z in
  let shuffled := arrangement rnd fallbackPlatforms in
  slice0 count shuffled.

Record Provider : Type := { provider_name : string }.

(** [data.results?.[region]]: the provider lists of one region. *)
Record RegionData : Type := {
  flatrate : option (list Provider);
  rent : option (list Provider);
  buy : option (list Provider)
}.

(** [fetchWatchProviders(id, type)], given what the request for the watch
    providers of the item comes to and what a call of
    [getRandomStreamingPlatforms] would return. *)
Definition fetchWatchProviders (response : Fetched (option RegionData))
    (randomPlatforms : list string) : list string :=
  match response with
  | NoResponse _ => randomPlatforms
  | Refused _ => randomPlatforms
  | Answered (Throw _) => randomPlatforms
  | Answered (Ok None) => randomPlatforms
  | Answered (Ok (Some regionData)) =>
      let platforms := [] in
      let platforms :=
        match flatrate regionData with
        | Some providers => platforms ++ map provider_name providers
        | None => platforms
        end in
      let platforms :=
        match rent regionData with
        | Some providers =>
            if (length platforms <? 2)%nat
            then platforms ++ map provider_name (firstn 2 providers)
            else platforms
        | None => platforms
        end in
      let platforms :=
        match buy regionData with
        | Some providers =>
            if (length platforms <? 2)%nat
            then platforms ++ map provider_name (firstn 1 providers)
            else platforms
        | None => platforms
        end in
      match platforms with
      | [] => randomPlatforms
      | _ :: _ => platforms
      end
  end.

Module Video.
Record t : Type := {
  type : string;
  site : string;
  official : bool;
  key : string
}.
End Video.

Definition isOfficialTrailer (video : Video.t) : bool :=
  (Video.type video =? "Trailer") && (Video.site video =? "YouTube") && Video.official video.

Definition isTrailer (video : Video.t) : bool :=
  (Video.type video =? "Trailer") && (Video.site video =? "YouTube").

Definition isTeaserOrClip (video : Video.t) : bool :=
  (Video.site video =? "YouTube")
  && ((Video.type video =? "Teaser") || (Video.type video =? "Clip")).

(** [a || b] on the results of [Array.prototype.find]. *)
Definition orFind {A : Type} (a b : option A) : option A :=
  match a with
  | Some x => Some x
  | None => b
  end.

(** [fetchTrailerUrl(id, type)], given what the request for the videos of
    the item comes to. *)
Definition fetchTrailerUrl (response : Fetched (option (list Video.t))) : option string :=
  match response with
  | NoResponse _ => None
  | Refused _ => None
  | Answered (Throw _) => None
  | Answered (Ok results) =>
      let videos := default [] results in
      let trailer :=
        orFind (List.find isOfficialTrailer videos)
               (orFind (List.find isTrailer videos) (List.find isTeaserOrClip videos)) in
      match trailer with
      | Some video => Some ("https://www.youtube.com/watch?v=" +:+ Video.key video)
      | None => None
      end
  end.

End Enrich.

(** ** Category discovery ([discoverContent]) *)

Module Discover.

(** [Object.entries] of an object with integer keys lists them in ascending
    order of the key. *)
Definition objectEntries (table : list (Z * string)) : list (Z * string) :=
  sort (fun a b => inject_Z (fst a - fst b)) table.

(** The value of a property read from the plain object [LANGUAGE_CODES]: a
    code of the table, nothing, or, for the two lower-case names that
    [Object.prototype] defines, an inherited object. *)
Inductive Property : Type :=
| Code (code : string)
| Inherited (key : string)
| Missing.

Definition readLanguageCode (key : string) : Property :=
  match lookupCode LANGUAGE_CODES key with
  | Some code => Code code
  | None =>
      if (key =? "constructor") || (key =? "__proto__") then Inherited key else Missing
  end.

(** The value appended as [with_original_language]:
    [LANGUAGE_CODES[language.toLowerCase()] || language.toLowerCase()]. *)
Definition languageParameter (language : string) : Property :=
  match readLanguageCode (toLowerCase language) with
  | Code code => if truthy code then Code code else Code (toLowerCase language)
  | Inherited key => Inherited key
  | Missing => Code (toLowerCase language)
  end.

(** The id of the first genre, in the order of [Object.entries], whose name
    contains the filter's genre, both in lower case. *)
Definition genreId (genre : string) : option Z :=
  fst <$> List.find (fun '(_, name) => includes (toLowerCase name) (toLowerCase genre))
                    (objectEntries Convert.GENRE_MAP).

(** The query parameters of one discovery request, beside the key, the sort
    order and the vote threshold, which are constant. *)
Record Params : Type := {
  page : nat;
  with_original_language : option Property;
  primary_release_year : option Z;
  first_air_date_year : option Z;
  with_genres : option Z
}.

(** [searchIntent], of which the function reads [year]. *)
Record SearchIntent : Type := { year : option Z }.

Definition truthyYear (y : option Z) : option Z :=
  match y with
  | Some v => if (v =? 0)%Z then None else Some v
  | None => None
  end.

Definition truthyText (x : option string) : option string :=
  match x with
  | Some s => if truthy s then Some s else None
  | None => None
  end.

Definition movieParams (searchIntent : SearchIntent) (filters : SearchFilters) (p : nat)
    : Params :=
  {| page := p;
     with_original_language := languageParameter <$> truthyText (Filters.language filters);
     primary_release_year := truthyYear (year searchIntent);
     first_air_date_year := truthyYear (year searchIntent);
     with_genres := truthyText (Filters.genre filters) ≫= genreId |}.

Definition tvParams (searchIntent : SearchIntent) (filters : SearchFilters) (p : nat)
    : Params :=
  {| page := p;
     with_original_language := languageParameter <$> truthyText (Filters.language filters);
     primary_release_year := None;
     first_air_date_year := truthyYear (year searchIntent);
     with_genres := truthyText (Filters.genre filters) ≫= genreId |}.

(** The two discovery endpoints. *)
Record Upstream : Type := {
  discoverMovies : Params -> FetchOutcome TMDBMovie.t;
  discoverTVShows : Params -> FetchOutcome TMDBTVShow.t
}.

(** One of the two [for] loops, over the pages still to visit: the content
    gathered (or the error thrown) and the requests made. *)
Fixpoint discoverPages {Item : Type} (fetch : Params -> FetchOutcome Item)
    (convert : Item -> Content) (paramsOf : nat -> Params) (pages : list nat)
    (allContent : list Content) (asked : list Params)
    : JsResult (list Content) * list Params :=
  match pages with
  | [] => (Ok allContent, asked)
  | p :: rest =>
      let asked := asked ++ [paramsOf p] in
      match fetch (paramsOf p) with
      | Failed e => (Throw e, asked)
      | Responded response =>
          if Http.ok response then
            match Http.json response with
            | Throw e => (Throw e, asked)
            | Ok results =>
                let allContent :=
                  match results with
                  | Some ((_ :: _) as found) => allContent ++ map convert found
                  | _ => allContent
                  end in
                let last :=
                  match results with
                  | Some found => (length found <? 20)%nat
                  | None => true
                  end in
                if last then (Ok allContent, asked)
                else discoverPages fetch convert paramsOf rest allContent asked
            end
          else discoverPages fetch convert paramsOf rest allContent asked
      end
  end.

(** The pages of [for (let page = 1; page <= 10; page++)]. *)
Definition tenPages : list nat := seq 1 10.

Definition sortedByRating (allContent : list Content) : list Content :=
  sort (fun a b => tmdb_rating b - tmdb_rating a)%Q allContent.

(** [discoverContent(searchIntent, filters)]: the response, and the requests
    made to the movie and to the TV endpoint. *)
Definition discoverContent (w : World) (up : Upstream) (searchIntent : SearchIntent)
    (filters : SearchFilters)
    : APIResponse (list Content) * (list Params * list Params) :=
  match discoverPages (discoverMovies up) (convertTMDBMovieToContent w)
          (movieParams searchIntent filters) tenPages [] [] with
  | (Throw _, askedMovies) => (failure "No Results found", (askedMovies, []))
  | (Ok movies, askedMovies) =>
      match discoverPages (discoverTVShows up) (convertTMDBTVToContent w)
              (tvParams searchIntent filters) tenPages movies [] with
      | (Throw _, askedShows) => (failure "No Results found", (askedMovies, askedShows))
      | (Ok allContent, askedShows) =>
          ({| success := true; data := Some (sortedByRating allContent);
              error := None; message := None |},
           (askedMovies, askedShows))
      end
  end.

End Discover.

(** ** Trending content ([fetchTrendingContent], [getTrendingContent]) *)

Module Trending.

(** The [page] parameter of a trending URL: absent, the text [NaN], or a
    number. *)
Inductive PageParameter : Type :=
| NoPage
| PageNaN
| PageNumber (n : Z).

(** The two trending endpoints, by time window and page. *)
Record Upstream : Type := {
  trendingMovies : string -> PageParameter -> FetchOutcome TMDBMovie.t;
  trendingTVShows : string -> PageParameter -> FetchOutcome TMDBTVShow.t
}.

(** [[...movies, ...tvShows].sort((a, b) => b.tmdb_rating - a.tmdb_rating).slice(0, n)] *)
Definition topRated (n : Z) (movies tvShows : list Content) : list Content :=
  slice0 n (Discover.sortedByRating (movies ++ tvShows)).

(** The part of both functions after [Promise.all]: the two responses must
    be ok, both bodies must parse and hold [results]; the converted items
    are returned, or an error is thrown. *)
Definition bothResults (w : World) (movies : FetchOutcome TMDBMovie.t)
    (shows : FetchOutcome TMDBTVShow.t) (notOk : N -> N -> JsError)
    : JsResult (list Content * list Content) :=
  match movies, shows with
  | Failed e, _ => Throw e
  | _, Failed e => Throw e
  | Responded moviesResponse, Responded tvResponse =>
      if negb (Http.ok moviesResponse) || negb (Http.ok tvResponse)
      then Throw (notOk (Http.status moviesResponse) (Http.status tvResponse))
      else
        match Http.json moviesResponse, Http.json tvResponse with
        | Throw e, _ => Throw e
        | _, Throw e => Throw e
        | Ok (Some movieResults), Ok (Some tvResults) =>
            Ok (map (convertTMDBMovieToContent w) movieResults,
                map (convertTMDBTVToContent w) tvResults)
        | Ok _, Ok _ =>
            Throw (ErrorObject "Cannot read properties of undefined (reading 'map')")
        end
  end.

Definition trendingFailure : string := "Failed to fetch trending content".

(** [fetchTrendingContent(timeWindow, page)] *)
Definition fetchTrendingContent (w : World) (up : Upstream) (timeWindow : string)
    (page : PageParameter) : APIResponse (list Content) :=
  match bothResults w (trendingMovies up timeWindow page) (trendingTVShows up timeWindow page)
          (fun _ _ => ErrorObject trendingFailure) with
  | Ok (movies, tvShows) =>
      {| success := true; data := Some (topRated 20 movies tvShows);
         error := None; message := None |}
  | Throw _ => failure trendingFailure
  end.

(** The failure envelope of [getTrendingContent]: it carries an empty list. *)
Definition emptyFailure (msg : string) : APIResponse (list Content) :=
  {| success := false; data := Some []; error := Some msg; message := None |}.

(** [getTrendingContent()] *)
Definition getTrendingContent (w : World) (up : Upstream) : APIResponse (list Content) :=
  if keyNotConfigured w then
    emptyFailure "API key required. Please add your TMDB API key to enable trending content."
  else
    match bothResults w (trendingMovies up "week" NoPage) (trendingTVShows up "week" NoPage)
            (fun movieStatus tvStatus =>
               ErrorObject ("API request failed: Movies " +:+ pretty movieStatus
                            +:+ ", TV " +:+ pretty tvStatus)) with
    | Ok (movies, tvShows) =>
        {| success := true; data := Some (topRated 100 movies tvShows); error := None;
           message := Some "Successfully fetched trending content" |}
    | Throw (ErrorObject msg) => emptyFailure msg
    | Throw ThrownValue =>
        emptyFailure "Failed to fetch trending content. Please check your internet connection."
    end.

(** *** The route [GET /api/content/trending] *)

Record Handled : Type := {
  reply : Route.Reply;
  trendingCalls : list (string * PageParameter)
}.

(** [Number.parseInt(searchParams.get("page") || "1")] *)
Definition pageOf (searchParams : list (string * string)) : PageParameter :=
  match parseInt (Convert.orElse (Route.getOrEmpty searchParams "page") "1") with
  | Some n => PageNumber n
  | None => PageNaN
  end.

(** [page < 1 || page > 100]; both comparisons are false for [NaN]. *)
Definition pageOutOfRange (page : PageParameter) : bool :=
  match page with
  | PageNumber n => (n <? 1)%Z || (n >? 100)%Z
  | _ => false
  end.

Definition GET (fetchTrending : string -> PageParameter -> APIResponse (list Content))
    (searchParams : list (string * string)) : Handled :=
  let timeWindow := Convert.orElse (Route.getOrEmpty searchParams "timeWindow") "week" in
  let page := pageOf searchParams in
  if negb (existsb (String.eqb timeWindow) ["day"; "week"]) then
    {| reply := Route.errorReply 400 (Some "Invalid timeWindow parameter");
       trendingCalls := [] |}
  else if pageOutOfRange page then
    {| reply := Route.errorReply 400 (Some "Page must be between 1 and 100");
       trendingCalls := [] |}
  else
    let result := fetchTrending timeWindow page in
    if negb (success result) then
      {| reply := Route.errorReply 500 (error result);
         trendingCalls := [(timeWindow, page)] |}
    else
      {| reply :=
           {| Route.replyStatus := 200;
              Route.replyBody :=
                {| Route.bodySuccess := success result; Route.bodyData := data result;
                   Route.bodyError := error result; Route.bodyMessage := message result;
                   Route.bodySource := None |};
              Route.replyHeaders :=
                [("Cache-Control", "public, s-maxage=3600, stale-while-revalidate=86400")] |};
         trendingCalls := [(timeWindow, page)] |}.

End Trending.

(** ** Content details ([fetchContentDetails]) *)

Module Details.

(** The requests behind one call: the details of a movie or of a show, and
    the watch providers and videos of an item; [chance] is what
    [getRandomStreamingPlatforms] draws when watch providers fall back to
    it. *)
Record Upstream : Type := {
  movieDetails : Z -> Enrich.Fetched TMDBMovie.t;
  showDetails : Z -> Enrich.Fetched TMDBTVShow.t;
  watchProviders : ContentType -> Z -> Enrich.Fetched (option Enrich.RegionData);
  videos : ContentType -> Z -> Enrich.Fetched (option (list Enrich.Video.t));
  chance : Enrich.Randomness
}.

Definition detailsFailure : string := "Failed to fetch content details".

Definition found (content : Content) : APIResponse Content :=
  {| success := true; data := Some content; error := None; message := None |}.

(** The two requests of [convertTMDB...ToContentWithRealData] for an item. *)
Definition streamingPlatformsOf (up : Upstream) (type : ContentType) (id : Z) : list string :=
  Enrich.fetchWatchProviders (watchProviders up type id)
    (Enrich.getRandomStreamingPlatforms (chance up)).

Definition trailerUrlOf (up : Upstream) (type : ContentType) (id : Z) : option string :=
  Enrich.fetchTrailerUrl (videos up type id).

(** [fetchContentDetails(id, type)] *)
Definition fetchContentDetails (b : Convert.Builtins) (up : Upstream) (id : Z)
    (type : ContentType) : APIResponse Content :=
  match type with
  | Movie =>
      match movieDetails up id with
      | Enrich.Answered (Ok movie) =>
          found (Convert.convertTMDBMovieToContentWithRealData b
                   (streamingPlatformsOf up Movie (TMDBMovie.id movie))
                   (trailerUrlOf up Movie (TMDBMovie.id movie)) movie)
      | _ => failure detailsFailure
      end
  | TV =>
      match showDetails up id with
      | Enrich.Answered (Ok show) =>
          found (Convert.convertTMDBTVToContentWithRealData b
                   (streamingPlatformsOf up TV (TMDBTVShow.id show))
                   (trailerUrlOf up TV (TMDBTVShow.id show)) show)
      | _ => failure detailsFailure
      end
  end.

(** *** The route [GET /api/content/[id]] *)

Record Reply : Type := {
  replyStatus : N;
  replySuccess : bool;
  replyData : option Content;
  replyError : option string;
  replyHeaders : list (string * string)
}.

Definition errorReply (code : N) (err : option string) : Reply :=
  {| replyStatus := code; replySuccess := false; replyData := None; replyError := err;
     replyHeaders := [] |}.

Record Handled : Type := {
  reply : Reply;
  detailsCalls : list (Z * ContentType)
}.

(** The [type] parameter once [["movie", "tv"].includes(type)] holds. *)
Definition typeOf (type : string) : option ContentType :=
  if String.eqb type "movie" then Some Movie
  else if String.eqb type "tv" then Some TV
  else None.

Definition typeRequired : string := "Content type (movie or tv) is required".

Definition GET (fetchDetails : Z -> ContentType -> APIResponse Content)
    (paramsId : string) (searchParams : list (string * string)) : Handled :=
  let rejected msg := {| reply := errorReply 400 (Some msg); detailsCalls := [] |} in
  match parseInt paramsId with
  | None => rejected "No Results found"
  | Some id =>
      if (id <=? 0)%Z then rejected "No Results found"
      else
        match Route.get searchParams "type" with
        | None => rejected typeRequired
        | Some type =>
            if negb (truthy type) then rejected typeRequired
            else
              match typeOf type with
              | None => rejected typeRequired
              | Some contentType =>
                  let result := fetchDetails id contentType in
                  if negb (success result) then
                    {| reply :=
                         errorReply
                           (match error result with
                            | Some msg => if String.eqb msg "Content not found" then 404 else 500
                            | None => 500
                            end)
                           (error result);
                       detailsCalls := [(id, contentType)] |}
                  else
                    {| reply :=
                         {| replyStatus := 200; replySuccess := success result;
                            replyData := data result; replyError := error result;
                            replyHeaders :=
                              [("Cache-Control",
                                "public, s-maxage=7200, stale-while-revalidate=86400")] |};
                       detailsCalls := [(id, contentType)] |}
              end
        end
  end.

(** The route over the library function. *)
Definition liveGET (b : Convert.Builtins) (up : Upstream) (paramsId : string)
    (searchParams : list (string * string)) : Handled :=
  GET (fetchContentDetails b up) paramsId searchParams.

End Details.

(** ** Title suggestions and the recommendation route *)

Module Titles.

(** [titleSuggestions], in the order of [Object.entries]. *)
Definition titleSuggestions : list (string * list string) :=
  [
    ("action",
     [ "Mad Max: Fury Road"; "John Wick"; "The Dark Knight";
       "Mission: Impossible - Fallout"; "Avengers: Endgame"; "Die Hard"; "The Matrix";
       "Terminator 2: Judgment Day"; "Heat"; "Casino Royale" ]);
    ("horror",
     [ "Hereditary"; "The Conjuring"; "Get Out"; "A Quiet Place"; "The Babadook";
       "It Follows"; "Midsommar"; "The Witch"; "Sinister"; "Insidious" ]);
    ("comedy",
     [ "The Grand Budapest Hotel"; "Parasite"; "Knives Out"; "The Big Lebowski";
       "Superbad"; "Anchorman"; "Borat"; "Tropic Thunder"; "Wedding Crashers"; "Zoolander" ]);
    ("drama",
     [ "The Godfather"; "Shawshank Redemption"; "Goodfellas"; "Pulp Fiction";
       "There Will Be Blood"; "No Country for Old Men"; "Moonlight";
       "Manchester by the Sea"; "Lady Bird"; "Call Me by Your Name" ]);
    ("sci-fi",
     [ "Blade Runner 2049"; "Arrival"; "Interstellar"; "Ex Machina"; "Her"; "Dune";
       "The Martian"; "Gravity"; "Inception"; "2001: A Space Odyssey" ]);
    ("netflix",
     [ "Stranger Things"; "The Crown"; "Ozark"; "Mindhunter"; "Dark"; "The Queen's Gambit";
       "Bridgerton"; "Money Heist"; "Narcos"; "House of Cards" ]);
    ("hbo",
     [ "Game of Thrones"; "The Last of Us"; "Succession"; "True Detective"; "Westworld";
       "The Sopranos"; "The Wire"; "Barry"; "Euphoria"; "Mare of Easttown" ]);
    ("marvel",
     [ "Avengers: Endgame"; "Black Panther"; "Spider-Man: Into the Spider-Verse";
       "Iron Man"; "Captain America: The Winter Soldier"; "Thor: Ragnarok";
       "Guardians of the Galaxy"; "Doctor Strange"; "WandaVision"; "Loki" ]);
    ("korean",
     [ "Parasite"; "Squid Game"; "Train to Busan"; "Oldboy"; "The Handmaiden"; "Burning";
       "Kingdom"; "Crash Landing on You"; "Goblin"; "Reply 1988" ]);
    ("british period",
     [ "The Crown"; "Downton Abbey"; "Bridgerton"; "Outlander"; "Poldark"; "Victoria";
       "Anne with an E"; "Pride and Prejudice"; "Sense and Sensibility"; "Emma" ]);
    ("true crime",
     [ "Making a Murderer"; "The Staircase"; "Wild Wild Country"; "Tiger King"; "The Jinx";
       "Serial"; "Mindhunter"; "Zodiac"; "The Night Stalker"; "Don't F**k with Cats" ])
  ].

(** The general popular titles, for a query that matches no key. *)
Definition generalTitles : list string :=
  [ "The Shawshank Redemption"; "The Godfather"; "The Dark Knight"; "Breaking Bad";
    "Game of Thrones"; "Stranger Things"; "Pulp Fiction"; "The Lord of the Rings";
    "Inception"; "The Matrix"; "Goodfellas"; "The Sopranos"; "True Detective"; "Fargo";
    "Better Call Saul" ].

(** The array [tvShows] of the branch for [type === movie]. *)
Definition tvShowsRemoved : list string :=
  [ "Breaking Bad"; "Game of Thrones"; "Stranger Things"; "The Sopranos"; "True Detective";
    "Better Call Saul"; "The Crown"; "Ozark"; "Mindhunter"; "Dark"; "Bridgerton";
    "Money Heist"; "Narcos"; "House of Cards"; "Succession"; "The Last of Us"; "Westworld";
    "The Wire"; "Barry"; "Euphoria"; "WandaVision"; "Loki"; "Squid Game"; "Kingdom";
    "Crash Landing on You"; "Goblin"; "Reply 1988"; "Downton Abbey"; "Outlander";
    "Poldark"; "Victoria"; "Anne with an E"; "Making a Murderer"; "The Staircase";
    "Wild Wild Country"; "Tiger King"; "The Jinx"; "Serial"; "The Night Stalker";
    "Don't F**k with Cats"; "Fargo" ].

(** The array [tvShows] of the branch for [type === tv]. *)
Definition tvShowsKept : list string :=
  [ "Breaking Bad"; "Game of Thrones"; "Stranger Things"; "The Sopranos"; "True Detective";
    "Better Call Saul"; "The Crown"; "Ozark"; "Mindhunter"; "Dark"; "Bridgerton";
    "Money Heist"; "Narcos"; "House of Cards"; "Succession"; "The Last of Us"; "Westworld";
    "The Wire"; "Barry"; "Euphoria"; "WandaVision"; "Loki"; "Squid Game"; "Kingdom";
    "Crash Landing on You"; "Goblin"; "Reply 1988"; "Downton Abbey"; "Outlander";
    "Poldark"; "Victoria"; "Anne with an E"; "Making a Murderer"; "The Staircase";
    "Wild Wild Country"; "Tiger King"; "The Jinx"; "Serial"; "Mindhunter";
    "The Night Stalker"; "Don't F**k with Cats"; "Fargo" ].

(** [s.split(sep)] for a separator of one character. *)
Fixpoint split (sep : ascii) (s : string) : list string :=
  match s with
  | EmptyString => [EmptyString]
  | String c s' =>
      if (c =? sep)%char then EmptyString :: split sep s'
      else
        match split sep s' with
        | word :: words => String c word :: words
        | [] => [String c EmptyString]
        end
  end.

(** [Array.from(new Set(l))]: the first occurrence of every element, in
    order; [seen] holds the elements met so far. *)
Fixpoint unique (seen l : list string) : list string :=
  match l with
  | [] => []
  | x :: l' =>
      if existsb (String.eqb x) seen then unique seen l'
      else x :: unique (x :: seen) l'
  end.

(** A key matches a query that contains it or one of its words. *)
Definition keyMatches (queryLower key : string) : bool :=
  includes queryLower key || some (fun word => includes queryLower word) (split " " key).

(** The titles before the type filter. *)
Definition suggestedTitles (query : string) : list string :=
  let queryLower := toLowerCase query in
  let suggestedTitles :=
    concat (map (fun '(key, titles) => if keyMatches queryLower key then titles else [])
                titleSuggestions) in
  match suggestedTitles with
  | [] => generalTitles
  | _ :: _ => suggestedTitles
  end.

(** The filter for [filters?.type]: [None] when there is no [filters] or no
    [type] in it. *)
Definition typeFilter (filtersType : option string) (title : string) : bool :=
  match filtersType with
  | Some type =>
      if type =? "movie" then negb (existsb (String.eqb title) tvShowsRemoved)
      else if type =? "tv" then existsb (String.eqb title) tvShowsKept
      else true
  | None => true
  end.

(** [generateSearchTitles(query, filters)] *)
Definition generateSearchTitles (query : string) (filtersType : option string)
    : list string :=
  let suggestedTitles := List.filter (typeFilter filtersType) (suggestedTitles query) in
  let uniqueTitles := unique [] suggestedTitles in
  slice0 50 uniqueTitles.

(** *** The route [POST /api/ai/recommendations] *)


Record Reply : Type := {
  replyStatus : N;
  replySuccess : bool;
  replyTitles : option (list string);
  replyData : option (list Recommendations.Recommendation);
  replyQuery : option string;
  replyError : option string
}.

Definition errorReply (code : N) (msg : string) : Reply :=
  {| replyStatus := code; replySuccess := false; replyTitles := None; replyData := None;
     replyQuery := None; replyError := Some msg |}.


End Titles.

(** Filter sets with a single field, for the statements below. *)
Module OneFilter.

Definition language (v : string) : SearchFilters :=
  Interpreter.setLanguage Interpreter.emptyFilters v.

Definition genre (v : string) : SearchFilters :=
  Interpreter.setGenre Interpreter.emptyFilters v.

Definition country (v : string) : SearchFilters :=
  {| Filters.platform := None; Filters.genre := None; Filters.language := None;
     Filters.country := Some v; Filters.type := None; Filters.year := None;
     Filters.rating_min := None |}.

End OneFilter.

(** Sample run-time values for the examples. *)
Module MoreSamples.

Definition builtins : Convert.Builtins :=
  {| Convert.getFullYear := fun date =>
       default 2024%Z (parseInt (String.substring 0 4 date));
     Convert.roundToTenth := fun v => (Qfloor (v * 10 + (1 # 2)) # 10)%Q;
     Convert.encodeURIComponent := fun s => s |}.

Definition hindiFilm : TMDBMovie.t :=
  {| TMDBMovie.id := 7; TMDBMovie.title := "Lagaan"; TMDBMovie.overview := "";
     TMDBMovie.release_date := "2001-06-15"; TMDBMovie.poster_path := None;
     TMDBMovie.backdrop_path := None; TMDBMovie.vote_average := 75 # 10;
     TMDBMovie.genre_ids := [18%Z; 999%Z; 10749%Z]; TMDBMovie.adult := false;
     TMDBMovie.original_language := "hi"; TMDBMovie.runtime := None;
     TMDBMovie.status := None |}.

Definition koreanShow : TMDBTVShow.t :=
  {| TMDBTVShow.id := 8; TMDBTVShow.name := "Kingdom"; TMDBTVShow.overview := "";
     TMDBTVShow.first_air_date := "2019-01-25"; TMDBTVShow.poster_path := None;
     TMDBTVShow.backdrop_path := None; TMDBTVShow.vote_average := 83 # 10;
     TMDBTVShow.genre_ids := [27%Z]; TMDBTVShow.origin_country := ["KR"];
     TMDBTVShow.original_language := "ko"; TMDBTVShow.episode_run_time := None;
     TMDBTVShow.status := None |}.

Definition fixedChance : Enrich.Randomness :=
  {| Enrich.firstDraw := 7 # 10; Enrich.arrangement := fun l => rev l |}.

Definition officialTrailer : Enrich.Video.t :=
  {| Enrich.Video.type := "Trailer"; Enrich.Video.site := "YouTube";
     Enrich.Video.official := true; Enrich.Video.key := "abc123" |}.

Definition fanClip : Enrich.Video.t :=
  {| Enrich.Video.type := "Clip"; Enrich.Video.site := "YouTube";
     Enrich.Video.official := false; Enrich.Video.key := "zzz999" |}.

Definition vimeoTrailer : Enrich.Video.t :=
  {| Enrich.Video.type := "Trailer"; Enrich.Video.site := "Vimeo";
     Enrich.Video.official := true; Enrich.Video.key := "v1" |}.

Definition rentOnly : Enrich.RegionData :=
  {| Enrich.flatrate := None;
     Enrich.rent := Some [ {| Enrich.provider_name := "Apple TV" |};
                           {| Enrich.provider_name := "Google Play Movies" |};
                           {| Enrich.provider_name := "Vudu" |} ];
     Enrich.buy := Some [ {| Enrich.provider_name := "Amazon Video" |} ] |}.


(** Discovery endpoints with one short page each. *)
Definition smallCatalogue : Discover.Upstream :=
  {| Discover.discoverMovies := fun _ => Samples.okPage Samples.duneMovies;
     Discover.discoverTVShows := fun _ => Samples.okPage Samples.duneShows |}.

Definition noIntent : Discover.SearchIntent := {| Discover.year := None |}.

(** What [convertTMDBMovieToContent] makes of a movie with the given
    [vote_average]: [tmdb_rating] is the average, [imdb_rating] the average
    rounded to one decimal. *)
Definition converted (name : string) (vote : Q) : Content :=
  Convert.convertTMDBMovieToContent builtins ["Netflix"] (Samples.movie name vote).

(** The world of [Samples.moviesDown] without an API key in the
    environment. *)
Definition keyless : World :=
  {| env_TMDB_API_KEY := None;
     fetchMovies := fetchMovies Samples.moviesDown;
     fetchTVShows := fetchTVShows Samples.moviesDown;
     convertTMDBMovieToContent := Samples.movieContent;
     convertTMDBMovieToContentWithRealData := Samples.movieContent;
     convertTMDBTVToContent := Samples.showContent;
     convertTMDBTVToContentWithRealData := Samples.showContent |}.

(** Trending endpoints with one page each, whatever the window and page. *)
Definition trendingWeek : Trending.Upstream :=
  {| Trending.trendingMovies := fun _ _ => Samples.okPage Samples.duneMovies;
     Trending.trendingTVShows := fun _ _ => Samples.okPage Samples.duneShows |}.

(** The same, with the TV endpoint out of reach. *)
Definition trendingMoviesOnly : Trending.Upstream :=
  {| Trending.trendingMovies := fun _ _ => Samples.okPage Samples.duneMovies;
     Trending.trendingTVShows := fun _ _ => Failed (ErrorObject "fetch failed") |}.

(** A details service that knows one movie, and nothing about providers or
    videos. *)
Definition oneMovie : Details.Upstream :=
  {| Details.movieDetails := fun id =>
       if (id =? 7)%Z then Enrich.Answered (Ok hindiFilm) else Enrich.Refused 404;
     Details.showDetails := fun _ => Enrich.Refused 404;
     Details.watchProviders := fun _ _ => Enrich.Refused 404;
     Details.videos := fun _ _ =>
       Enrich.Answered (Ok (Some [vimeoTrailer; fanClip; officialTrailer]));
     Details.chance := fixedChance |}.

End MoreSamples.

(** ** Vocabulary for the further statements *)

(** The two shapes of an envelope that [searchContent] hands out. *)
Definition wellFormedEnvelope (response : APIResponse (list Content)) : Prop :=
  (success response = true /\ error response = None
   /\ exists first rest,
        data response = Some (first :: rest)
        /\ message response
           = Some ("Found " +:+ pretty (length (first :: rest)) +:+ " results"))
  \/ (success response = false /\ data response = None
      /\ exists e, error response = Some e /\ e <> "").

(** An endpoint delivers [items]: it responds, the response is ok, and its
    body parses and holds them as [results]. *)
Definition delivers {Item : Type} (outcome : FetchOutcome Item) (items : list Item) : Prop :=
  exists response,
    outcome = Responded response /\ Http.ok response = true
    /\ Http.json response = Ok (Some items).

(** [a] is rated at least as high as [b]. *)
Definition ratedAtLeast (a b : Content) : Prop := (tmdb_rating b <= tmdb_rating a)%Q.

(** The chance behind [getRandomStreamingPlatforms] is that of the engine:
    [Math.random()] lies in [0, 1[ and sorting rearranges. *)
Definition fairChance (rnd : Enrich.Randomness) : Prop :=
  (0 <= Enrich.firstDraw rnd)%Q /\ (Enrich.firstDraw rnd < 1)%Q
  /\ Permutation (Enrich.arrangement rnd Enrich.fallbackPlatforms) Enrich.fallbackPlatforms.

(** A text of ASCII characters only.  For such a text the case mappings of
    this development are those of the language. *)
Definition isASCII (s : string) : bool :=
  forallb (fun c => (N_of_ascii c <? 128)%N) (list_ascii_of_string s).

(** Two lists with no element in common. *)
Definition disjoint (a b : list string) : Prop :=
  forall x, In x a -> In x b -> False.

(** * Theorems *)

(** ** Facts about the built-ins *)

Lemma Qltb_lt (a b : Q) : Qltb a b = true <-> (a < b)%Q.
Proof.
  unfold Qltb. rewrite negb_true_iff. split; intros H.
  - apply Qnot_le_lt. intros Hle. apply Qle_bool_iff in Hle. congruence.
  - destruct (Qle_bool b a) eqn:E; [|reflexivity].
    apply Qle_bool_iff in E. exfalso. eapply Qlt_not_le; eauto.
Qed.

Lemma Qltb_false_le (a b : Q) : Qltb a b = false <-> (b <= a)%Q.
Proof.
  unfold Qltb. rewrite negb_false_iff. apply Qle_bool_iff.
Qed.

(** ** [applyFilters] *)

Lemma filter_sublist {A : Type} (p : A -> bool) (l : list A) :
  sublist (List.filter p l) l.
Proof.
  induction l as [|x l IH]; simpl.
  - constructor.
  - destruct (p x); [apply sublist_skip | apply sublist_cons]; exact IH.
Qed.

(** The early returns of the callback amount to the conjunction of the seven
    field predicates. *)
Lemma filterCallback_conjunction (filters : SearchFilters) (item : Content) :
  filterCallback filters item = passesAll (fieldPredicates filters) item.
Proof.
  unfold filterCallback, passesAll, fieldPredicates, forallb.
  unfold typePredicate, genrePredicate, languagePredicate, countryPredicate,
    platformPredicate, ratingPredicate, yearPredicate, activeRating, activeYear.
  destruct (Filters.year filters) as [y|], (Filters.rating_min filters) as [r|];
    unfold Qltb, Qgtb; rewrite ?Z.gtb_ltb, ?Z.ltb_antisym; unfold negb, andb, orb;
    repeat (case_bool_subterm; try reflexivity; try discriminate).
Qed.

Lemma filterEach_passesAll (ps : list (Content -> bool)) (content : list Content) :
  filterEach ps content = List.filter (passesAll ps) content.
Proof.
  unfold filterEach. revert content.
  induction ps as [|p ps IH]; intros content; simpl.
  - induction content as [|x l IHl]; simpl; [reflexivity | f_equal; exact IHl].
  - rewrite IH. clear IH.
    induction content as [|x l IHl]; simpl; [reflexivity|].
    destruct (p x); simpl.
    + destruct (passesAll ps x); [f_equal|]; exact IHl.
    + exact IHl.
Qed.

Lemma passesAll_Permutation (ps qs : list (Content -> bool)) (item : Content) :
  Permutation ps qs -> passesAll ps item = passesAll qs item.
Proof.
  unfold passesAll.
  induction 1 as [|p ps qs _ IH|p q ps|ps qs rs _ IH1 _ IH2]; simpl.
  - reflexivity.
  - now rewrite IH.
  - destruct (p item), (q item); reflexivity.
  - now rewrite IH1.
Qed.

Lemma applyFilters_passesAll (content : list Content) (filters : SearchFilters) :
  applyFilters content filters = List.filter (passesAll (fieldPredicates filters)) content.
Proof.
  unfold applyFilters. apply filter_ext. intros item. apply filterCallback_conjunction.
Qed.

Lemma In_applyFilters (content : list Content) (filters : SearchFilters) (item : Content) :
  In item (applyFilters content filters) <->
  In item content /\ passesAll (fieldPredicates filters) item = true.
Proof.
  rewrite applyFilters_passesAll. apply filter_In.
Qed.

(** C3. [applyFilters] keeps exactly the items that satisfy the conjunction of
    the seven field-level predicates (type, genre, language, country,
    platform, minimum rating, year); taking the predicates in any order, all
    at once or one filtering pass per field, gives the same list. *)
Theorem applyFilters_conjunction_any_order (content : list Content) (filters : SearchFilters) :
  (forall item, In item (applyFilters content filters) <->
     In item content
     /\ typePredicate filters item = true /\ genrePredicate filters item = true
     /\ languagePredicate filters item = true /\ countryPredicate filters item = true
     /\ platformPredicate filters item = true /\ ratingPredicate filters item = true
     /\ yearPredicate filters item = true)
  /\ (forall ps, Permutation ps (fieldPredicates filters) ->
        applyFilters content filters = List.filter (passesAll ps) content
        /\ applyFilters content filters = filterEach ps content).
Proof.
  split.
  - intros item. rewrite In_applyFilters.
    unfold passesAll, fieldPredicates, forallb.
    rewrite !andb_true_iff. tauto.
  - intros ps Hperm.
    assert (E : applyFilters content filters = List.filter (passesAll ps) content).
    { rewrite applyFilters_passesAll. apply filter_ext. intros item.
      symmetry. now apply passesAll_Permutation. }
    split; [exact E|]. now rewrite filterEach_passesAll.
Qed.

(** The rating floor, as the code applies it: an item passes exactly when
    one of its two ratings reaches the minimum. *)
Lemma ratingPredicate_floor (filters : SearchFilters) (r : Q) (item : Content) :
  Filters.rating_min filters = Some r -> (0 < r)%Q ->
  ratingPredicate filters item = true
  <-> (r <= tmdb_rating item)%Q \/ (r <= imdb_rating item)%Q.
Proof.
  intros Hr Hpos. unfold ratingPredicate, activeRating. rewrite Hr.
  assert (Hact : negb (Qeq_bool r 0) && Qgtb r 0 = true).
  { apply andb_true_iff. split.
    - apply negb_true_iff. destruct (Qeq_bool r 0) eqn:E; [|reflexivity].
      apply Qeq_bool_eq in E. rewrite E in Hpos. now apply Qlt_irrefl in Hpos.
    - now apply Qltb_lt. }
  rewrite Hact. now rewrite orb_true_iff, !Qle_bool_iff.
Qed.

Lemma passesAll_besidesRating (filters : SearchFilters) (item : Content) :
  passesAll (fieldPredicates filters) item = true
  <-> passesAll (besidesRating filters) item = true /\ ratingPredicate filters item = true.
Proof.
  unfold passesAll, fieldPredicates, besidesRating, forallb.
  rewrite !andb_true_iff. tauto.
Qed.

(** C5 (amended). With a minimum rating [r > 0] in the filter set,
    [applyFilters] keeps exactly the items of its input that pass the six
    other field predicates and have at least one of their two ratings,
    [tmdb_rating] or [imdb_rating], at or above [r].  So every item of the
    output has one rating at or above [r], and an item that the other
    predicates accept is removed only when both of its ratings are below
    [r]. *)
Theorem applyFilters_rating_floor (content : list Content) (filters : SearchFilters) (r : Q) :
  Filters.rating_min filters = Some r -> (0 < r)%Q ->
  forall item,
    (In item (applyFilters content filters)
     <-> In item content
         /\ passesAll (besidesRating filters) item = true
         /\ ((r <= tmdb_rating item)%Q \/ (r <= imdb_rating item)%Q))
    /\ (In item content -> passesAll (besidesRating filters) item = true ->
        ~ In item (applyFilters content filters) ->
        (tmdb_rating item < r)%Q /\ (imdb_rating item < r)%Q).
Proof.
  intros Hr Hpos item.
  assert (Hiff : In item (applyFilters content filters)
                 <-> In item content
                     /\ passesAll (besidesRating filters) item = true
                     /\ ((r <= tmdb_rating item)%Q \/ (r <= imdb_rating item)%Q)).
  { rewrite In_applyFilters, passesAll_besidesRating.
    rewrite (ratingPredicate_floor filters r item Hr Hpos). tauto. }
  split; [exact Hiff|].
  intros Hin Hothers Hout.
  split; apply Qnot_le_lt; intros Hle; apply Hout, Hiff; auto.
Qed.

Lemma applyFilters_rating_floor_witness :
  let low := Samples.item Movie "Low" 3 3 2020 in
  let content := [Samples.splitA; low] in
  applyFilters content (Samples.ratingFloor 7) = [Samples.splitA]
  /\ (In low (applyFilters content (Samples.ratingFloor 7))
      <-> In low content
          /\ passesAll (besidesRating (Samples.ratingFloor 7)) low = true
          /\ ((7 <= tmdb_rating low)%Q \/ (7 <= imdb_rating low)%Q))
  /\ (In low content -> passesAll (besidesRating (Samples.ratingFloor 7)) low = true ->
      ~ In low (applyFilters content (Samples.ratingFloor 7)) ->
      (tmdb_rating low < 7)%Q /\ (imdb_rating low < 7)%Q).
Proof.
  cbv zeta. split; [reflexivity|].
  apply (applyFilters_rating_floor _ (Samples.ratingFloor 7) 7); reflexivity.
Defined.

(** C5, as stated, fails, and on items that the converters produce.  A movie
    with [vote_average] 6.96 is converted to the ratings 6.96 (TMDB) and 7.0
    (IMDb, rounded): with the floor at 7 it is kept, below the floor on
    TMDB.  One with [vote_average] 7.04 gets 7.04 and 7.0: with the floor at
    7.04 it is kept, below the floor on IMDb.  Whichever single rating the
    floor is read against, an item below it is output. *)
Lemma applyFilters_rating_floor_counterexample :
  let nearMiss := MoreSamples.converted "Near miss" (696 # 100) in
  let roundedDown := MoreSamples.converted "Rounded down" (704 # 100) in
  (tmdb_rating nearMiss == 696 # 100)%Q /\ (imdb_rating nearMiss == 7)%Q
  /\ applyFilters [nearMiss] (Samples.ratingFloor 7) = [nearMiss]
  /\ (tmdb_rating nearMiss < 7)%Q
  /\ (tmdb_rating roundedDown == 704 # 100)%Q /\ (imdb_rating roundedDown == 7)%Q
  /\ applyFilters [roundedDown] (Samples.ratingFloor (704 # 100)) = [roundedDown]
  /\ (imdb_rating roundedDown < 704 # 100)%Q.
Proof.
  cbv zeta. repeat split; vm_compute; reflexivity.
Qed.

(** The same with the two sample items that one source likes and the other
    does not: both are kept with the floor at 7. *)
Example applyFilters_keeps_split_ratings :
  applyFilters [Samples.splitA; Samples.splitB] (Samples.ratingFloor 7)
    = [Samples.splitA; Samples.splitB]
  /\ Qltb (tmdb_rating Samples.splitA) 7 = true
  /\ Qltb (imdb_rating Samples.splitB) 7 = true.
Proof.
  repeat split; vm_compute; reflexivity.
Qed.

(** C9. The output of [applyFilters] is a subsequence of its input (the same
    items, in the same relative order, none repeated or invented); when every
    filter field is empty or absent, the output is the input. *)
Theorem applyFilters_sublist (content : list Content) (filters : SearchFilters) :
  sublist (applyFilters content filters) content
  /\ ((Filters.platform filters = None \/ Filters.platform filters = Some "") ->
      (Filters.genre filters = None \/ Filters.genre filters = Some "") ->
      (Filters.language filters = None \/ Filters.language filters = Some "") ->
      (Filters.country filters = None \/ Filters.country filters = Some "") ->
      (Filters.type filters = None \/ Filters.type filters = Some "") ->
      Filters.year filters = None ->
      Filters.rating_min filters = None ->
      applyFilters content filters = content).
Proof.
  split.
  - apply filter_sublist.
  - intros Hp Hg Hl Hc Ht Hy Hr. unfold applyFilters.
    assert (E : forall item, filterCallback filters item = true).
    { intros item. unfold filterCallback. rewrite Hy, Hr.
      destruct Hp as [-> | ->], Hg as [-> | ->], Hl as [-> | ->],
               Hc as [-> | ->], Ht as [-> | ->]; reflexivity. }
    induction content as [|x l IH]; simpl; [reflexivity|].
    rewrite E. f_equal. exact IH.
Qed.

(** ** The pagination loops *)

Lemma shortPage_false (r : APIResponse (list Content)) :
  shortPage r = false ->
  exists x rest, success r = true /\ data r = Some (x :: rest)
    /\ pageItems r = x :: rest /\ (length (x :: rest) <? 20)%nat = false.
Proof.
  unfold shortPage, pageItems. intros H.
  destruct (success r); [|discriminate].
  destruct (data r) as [[|x rest]|]; simpl in *; try discriminate.
  exists x, rest. auto.
Qed.

(** One round on a short page: the loop leaves. *)
Lemma searchPages_short (fuel : nat) (search : nat -> APIResponse (list Content))
    (page : nat) (acc : Collected) :
  shortPage (search page) = true ->
  searchPages (S fuel) search page acc =
    Some {| items := items acc ++ pageItems (search page);
            searchErrors := searchErrors acc ++ pageError (search page);
            pagesRequested := pagesRequested acc ++ [page] |}.
Proof.
  unfold shortPage, pageItems, pageError. intros H. simpl.
  destruct (success (search page)); simpl in *.
  - destruct (data (search page)) as [[|x rest]|];
      cbn [default from_option Datatypes.id] in *;
      rewrite ?app_nil_r; try reflexivity.
    now rewrite H.
  - rewrite app_nil_r.
    destruct (error (search page)) as [e|]; [destruct (truthy e)|];
      rewrite ?app_nil_r; reflexivity.
Qed.

(** One round on a page that is not short: the loop goes on with the next
    page. *)
Lemma searchPages_full (fuel : nat) (search : nat -> APIResponse (list Content))
    (page : nat) (acc : Collected) :
  shortPage (search page) = false ->
  searchPages (S fuel) search page acc =
    searchPages fuel search (S page)
      {| items := items acc ++ pageItems (search page);
         searchErrors := searchErrors acc;
         pagesRequested := pagesRequested acc ++ [page] |}.
Proof.
  intros H. destruct (shortPage_false _ H) as (x & rest & Hs & Hd & Hi & Hlen).
  cbn [searchPages]. rewrite Hs, Hd, Hi. cbv zeta. now rewrite Hlen.
Qed.

(** The loop started at [start] with [k] full pages ahead and a short page
    after them makes [k + 1] rounds and leaves. *)
Lemma searchPages_stops (search : nat -> APIResponse (list Content)) (k : nat) :
  forall (start fuel : nat) (acc : Collected),
  (forall p, start <= p < start + k -> shortPage (search p) = false) ->
  shortPage (search (start + k)) = true ->
  k < fuel ->
  searchPages fuel search start acc =
    Some {| items := items acc ++ concat (map (fun p => pageItems (search p)) (seq start (S k)));
            searchErrors := searchErrors acc ++ pageError (search (start + k));
            pagesRequested := pagesRequested acc ++ seq start (S k) |}.
Proof.
  induction k as [|k IH]; intros start fuel acc Hfull Hshort Hfuel.
  - destruct fuel as [|fuel]; [lia|].
    rewrite Nat.add_0_r in Hshort. rewrite searchPages_short by exact Hshort.
    simpl. now rewrite app_nil_r, Nat.add_0_r.
  - destruct fuel as [|fuel]; [lia|].
    rewrite searchPages_full by (apply Hfull; lia).
    rewrite (IH (S start) fuel).
    + cbn [items searchErrors pagesRequested].
      replace (S start + k) with (start + S k) by lia.
      change (seq start (S (S k))) with (start :: seq (S start) (S k)).
      cbn [map concat]. rewrite <- !app_assoc. reflexivity.
    + intros p Hp. apply Hfull. lia.
    + replace (S start + k) with (start + S k) by lia. exact Hshort.
    + lia.
Qed.

(** Whatever the loop returns, it asked for consecutive pages, each once. *)
Lemma searchPages_pages (fuel : nat) (search : nat -> APIResponse (list Content)) :
  forall (start : nat) (acc result : Collected),
  searchPages fuel search start acc = Some result ->
  exists k, pagesRequested result = pagesRequested acc ++ seq start k.
Proof.
  induction fuel as [|fuel IH]; intros start acc result H; [discriminate|].
  destruct (shortPage (search start)) eqn:E.
  - rewrite searchPages_short in H by exact E. inversion H; subst; clear H.
    exists 1. reflexivity.
  - rewrite searchPages_full in H by exact E.
    apply IH in H. destruct H as [k Hk]. exists (S k).
    rewrite Hk. cbn [pagesRequested]. now rewrite <- app_assoc.
Qed.

(** Without a short page the loop has no last round: on an upstream that
    answers every page with 20 items or more, no amount of fuel suffices. *)
Lemma searchPages_needs_short_page (search : nat -> APIResponse (list Content)) :
  (forall p, shortPage (search p) = false) ->
  forall fuel start acc, searchPages fuel search start acc = None.
Proof.
  intros Hfull. induction fuel as [|fuel IH]; intros start acc; [reflexivity|].
  rewrite searchPages_full by apply Hfull. apply IH.
Qed.

Lemma pagesUpTo_length (search : nat -> APIResponse (list Content)) (n : nat) :
  (forall p, length (pageItems (search p)) <= 20) ->
  firstShortPage search n ->
  length (pagesUpTo search n) = 20 * (n - 1) + length (pageItems (search n)).
Proof.
  intros Hbound (Hn & _ & Hfull). unfold pagesUpTo.
  destruct n as [|k]; [lia|]. clear Hn.
  replace (S k - 1) with k by lia.
  assert (G : forall j, j <= k ->
            length (concat (map (fun p => pageItems (search p)) (seq 1 j))) = 20 * j).
  { induction j as [|j IHj]; intros Hj; [reflexivity|].
    rewrite seq_S, map_app, concat_app, length_app.
    rewrite IHj by lia.
    cbn [map concat Nat.add]. rewrite app_nil_r.
    assert (Hf : shortPage (search (S j)) = false) by (apply Hfull; lia).
    unfold shortPage in Hf. apply Nat.ltb_ge in Hf.
    specialize (Hbound (S j)). lia. }
  rewrite seq_S, map_app, concat_app, length_app.
  rewrite G by lia.
  cbn [map concat Nat.add]. now rewrite app_nil_r.
Qed.

Lemma gatherResults_stops (w : World) (query : string) (filters : option SearchFilters)
    (nMovie nTV fuel : nat) :
  firstShortPage (searchMovies w query filters) nMovie ->
  firstShortPage (searchTVShows w query filters) nTV ->
  nMovie <= fuel -> nTV <= fuel ->
  gatherResults w fuel query filters =
    Some {| allResults := pagesUpTo (searchMovies w query filters) nMovie
                          ++ pagesUpTo (searchTVShows w query filters) nTV;
            movieSearchErrors := pageError (searchMovies w query filters nMovie);
            tvSearchErrors := pageError (searchTVShows w query filters nTV);
            requests := map (requestOf SearchMovieEndpoint query) (seq 1 nMovie)
                        ++ map (requestOf SearchTVEndpoint query) (seq 1 nTV) |}.
Proof.
  intros (HM1 & HMs & HMf) (HT1 & HTs & HTf) HfM HfT.
  unfold gatherResults.
  destruct nMovie as [|kM]; [lia|]. destruct nTV as [|kT]; [lia|].
  rewrite (searchPages_stops _ kM 1 fuel emptyCollected);
    [|intros p Hp; apply HMf; lia|exact HMs|lia].
  rewrite (searchPages_stops _ kT 1 fuel emptyCollected);
    [|intros p Hp; apply HTf; lia|exact HTs|lia].
  reflexivity.
Qed.

Lemma searchContent_returns (w : World) (fuel : nat) (query : string)
    (filters : option SearchFilters) (g : Gathered) :
  gatherResults w fuel query filters = Some g ->
  exists response reqs, searchContent w fuel query filters = Some (response, reqs).
Proof.
  intros Hg. unfold searchContent. rewrite Hg.
  destruct (keyNotConfigured w); [eauto|].
  destruct (respond g filters); eauto.
Qed.

(** C1. The pagination loops of [searchContent] terminate.  For each of the
    two content types, assuming that every page is a failure or holds at most
    20 items, the loop stops at the first page that is short (fewer than 20
    items, empty, or failed): it asks for pages 1 to that page, once each,
    and no further, and the items of those pages, in order, movies before
    shows, are the collected result; [searchContent] then returns. *)
Theorem searchContent_pagination_stops (w : World) (query : string)
    (filters : option SearchFilters) (nMovie nTV fuel : nat) :
  (forall p, length (pageItems (searchMovies w query filters p)) <= 20) ->
  (forall p, length (pageItems (searchTVShows w query filters p)) <= 20) ->
  firstShortPage (searchMovies w query filters) nMovie ->
  firstShortPage (searchTVShows w query filters) nTV ->
  nMovie <= fuel -> nTV <= fuel ->
  exists g,
    gatherResults w fuel query filters = Some g
    /\ requests g = map (requestOf SearchMovieEndpoint query) (seq 1 nMovie)
                    ++ map (requestOf SearchTVEndpoint query) (seq 1 nTV)
    /\ allResults g = pagesUpTo (searchMovies w query filters) nMovie
                      ++ pagesUpTo (searchTVShows w query filters) nTV
    /\ length (allResults g) =
         20 * (nMovie - 1) + length (pageItems (searchMovies w query filters nMovie))
         + (20 * (nTV - 1) + length (pageItems (searchTVShows w query filters nTV)))
    /\ exists response reqs, searchContent w fuel query filters = Some (response, reqs).
Proof.
  intros HbM HbT HM HT HfM HfT.
  eexists. split; [apply gatherResults_stops; eassumption|].
  cbn [requests allResults]. repeat split.
  - rewrite length_app, !pagesUpTo_length by assumption. reflexivity.
  - eapply searchContent_returns. apply gatherResults_stops; eassumption.
Qed.

Lemma searchContent_pagination_stops_witness :
  firstShortPage (searchMovies Samples.threePages "alien" (Some Samples.noFilters)) 3
  /\ firstShortPage (searchTVShows Samples.threePages "alien" (Some Samples.noFilters)) 1
  /\ exists g,
       gatherResults Samples.threePages 3 "alien" (Some Samples.noFilters) = Some g
       /\ requests g = map (requestOf SearchMovieEndpoint "alien") (seq 1 3)
                       ++ map (requestOf SearchTVEndpoint "alien") (seq 1 1)
       /\ allResults g =
            pagesUpTo (searchMovies Samples.threePages "alien" (Some Samples.noFilters)) 3
            ++ pagesUpTo (searchTVShows Samples.threePages "alien" (Some Samples.noFilters)) 1
       /\ length (allResults g) =
            20 * (3 - 1)
            + length (pageItems (searchMovies Samples.threePages "alien" (Some Samples.noFilters) 3))
            + (20 * (1 - 1)
               + length (pageItems (searchTVShows Samples.threePages "alien" (Some Samples.noFilters) 1)))
       /\ exists response reqs,
            searchContent Samples.threePages 3 "alien" (Some Samples.noFilters)
              = Some (response, reqs).
Proof.
  assert (HM : firstShortPage (searchMovies Samples.threePages "alien" (Some Samples.noFilters)) 3).
  { split; [lia|]. split; [reflexivity|].
    intros p Hp. destruct p as [|[|[|p]]]; [lia|reflexivity|reflexivity|lia]. }
  assert (HT : firstShortPage (searchTVShows Samples.threePages "alien" (Some Samples.noFilters)) 1).
  { split; [lia|]. split; [reflexivity|]. intros p Hp. lia. }
  split; [exact HM|]. split; [exact HT|].
  apply (searchContent_pagination_stops Samples.threePages "alien" (Some Samples.noFilters) 3 1 3).
  - intros p. destruct p as [|[|[|p]]]; vm_compute; lia.
  - intros p. vm_compute. lia.
  - exact HM.
  - exact HT.
  - lia.
  - lia.
Defined.

(** An upstream that answers every page with 20 items keeps both loops
    running: [searchContent] has no result, whatever the fuel. *)
Example searchContent_endless_upstream (fuel : nat) :
  searchContent Samples.endless fuel "dune" (Some Samples.noFilters) = None.
Proof.
  unfold searchContent, gatherResults.
  replace (keyNotConfigured Samples.endless) with false by reflexivity.
  rewrite searchPages_needs_short_page; [reflexivity|].
  intros p. reflexivity.
Qed.

(** ** The final sort *)

Section SortFacts.
Context {A : Type} (compareFn : A -> A -> Q) (R : A -> A -> Prop).
Hypothesis before_ok : forall x y, Qgtb (compareFn x y) 0 = false -> R x y.
Hypothesis after_ok : forall x y, Qgtb (compareFn x y) 0 = true -> R y x.

Lemma insertSorted_HdRel (a x : A) (l : list A) :
  R a x -> HdRel R a l -> HdRel R a (insertSorted compareFn x l).
Proof.
  intros Hax Hal. destruct l as [|y l]; simpl.
  - constructor. exact Hax.
  - destruct (Qgtb (compareFn x y) 0).
    + inversion Hal; subst. constructor. assumption.
    + constructor. exact Hax.
Qed.

Lemma insertSorted_Sorted (x : A) (l : list A) :
  Sorted R l -> Sorted R (insertSorted compareFn x l).
Proof.
  induction 1 as [|y l Hl IH Hhd]; simpl.
  - repeat constructor.
  - destruct (Qgtb (compareFn x y) 0) eqn:E.
    + constructor; [exact IH|].
      apply insertSorted_HdRel; [now apply after_ok | exact Hhd].
    + constructor; [now constructor|]. constructor. now apply before_ok.
Qed.

Lemma sort_Sorted (l : list A) : Sorted R (sort compareFn l).
Proof.
  induction l as [|x l IH]; simpl; [constructor | now apply insertSorted_Sorted].
Qed.
End SortFacts.

Lemma insertSorted_Permutation {A : Type} (compareFn : A -> A -> Q) (x : A) (l : list A) :
  Permutation (insertSorted compareFn x l) (x :: l).
Proof.
  induction l as [|y l IH]; simpl; [reflexivity|].
  destruct (Qgtb (compareFn x y) 0); [|reflexivity].
  rewrite IH. apply perm_swap.
Qed.

Lemma sort_Permutation {A : Type} (compareFn : A -> A -> Q) (l : list A) :
  Permutation (sort compareFn l) l.
Proof.
  induction l as [|x l IH]; simpl; [reflexivity|].
  rewrite insertSorted_Permutation. now constructor.
Qed.

(** In a list sorted for [R], neighbours are related by [R]. *)
Lemma Sorted_neighbours {A : Type} (R : A -> A -> Prop) (l : list A) :
  Sorted R l -> forall before a b after, l = before ++ a :: b :: after -> R a b.
Proof.
  induction 1 as [|x l Hl IH Hhd]; intros before a b after E.
  - destruct before; discriminate.
  - destruct before as [|z before]; simpl in E; inversion E; subst; clear E.
    + inversion Hhd; subst. assumption.
    + eapply IH. reflexivity.
Qed.

Lemma compareRatings_before (x y : Content) :
  Qgtb (compareRatings x y) 0 = false -> ratingsDescend x y.
Proof.
  unfold Qgtb. rewrite Qltb_false_le. unfold compareRatings, ratingsDescend.
  destruct (Qeq_bool (tmdb_rating y) (tmdb_rating x)) eqn:E; simpl; intros H.
  - apply Qeq_bool_iff in E. split; [lra|]. intros _. lra.
  - split; [lra|]. intros Heq. exfalso.
    assert (E' : Qeq_bool (tmdb_rating y) (tmdb_rating x) = true)
      by (apply Qeq_bool_iff; lra).
    congruence.
Qed.

Lemma compareRatings_after (x y : Content) :
  Qgtb (compareRatings x y) 0 = true -> ratingsDescend y x.
Proof.
  unfold Qgtb. rewrite Qltb_lt. unfold compareRatings, ratingsDescend.
  destruct (Qeq_bool (tmdb_rating y) (tmdb_rating x)) eqn:E; simpl; intros H.
  - apply Qeq_bool_iff in E. split; [lra|]. intros _. lra.
  - split; [lra|]. intros Heq. exfalso.
    assert (E' : Qeq_bool (tmdb_rating y) (tmdb_rating x) = true)
      by (apply Qeq_bool_iff; lra).
    congruence.
Qed.

Lemma sort_compareRatings_Sorted (l : list Content) :
  Sorted ratingsDescend (sort compareRatings l).
Proof.
  apply sort_Sorted; [apply compareRatings_before | apply compareRatings_after].
Qed.

(** A successful response of [respond] carries the sorted, filtered items. *)
Lemma respond_success (g : Gathered) (filters : option SearchFilters)
    (response : APIResponse (list Content)) (results : list Content) :
  respond g filters = Ok response -> success response = true ->
  data response = Some results ->
  exists filtered, applyOptionalFilters (allResults g) filters = Ok filtered
    /\ results = sort compareRatings filtered.
Proof.
  unfold respond. intros H Hs Hd.
  assert (G : match applyOptionalFilters (allResults g) filters with
              | Throw e => Throw e
              | Ok filteredResults =>
                  match sort compareRatings filteredResults with
                  | [] => Ok (failure noMatchMessage)
                  | _ :: _ => Ok (found (sort compareRatings filteredResults))
                  end
              end = Ok response).
  { destruct (allResults g) as [|x l]; [|exact H].
    destruct (movieSearchErrors g ++ tvSearchErrors g) as [|e es]; [exact H|].
    inversion H; subst. discriminate. }
  clear H. destruct (applyOptionalFilters (allResults g) filters) as [filtered|e];
    [|discriminate].
  exists filtered. split; [reflexivity|].
  destruct (sort compareRatings filtered) as [|y ys] eqn:E.
  - inversion G; subst. discriminate.
  - inversion G; subst. simpl in Hd. congruence.
Qed.

(** C2. The list returned by a successful [searchContent] is sorted by the
    two-key descending order: of any two adjacent items the earlier has a
    [tmdb_rating] greater than or equal to the later one's, and, when the two
    [tmdb_rating]s are equal, an [imdb_rating] greater than or equal to the
    later one's. *)
Theorem searchContent_sorted (w : World) (fuel : nat) (query : string)
    (filters : option SearchFilters) (response : APIResponse (list Content))
    (reqs : list Request) (results : list Content) :
  searchContent w fuel query filters = Some (response, reqs) ->
  success response = true ->
  data response = Some results ->
  forall before a b after, results = before ++ a :: b :: after ->
    (tmdb_rating b <= tmdb_rating a)%Q
    /\ (tmdb_rating a == tmdb_rating b -> imdb_rating b <= imdb_rating a)%Q.
Proof.
  unfold searchContent. intros H Hs Hd.
  destruct (keyNotConfigured w).
  { inversion H; subst. discriminate. }
  destruct (gatherResults w fuel query filters) as [g|]; [|discriminate].
  destruct (respond g filters) as [r|e] eqn:E.
  - inversion H; subst; clear H.
    destruct (respond_success _ _ _ _ E Hs Hd) as (filtered & _ & ->).
    apply (Sorted_neighbours ratingsDescend). apply sort_compareRatings_Sorted.
  - inversion H; subst. discriminate.
Qed.

Lemma searchContent_sorted_witness :
  searchContent Samples.moviesDown 5 "dune" (Some Samples.noFilters)
    = Some (found (map Samples.showContent (rev Samples.duneShows)),
            [requestOf SearchMovieEndpoint "dune" 1; requestOf SearchTVEndpoint "dune" 1])
  /\ (tmdb_rating (Samples.showContent (Samples.show "Dune (2000)" (68 # 10)))
      <= tmdb_rating (Samples.showContent (Samples.show "Dune: Prophecy" (73 # 10))))%Q
  /\ (tmdb_rating (Samples.showContent (Samples.show "Dune: Prophecy" (73 # 10)))
      == tmdb_rating (Samples.showContent (Samples.show "Dune (2000)" (68 # 10))) ->
      imdb_rating (Samples.showContent (Samples.show "Dune (2000)" (68 # 10)))
      <= imdb_rating (Samples.showContent (Samples.show "Dune: Prophecy" (73 # 10))))%Q.
Proof.
  split; [vm_compute; reflexivity|].
  apply (searchContent_sorted Samples.moviesDown 5 "dune" (Some Samples.noFilters)
           (found (map Samples.showContent (rev Samples.duneShows)))
           [requestOf SearchMovieEndpoint "dune" 1; requestOf SearchTVEndpoint "dune" 1]
           (map Samples.showContent (rev Samples.duneShows))
           ltac:(vm_compute; reflexivity) eq_refl eq_refl
           [] _ _ [] eq_refl).
Defined.

(** ** Partial results *)

Lemma NoDup_map_requestOf (e : Endpoint) (query : string) (pages : list nat) :
  NoDup pages -> NoDup (map (requestOf e query) pages).
Proof.
  induction 1 as [|p pages Hp _ IH]; simpl; constructor; [|exact IH].
  intros Hin. apply Hp. apply list_elem_of_In, in_map_iff in Hin.
  destruct Hin as (q & Hq & Hin). inversion Hq; subst. now apply list_elem_of_In.
Qed.

Lemma searchPages_from_start (fuel : nat) (search : nat -> APIResponse (list Content))
    (result : Collected) :
  searchPages fuel search 1 emptyCollected = Some result ->
  NoDup (pagesRequested result).
Proof.
  intros H. apply searchPages_pages in H. destruct H as [k ->].
  simpl. apply NoDup_seq.
Qed.

Lemma gatherResults_NoDup (w : World) (fuel : nat) (query : string)
    (filters : option SearchFilters) (g : Gathered) :
  gatherResults w fuel query filters = Some g -> NoDup (requests g).
Proof.
  unfold gatherResults. intros H.
  destruct (searchPages fuel (searchMovies w query filters) 1 emptyCollected)
    as [movies|] eqn:EM; [|discriminate].
  destruct (searchPages fuel (searchTVShows w query filters) 1 emptyCollected)
    as [shows|] eqn:ET; [|discriminate].
  inversion H; subst; clear H. cbn [requests].
  apply NoDup_app. split; [|split].
  - apply NoDup_map_requestOf. eapply searchPages_from_start; eassumption.
  - intros r Hr1 Hr2.
    apply list_elem_of_In, in_map_iff in Hr1. apply list_elem_of_In, in_map_iff in Hr2.
    destruct Hr1 as (p & <- & _). destruct Hr2 as (q & Hq & _). discriminate.
  - apply NoDup_map_requestOf. eapply searchPages_from_start; eassumption.
Qed.

(** What [respond] answers once the loops have gathered at least one item. *)
Lemma respond_with_items (g : Gathered) (filters : SearchFilters) :
  allResults g <> [] ->
  respond g (Some filters) =
    Ok match sort compareRatings (applyFilters (allResults g) filters) with
       | [] => failure noMatchMessage
       | _ :: _ => found (sort compareRatings (applyFilters (allResults g) filters))
       end.
Proof.
  intros Hne. unfold respond. destruct (allResults g) as [|x l]; [congruence|].
  cbn [applyOptionalFilters].
  destruct (sort compareRatings (applyFilters (x :: l) filters)); reflexivity.
Qed.

Lemma respond_first_error (g : Gathered) (filters : option SearchFilters)
    (e : string) (rest : list string) :
  allResults g = [] -> movieSearchErrors g ++ tvSearchErrors g = e :: rest ->
  respond g filters = Ok (failure e).
Proof.
  intros Hnil Herr. unfold respond. now rewrite Hnil, Herr.
Qed.

(** With a filter object at hand nothing in [respond] throws. *)
Lemma respond_total (g : Gathered) (filters : SearchFilters) :
  exists response, respond g (Some filters) = Ok response.
Proof.
  unfold respond. cbn [applyOptionalFilters].
  destruct (allResults g) as [|x l].
  - destruct (movieSearchErrors g ++ tvSearchErrors g); eauto.
  - destruct (sort compareRatings (applyFilters (x :: l) filters)); eauto.
Qed.

(** C6 (amended). When one of the two content-type searches yields no items
    (with or without an error) and the other a non-empty list, the collected
    error is not returned: [searchContent] answers with the surviving items
    that pass the filters, sorted, as a success response, or, when none of
    them passes the filters, with the no-match failure.  The first collected
    error is returned, as a failure response, when both searches produced no
    items.  No outbound search call is made twice. *)
Theorem searchContent_partial_results (w : World) (fuel : nat) (query : string)
    (filters : SearchFilters) (movies shows : Collected) :
  keyNotConfigured w = false ->
  searchPages fuel (searchMovies w query (Some filters)) 1 emptyCollected = Some movies ->
  searchPages fuel (searchTVShows w query (Some filters)) 1 emptyCollected = Some shows ->
  exists response reqs,
    searchContent w fuel query (Some filters) = Some (response, reqs)
    /\ NoDup reqs
    /\ (items movies ++ items shows <> [] ->
        let sorted := sort compareRatings (applyFilters (items movies ++ items shows) filters) in
        Permutation sorted (applyFilters (items movies ++ items shows) filters)
        /\ response = match sorted with
                      | [] => failure noMatchMessage
                      | _ :: _ => found sorted
                      end)
    /\ (items movies = [] -> items shows <> [] ->
        response = match sort compareRatings (applyFilters (items shows) filters) with
                   | [] => failure noMatchMessage
                   | _ :: _ => found (sort compareRatings (applyFilters (items shows) filters))
                   end)
    /\ (items shows = [] -> items movies <> [] ->
        response = match sort compareRatings (applyFilters (items movies) filters) with
                   | [] => failure noMatchMessage
                   | _ :: _ => found (sort compareRatings (applyFilters (items movies) filters))
                   end)
    /\ (forall e rest, items movies = [] -> items shows = [] ->
        searchErrors movies ++ searchErrors shows = e :: rest ->
        response = failure e).
Proof.
  intros Hkey HM HT.
  assert (Hg : gatherResults w fuel query (Some filters) =
               Some {| allResults := items movies ++ items shows;
                       movieSearchErrors := searchErrors movies;
                       tvSearchErrors := searchErrors shows;
                       requests := map (requestOf SearchMovieEndpoint query) (pagesRequested movies)
                                   ++ map (requestOf SearchTVEndpoint query) (pagesRequested shows) |}).
  { unfold gatherResults. now rewrite HM, HT. }
  pose proof (gatherResults_NoDup _ _ _ _ _ Hg) as Hnd.
  unfold searchContent. rewrite Hkey, Hg.
  set (g := {| allResults := items movies ++ items shows |}) in *.
  assert (Hwith : items movies ++ items shows <> [] ->
            respond g (Some filters) =
              Ok match sort compareRatings (applyFilters (items movies ++ items shows) filters) with
                 | [] => failure noMatchMessage
                 | _ :: _ => found (sort compareRatings
                                      (applyFilters (items movies ++ items shows) filters))
                 end).
  { intros Hne. now apply (respond_with_items g filters). }
  destruct (respond_total g filters) as [r E]. rewrite E.
  exists r, (requests g). split; [reflexivity|]. split; [exact Hnd|].
  split; [|split; [|split]].
  - intros Hne. split; [apply sort_Permutation|].
    specialize (Hwith Hne). congruence.
  - intros HMnil Hne. rewrite HMnil in Hwith. cbn [app] in Hwith.
    specialize (Hwith Hne). congruence.
  - intros HTnil Hne. rewrite HTnil, app_nil_r in Hwith.
    specialize (Hwith Hne). congruence.
  - intros e rest HMnil HTnil Herr.
    assert (Hfirst : respond g (Some filters) = Ok (failure e)).
    { apply (respond_first_error g (Some filters) e rest); [|exact Herr].
      subst g. cbn [allResults]. now rewrite HMnil, HTnil. }
    congruence.
Qed.

Lemma searchContent_partial_results_witness :
  exists response reqs,
    searchContent Samples.moviesDown 5 "dune" (Some Samples.noFilters) = Some (response, reqs)
    /\ NoDup reqs
    /\ response = found (map Samples.showContent (rev Samples.duneShows)).
Proof.
  destruct (searchContent_partial_results Samples.moviesDown 5 "dune" Samples.noFilters
              {| items := [];
                 searchErrors := ["API request failed: 500 Internal Server Error"];
                 pagesRequested := [1] |}
              {| items := map Samples.showContent Samples.duneShows;
                 searchErrors := []; pagesRequested := [1] |}
              eq_refl ltac:(vm_compute; reflexivity) ltac:(vm_compute; reflexivity))
    as (response & reqs & Hrun & Hnd & _ & Hshows & _).
  exists response, reqs. split; [exact Hrun|]. split; [exact Hnd|].
  rewrite (Hshows eq_refl ltac:(discriminate)). vm_compute. reflexivity.
Defined.

(** C6, as stated, fails: the movie search reports an error and no items, the
    TV search returns two shows, and the caller filters on type [movie].  The
    response is a failure (no item passes the filter), not a success carrying
    the surviving shows. *)
Lemma searchContent_partial_results_counterexample :
  searchPages 5 (searchMovies Samples.moviesDown "dune" (Some (Samples.onlyType "movie")))
              1 emptyCollected
    = Some {| items := [];
              searchErrors := ["API request failed: 500 Internal Server Error"];
              pagesRequested := [1] |}
  /\ searchPages 5 (searchTVShows Samples.moviesDown "dune" (Some (Samples.onlyType "movie")))
                 1 emptyCollected
    = Some {| items := map Samples.showContent Samples.duneShows;
              searchErrors := []; pagesRequested := [1] |}
  /\ searchContent Samples.moviesDown 5 "dune" (Some (Samples.onlyType "movie"))
    = Some (failure noMatchMessage,
            [requestOf SearchMovieEndpoint "dune" 1; requestOf SearchTVEndpoint "dune" 1]).
Proof.
  repeat split; vm_compute; reflexivity.
Qed.

(** ** Upstream failures in [searchMovies] and [searchTVShows] *)

Lemma prefix_append (b c : string) : String.prefix b (b +:+ c) = true.
Proof.
  induction b as [|x b IH]; simpl.
  - now destruct c.
  - destruct (ascii_dec x x) as [_|F]; [exact IH | congruence].
Qed.

Lemma includes_append_l (a s sub : string) :
  includes s sub = true -> includes (a +:+ s) sub = true.
Proof.
  intros H. induction a as [|x a IH]; simpl; [exact H|].
  rewrite IH. apply orb_true_r.
Qed.

Lemma includes_prefix (s sub : string) :
  String.prefix sub s = true -> includes s sub = true.
Proof.
  destruct s; simpl; intros ->; reflexivity.
Qed.

Lemma includes_middle (a b c : string) : includes (a +:+ b +:+ c) b = true.
Proof.
  apply includes_append_l, includes_prefix, prefix_append.
Qed.

(** The non-ok branch, shared by both search functions. *)
Lemma searchAttempt_not_ok {Item : Type} (r : Response Item)
    (convertWithRealData convert : Item -> Content) :
  Http.ok r = false ->
  searchAttempt (Responded r) convertWithRealData convert =
    Ok (failure (if (Http.status r =? 401)%N then authenticationMessage
                 else requestFailedMessage r)).
Proof.
  intros Hok. unfold searchAttempt. rewrite Hok. cbn [negb].
  destruct (Http.status r =? 401)%N; reflexivity.
Qed.

(** C7. In the per-page movie and TV search calls, a non-ok upstream
    response with status 401 yields the failure envelope with the
    authentication message; a non-ok response with any other status yields a
    failure envelope whose message is the request-failed string, which
    contains the status.  Both calls return these envelopes as values:
    neither throws. *)
Theorem search_non_ok_response (w : World) (query : string)
    (filters : option SearchFilters) (page : nat) :
  keyNotConfigured w = false ->
  (forall r, fetchMovies w query page = Responded r -> Http.ok r = false ->
     (Http.status r = 401%N ->
        searchMovies w query filters page =
          failure "API authentication failed. Please check your TMDB API key is valid and active.")
     /\ (Http.status r <> 401%N ->
        searchMovies w query filters page =
          failure ("API request failed: " +:+ pretty (Http.status r) +:+ " " +:+ Http.statusText r)
        /\ includes ("API request failed: " +:+ pretty (Http.status r) +:+ " " +:+ Http.statusText r)
                    (pretty (Http.status r)) = true))
  /\ (forall r, fetchTVShows w query page = Responded r -> Http.ok r = false ->
     (Http.status r = 401%N ->
        searchTVShows w query filters page =
          failure "API authentication failed. Please check your TMDB API key is valid and active.")
     /\ (Http.status r <> 401%N ->
        searchTVShows w query filters page =
          failure ("API request failed: " +:+ pretty (Http.status r) +:+ " " +:+ Http.statusText r)
        /\ includes ("API request failed: " +:+ pretty (Http.status r) +:+ " " +:+ Http.statusText r)
                    (pretty (Http.status r)) = true)).
Proof.
  intros Hkey. split; intros r Hfetch Hok.
  - unfold searchMovies. rewrite Hkey, Hfetch, searchAttempt_not_ok by exact Hok.
    split; intros Hst.
    + rewrite Hst. reflexivity.
    + apply N.eqb_neq in Hst. rewrite Hst.
      split; [reflexivity | apply includes_middle].
  - unfold searchTVShows. rewrite Hkey, Hfetch, searchAttempt_not_ok by exact Hok.
    split; intros Hst.
    + rewrite Hst. reflexivity.
    + apply N.eqb_neq in Hst. rewrite Hst.
      split; [reflexivity | apply includes_middle].
Qed.

Lemma search_non_ok_response_witness :
  keyNotConfigured Samples.bothDown = false
  /\ searchMovies Samples.bothDown "dune" None 1
     = failure "API authentication failed. Please check your TMDB API key is valid and active."
  /\ searchTVShows Samples.bothDown "dune" None 1
     = failure "API request failed: 503 Service Unavailable".
Proof.
  split; [reflexivity|].
  destruct (search_non_ok_response Samples.bothDown "dune" None 1 eq_refl) as [HM HT].
  split.
  - apply (HM _ eq_refl eq_refl). reflexivity.
  - apply (proj2 (HT _ eq_refl eq_refl)). discriminate.
Defined.

(** Whatever the network does, the search functions hand back an envelope;
    a failure to fetch or to read the body becomes the catch-all message. *)
Lemma searchMovies_catch (w : World) (query : string) (filters : option SearchFilters)
    (page : nat) (e : JsError) :
  keyNotConfigured w = false -> fetchMovies w query page = Failed e ->
  searchMovies w query filters page = failure ("Movie search failed: " +:+ errorMessage e).
Proof.
  intros Hkey Hfetch. unfold searchMovies. now rewrite Hkey, Hfetch.
Qed.

(** ** The search route *)

Lemma codeUnits_positive (c : ascii) (l : list ascii) : 0 < codeUnits (c :: l).
Proof.
  cbn [codeUnits]. destruct (sequenceLength (c :: l)) as [|[|[|[|[|n]]]]];
    destruct l as [|c1 [|c2 [|c3 l]]]; lia.
Qed.

Lemma length_zero_empty (s : string) : (lengthUTF16 s =? 0)%nat = true <-> s = "".
Proof.
  unfold lengthUTF16. destruct s as [|c s]; [now split|].
  cbn [list_ascii_of_string].
  pose proof (codeUnits_positive c (list_ascii_of_string s)) as H.
  split; [|discriminate]. intros E. apply Nat.eqb_eq in E. lia.
Qed.

Lemma withinRange_outside (x : JsNumber) :
  match x with
  | Finite v => (v < 0)%Q \/ (10 < v)%Q
  | _ => True
  end ->
  withinRange 0 10 x = None.
Proof.
  destruct x as [| |v]; simpl; try reflexivity.
  intros [H|H].
  - destruct (Qle_bool 0 v) eqn:E; [|reflexivity].
    apply Qle_bool_iff in E. lra.
  - destruct (Qle_bool v 10) eqn:E; [|now rewrite andb_false_r].
    apply Qle_bool_iff in E. lra.
Qed.

(** C10. [GET /api/content/search] answers 400 with a failure envelope, and
    does not call [searchContent], when [q] is missing, empty, only white
    space (as [trim] has it), or longer than 100 characters (UTF-16 code
    units, which [q.length] counts).  Otherwise it calls [searchContent]
    once, with the trimmed query; a [year] outside 1900 to the current year
    plus 5, or a [rating_min] outside 0 to 10, is left out of the filter set
    and does not cause a rejection. *)
Theorem GET_validation (rt : Route.Runtime) (searchParams : list (string * string)) :
  (Route.get searchParams "q" = None ->
     Route.GET rt searchParams =
       {| Route.reply := Some (Route.errorReply 400 (Some "Search query is required"));
          Route.searchCalls := [] |})
  /\ (forall q, Route.get searchParams "q" = Some q -> q = "" \/ trim q = "" ->
     Route.GET rt searchParams =
       {| Route.reply := Some (Route.errorReply 400 (Some "Search query is required"));
          Route.searchCalls := [] |})
  /\ (forall q, Route.get searchParams "q" = Some q -> q <> "" -> trim q <> "" ->
     100 < lengthUTF16 q ->
     Route.GET rt searchParams =
       {| Route.reply :=
            Some (Route.errorReply 400 (Some "Search query too long (max 100 characters)"));
          Route.searchCalls := [] |})
  /\ (forall q, Route.get searchParams "q" = Some q -> q <> "" -> trim q <> "" ->
     lengthUTF16 q <= 100 ->
     exists filters,
       Route.searchCalls (Route.GET rt searchParams) = [(trim q, filters)]
       /\ (forall rep, Route.reply (Route.GET rt searchParams) = Some rep ->
             Route.replyStatus rep <> 400%N)
       /\ (forall year, Route.get searchParams "year" = Some year ->
             match parseInt year with
             | Some yearNum => (yearNum < 1900 \/ Route.currentYear rt + 5 < yearNum)%Z
             | None => True
             end ->
             Filters.year filters = None)
       /\ (forall ratingMin, Route.get searchParams "rating_min" = Some ratingMin ->
             match Route.Number_parseFloat rt ratingMin with
             | Finite ratingNum => (ratingNum < 0)%Q \/ (10 < ratingNum)%Q
             | _ => True
             end ->
             Filters.rating_min filters = None)).
Proof.
  split; [|split; [|split]].
  - intros Hq. unfold Route.GET. now rewrite Hq.
  - intros q Hq Hblank. unfold Route.GET. rewrite Hq.
    assert (E : negb (truthy q) || (lengthUTF16 (trim q) =? 0)%nat = true).
    { destruct Hblank as [-> | Ht]; [reflexivity|].
      rewrite Ht. apply orb_true_r. }
    now rewrite E.
  - intros q Hq Hne Htrim Hlen. unfold Route.GET. rewrite Hq.
    assert (E : negb (truthy q) || (lengthUTF16 (trim q) =? 0)%nat = false).
    { apply orb_false_iff. split.
      - unfold truthy. rewrite negb_involutive. now apply String.eqb_neq.
      - destruct (lengthUTF16 (trim q) =? 0)%nat eqn:E0; [|reflexivity].
        apply length_zero_empty in E0. contradiction. }
    rewrite E. apply Nat.ltb_lt in Hlen. now rewrite Hlen.
  - intros q Hq Hne Htrim Hlen. exists (Route.buildFilters rt searchParams).
    unfold Route.GET. rewrite Hq.
    assert (E : negb (truthy q) || (lengthUTF16 (trim q) =? 0)%nat = false).
    { apply orb_false_iff. split.
      - unfold truthy. rewrite negb_involutive. now apply String.eqb_neq.
      - destruct (lengthUTF16 (trim q) =? 0)%nat eqn:E0; [|reflexivity].
        apply length_zero_empty in E0. contradiction. }
    rewrite E.
    assert (E2 : (100 <? lengthUTF16 q)%nat = false) by (apply Nat.ltb_ge; lia).
    rewrite E2. cbv zeta.
    split; [|split; [|split]].
    + destruct (Route.searchContentOf rt (trim q) (Route.buildFilters rt searchParams))
        as [result|]; [destruct (negb (success result))|]; reflexivity.
    + intros rep.
      destruct (Route.searchContentOf rt (trim q) (Route.buildFilters rt searchParams))
        as [result|]; [destruct (negb (success result))|]; cbn [Route.reply];
        intros H; inversion H; subst; discriminate.
    + intros year Hyear Hout. cbn [Route.buildFilters Filters.year].
      unfold Route.yearFilter. rewrite Hyear.
      destruct (truthy year); [|reflexivity].
      destruct (parseInt year) as [yearNum|]; [|reflexivity].
      destruct (yearNum >=? 1900)%Z eqn:E3; [|reflexivity].
      destruct (yearNum <=? Route.currentYear rt + 5)%Z eqn:E4; [|reflexivity].
      exfalso. rewrite Z.geb_leb in E3. apply Z.leb_le in E3, E4. lia.
    + intros ratingMin Hr Hout. cbn [Route.buildFilters Filters.rating_min].
      unfold Route.ratingFilter. rewrite Hr.
      destruct (truthy ratingMin); [|reflexivity].
      now apply withinRange_outside.
Qed.

(** The route on the live path: a request for [dune] with [year=1850] and
    [rating_min=11.5] goes through with neither filter. *)
Example GET_drops_out_of_range :
  Route.GET (Route.liveRuntime Samples.moviesDown 5 Samples.decimalParseFloat 2026)
            [("q", " dune "); ("year", "1850"); ("rating_min", "11.5")]
  = {| Route.reply :=
         Some (Route.resultReply (found (map Samples.showContent (rev Samples.duneShows))));
       Route.searchCalls := [("dune", Samples.noFilters)] |}.
Proof. vm_compute. reflexivity. Qed.

Example GET_rejects_blank_query :
  Route.GET (Samples.runtime None) [("q", "   "); ("year", "2020")]
  = {| Route.reply := Some (Route.errorReply 400 (Some "Search query is required"));
       Route.searchCalls := [] |}.
Proof. reflexivity. Qed.

(** White space and length are those of the language, not of ASCII: a [q]
    that is one no-break space is blank; sixty accented letters are sixty
    characters, though 120 bytes, and are searched for; fifty-one characters
    above U+FFFF are 102 code units and too long; a [year] after a no-break
    space is read. *)
Example GET_rejects_no_break_space :
  Route.GET (Samples.runtime None) [("q", Samples.noBreakSpace)]
  = {| Route.reply := Some (Route.errorReply 400 (Some "Search query is required"));
       Route.searchCalls := [] |}.
Proof. vm_compute. reflexivity. Qed.

Example GET_counts_code_units :
  String.length Samples.sixtyAccents = 120
  /\ Route.searchCalls (Route.GET (Samples.runtime None) [("q", Samples.sixtyAccents)])
     = [(Samples.sixtyAccents, Samples.noFilters)]
  /\ Route.GET (Samples.runtime None) [("q", Samples.fiftyOneFaces)]
     = {| Route.reply :=
            Some (Route.errorReply 400 (Some "Search query too long (max 100 characters)"));
          Route.searchCalls := [] |}.
Proof. repeat split; vm_compute; reflexivity. Qed.

Example GET_reads_year_after_no_break_space :
  Route.searchCalls
    (Route.GET (Samples.runtime None)
       [("q", "dune"); ("year", Samples.noBreakSpace +:+ "2020")])
  = [("dune", {| Filters.platform := Some ""; Filters.genre := Some "";
                 Filters.language := Some ""; Filters.country := Some "";
                 Filters.type := Some ""; Filters.year := Some 2020%Z;
                 Filters.rating_min := None |})].
Proof. vm_compute. reflexivity. Qed.

(** ** Top-list recommendations *)

Section TopLists.
Import Recommendations.

Lemma findCategory_In (table : list (string * list Recommendation)) (categoryLower key : string)
    (list : list Recommendation) :
  findCategory table categoryLower = Some (key, list) -> In (key, list) table.
Proof.
  induction table as [|[k l] table IH]; simpl; [discriminate|].
  destruct (includes categoryLower k || includes k categoryLower).
  - intros H. inversion H; subst. now left.
  - intros H. right. now apply IH.
Qed.

(** Every entry of the static table is tagged with the key it is filed
    under. *)
Lemma topLists_tagged (key : string) (list : list Recommendation) (r : Recommendation) :
  In (key, list) topLists -> In r list -> taggedWith key r = true.
Proof.
  assert (H : forallb (fun '(k, l) => forallb (taggedWith k) l) topLists = true)
    by (vm_compute; reflexivity).
  rewrite forallb_forall in H. intros Hkl Hr.
  specialize (H _ Hkl). cbn beta iota in H.
  rewrite forallb_forall in H. now apply H.
Qed.

Lemma topLists_nonempty (key : string) (list : list Recommendation) :
  In (key, list) topLists -> list <> [].
Proof.
  assert (H : forallb (fun '(k, l) => negb (length l =? 0)%nat) topLists = true)
    by (vm_compute; reflexivity).
  rewrite forallb_forall in H. intros Hkl ->.
  specialize (H _ Hkl). discriminate.
Qed.

Lemma In_firstn_list {A : Type} (n : nat) (l : list A) (x : A) : In x (firstn n l) -> In x l.
Proof.
  revert n. induction l as [|y l IH]; intros [|n]; simpl; try tauto.
  intros [H|H]; [now left | right; eauto].
Qed.

Lemma In_slice0 {A : Type} (n : Z) (l : list A) (x : A) : In x (slice0 n l) -> In x l.
Proof.
  unfold slice0. destruct (n <? 0)%Z; apply In_firstn_list.
Qed.

Lemma sublist_firstn {A : Type} (n : nat) (l : list A) : sublist (firstn n l) l.
Proof.
  revert n. induction l as [|x l IH]; intros [|n]; simpl; try constructor.
  - apply sublist_nil_l.
  - apply IH.
Qed.

(** With the text-generation service out of the picture, a matching query
    is answered by [generateTopListRecommendations]. *)
Lemma generateAIRecommendations_static (env : Env) (query : string) (maxRecommendations : Z)
    (m : Regex.Match) :
  Regex.exec true topListPattern query = Some m ->
  staticOnly env query (categoryOf m) (requestedCount m maxRecommendations) ->
  generateAIRecommendations env query maxRecommendations =
    generateTopListRecommendations (categoryOf m) (requestedCount m maxRecommendations).
Proof.
  intros Hm Hstatic. unfold generateAIRecommendations. rewrite Hm. cbv zeta.
  destruct Hstatic as [-> | [-> | [e He]]]; try reflexivity.
  rewrite He. destruct (env_HUGGINGFACE_API_KEY env) as [k|]; [destruct (truthy k)|];
    reflexivity.
Qed.

Lemma generateTopListRecommendations_found (category key : string) (count : option Z)
    (list : list Recommendation) :
  findCategory topLists (toLowerCase category) = Some (key, list) ->
  generateTopListRecommendations category count =
    if longerThan list count then slice0 (default 0%Z count) list else list.
Proof.
  intros Hf. unfold generateTopListRecommendations. rewrite Hf. cbv zeta.
  pose proof (topLists_nonempty _ _ (findCategory_In _ _ _ _ Hf)) as Hne.
  destruct list as [|x l]; [congruence|]. reflexivity.
Qed.

(** C8 (amended). For a recommendation query that the top-list pattern
    matches (a leading "list", "show", "give me" or "find", an optional
    "top" and count N, one of "best", "top", "greatest", "most popular", a
    category, then "movie(s)", "tv show(s)" or "series"), when no
    text-generation key is configured or that call fails, and the first key of
    the static table that contains the category or is contained in it has
    list L: the generator returns entries of L, in order, each tagged with
    that key, cut to the first N when L is longer than the requested count. *)
Theorem generateAIRecommendations_top_list (env : Env) (query : string) (maxRecommendations : Z)
    (m : Regex.Match) (key : string) (list : list Recommendation) :
  Regex.exec true topListPattern query = Some m ->
  findCategory topLists (toLowerCase (categoryOf m)) = Some (key, list) ->
  staticOnly env query (categoryOf m) (requestedCount m maxRecommendations) ->
  generateAIRecommendations env query maxRecommendations =
    (if longerThan list (requestedCount m maxRecommendations)
     then slice0 (default 0%Z (requestedCount m maxRecommendations)) list
     else list)
  /\ sublist (generateAIRecommendations env query maxRecommendations) list
  /\ (forall r, In r (generateAIRecommendations env query maxRecommendations) ->
        In r list /\ taggedWith key r = true)
  /\ (forall n, requestedCount m maxRecommendations = Some n -> (0 <= n)%Z ->
        generateAIRecommendations env query maxRecommendations = firstn (Z.to_nat n) list).
Proof.
  intros Hm Hf Hstatic.
  rewrite (generateAIRecommendations_static env query maxRecommendations m Hm Hstatic).
  rewrite (generateTopListRecommendations_found _ key _ list Hf).
  pose proof (findCategory_In _ _ _ _ Hf) as Hin.
  assert (Hsub : forall r,
            In r (if longerThan list (requestedCount m maxRecommendations)
                  then slice0 (default 0%Z (requestedCount m maxRecommendations)) list
                  else list) -> In r list).
  { intros r. destruct (longerThan list _); [apply In_slice0 | auto]. }
  split; [reflexivity|]. split; [|split].
  - destruct (longerThan list _); [|reflexivity].
    unfold slice0. destruct (_ <? 0)%Z; apply sublist_firstn.
  - intros r Hr. apply Hsub in Hr. split; [exact Hr|].
    now apply (topLists_tagged key list).
  - intros n Hn Hpos. rewrite Hn. cbn [longerThan default from_option Datatypes.id].
    unfold slice0. destruct (n <? 0)%Z eqn:E; [apply Z.ltb_lt in E; lia|].
    destruct (Z.of_nat (length list) >? n)%Z eqn:E2; [reflexivity|].
    rewrite firstn_all2; [reflexivity|].
    rewrite Z.gtb_ltb in E2. apply Z.ltb_ge in E2. lia.
Qed.

Lemma generateAIRecommendations_top_list_witness :
  Regex.exec true topListPattern "list top 3 best horror movies" = Some Samples.horrorMatch
  /\ findCategory topLists (toLowerCase (categoryOf Samples.horrorMatch))
     = Some ("horror", Samples.horrorList)
  /\ generateAIRecommendations Samples.noLLM "list top 3 best horror movies" 50
     = firstn 3 Samples.horrorList
  /\ forall r, In r (generateAIRecommendations Samples.noLLM "list top 3 best horror movies" 50) ->
       In r Samples.horrorList /\ taggedWith "horror" r = true.
Proof.
  assert (Hm : Regex.exec true topListPattern "list top 3 best horror movies"
               = Some Samples.horrorMatch) by (vm_compute; reflexivity).
  assert (Hf : findCategory topLists (toLowerCase (categoryOf Samples.horrorMatch))
               = Some ("horror", Samples.horrorList)) by (vm_compute; reflexivity).
  destruct (generateAIRecommendations_top_list Samples.noLLM "list top 3 best horror movies" 50
              Samples.horrorMatch "horror" Samples.horrorList Hm Hf (or_introl eq_refl))
    as (_ & _ & Htag & Hcut).
  split; [exact Hm|]. split; [exact Hf|]. split; [|exact Htag].
  apply (Hcut 3%Z); [vm_compute; reflexivity | lia].
Defined.

(** C8, as stated, fails on its own example: the pattern does not match
    "top 5 best horror movies" (no leading "list", "show", "give me" or
    "find"), the query is answered from the mock table, none of whose keys
    occurs in it, and the default entries come back, none tagged horror. *)
Lemma generateAIRecommendations_top_list_counterexample :
  Regex.exec true topListPattern "top 5 best horror movies" = None
  /\ findCategory topLists "horror" = Some ("horror", Samples.horrorList)
  /\ generateAIRecommendations Samples.noLLM "top 5 best horror movies" 50 = Samples.defaultList
  /\ map title (generateAIRecommendations Samples.noLLM "top 5 best horror movies" 50)
     = ["Breaking Bad"; "The Mandalorian"; "Parasite"]
  /\ existsb (taggedWith "horror")
       (generateAIRecommendations Samples.noLLM "top 5 best horror movies" 50) = false.
Proof.
  repeat split; vm_compute; reflexivity.
Qed.

(** The same for every arrangement the random comparator may leave. *)
Lemma unmatched_horror_query_any_shuffle (env : Env) (maxRecommendations : Z) :
  (forall l, Permutation (shuffled env l) l) ->
  forall r, In r (generateAIRecommendations env "top 5 best horror movies" maxRecommendations) ->
    In r Samples.defaultList /\ taggedWith "horror" r = false.
Proof.
  intros Hperm r Hr.
  assert (E : generateAIRecommendations env "top 5 best horror movies" maxRecommendations
              = slice0 maxRecommendations (shuffled env Samples.defaultList)).
  { unfold generateAIRecommendations.
    replace (Regex.exec true topListPattern "top 5 best horror movies") with (@None Regex.Match)
      by (vm_compute; reflexivity).
    reflexivity. }
  rewrite E in Hr. apply In_slice0 in Hr.
  apply (Permutation_in _ (Hperm _)) in Hr. split; [exact Hr|].
  assert (H : forallb (fun x => negb (taggedWith "horror" x)) Samples.defaultList = true)
    by (vm_compute; reflexivity).
  rewrite forallb_forall in H. specialize (H _ Hr). now apply negb_true_iff in H.
Qed.

(** With a text-generation key and an answering service, a matching query is
    answered by the service, not from the static table. *)
Example generateAIRecommendations_prefers_service :
  map title (generateAIRecommendations Samples.withLLM "list top 3 best horror movies" 50)
  = ["Alien"].
Proof. vm_compute. reflexivity. Qed.

End TopLists.

(** ** The interpreter and [searchContent] *)

Lemma gatherResults_requests (w : World) (fuel : nat) (query : string)
    (filters : option SearchFilters) (g : Gathered) :
  gatherResults w fuel query filters = Some g ->
  Forall (fun r => (endpoint r = SearchMovieEndpoint \/ endpoint r = SearchTVEndpoint)
                   /\ requestQuery r = query) (requests g).
Proof.
  unfold gatherResults. intros H.
  destruct (searchPages fuel (searchMovies w query filters) 1 emptyCollected)
    as [movies|]; [|discriminate].
  destruct (searchPages fuel (searchTVShows w query filters) 1 emptyCollected)
    as [shows|]; [|discriminate].
  inversion H; subst; clear H. cbn [requests].
  apply Forall_app. split; apply Forall_forall; intros r Hr;
    apply list_elem_of_In, in_map_iff in Hr; destruct Hr as (p & <- & _); cbn; auto.
Qed.

(** Every outbound call of [searchContent] is a title search for the query
    as given: no decision of the interpreter reaches the fetch. *)
Lemma searchContent_requests_title_search (w : World) (fuel : nat) (query : string)
    (filters : option SearchFilters) (response : APIResponse (list Content))
    (reqs : list Request) :
  searchContent w fuel query filters = Some (response, reqs) ->
  Forall (fun r => (endpoint r = SearchMovieEndpoint \/ endpoint r = SearchTVEndpoint)
                   /\ requestQuery r = query) reqs.
Proof.
  unfold searchContent. destruct (keyNotConfigured w).
  - intros H. inversion H; subst. constructor.
  - destruct (gatherResults w fuel query filters) as [g|] eqn:E; [|discriminate].
    intros H.
    assert (reqs = requests g) as -> by (destruct (respond g filters); now inversion H).
    now apply (gatherResults_requests w fuel query filters).
Qed.

(** C4 (the code at the failing input).  For the query "top 10 action
    movies" the interpreter decides on category discovery, with no search
    terms and the genre "action"; [searchContent] nevertheless sends the
    query as it is to the two title-search endpoints and filters with the
    caller's filter set, so the drama titles found are returned. *)
Theorem searchContent_skips_interpreter :
  Interpreter.useDiscoverAPI
    (Interpreter.parseQueryIntelligently "top 10 action movies" (Some Samples.noFilters)) = true
  /\ Interpreter.searchTerms
       (Interpreter.parseQueryIntelligently "top 10 action movies" (Some Samples.noFilters)) = None
  /\ Filters.genre
       (Interpreter.filters
          (Interpreter.parseQueryIntelligently "top 10 action movies" (Some Samples.noFilters)))
     = Some "action"
  /\ searchContent Samples.showsDown 5 "top 10 action movies" (Some Samples.noFilters)
     = Some (found (map Samples.movieContent (rev Samples.duneMovies)),
             [requestOf SearchMovieEndpoint "top 10 action movies" 1;
              requestOf SearchTVEndpoint "top 10 action movies" 1])
  /\ map genre (map Samples.movieContent Samples.duneMovies) = ["Drama"; "Drama"].
Proof.
  repeat split; vm_compute; reflexivity.
Qed.

(** * Further properties *)

(** ** [applyFilters] on merged results and odd filter values *)

(** X1. Filtering a merged list is merging the filtered lists, and filtering
    twice with the same filter set changes nothing more. *)
Theorem applyFilters_app_idempotent (movies shows : list Content) (filters : SearchFilters) :
  applyFilters (movies ++ shows) filters
    = applyFilters movies filters ++ applyFilters shows filters
  /\ applyFilters (applyFilters (movies ++ shows) filters) filters
    = applyFilters (movies ++ shows) filters.
Proof.
  unfold applyFilters. split.
  - apply List.filter_app.
  - induction (movies ++ shows) as [|x l IH]; simpl; [reflexivity|].
    destruct (filterCallback filters x) eqn:E; simpl; [rewrite E; f_equal|]; exact IH.
Qed.

Lemma trim_empty_inv (s : string) : trim s <> "" -> s <> "".
Proof.
  intros H ->. apply H. reflexivity.
Qed.

Lemma activeFilter_nonblank (s : string) : trim s <> "" -> activeFilter (Some s) = Some s.
Proof.
  intros H. unfold activeFilter, truthy.
  pose proof (trim_empty_inv s H) as Hs.
  apply String.eqb_neq in H, Hs. now rewrite H, Hs.
Qed.

(** X2. The type filter is compared as it is written: a non-blank value
    other than exactly [movie] or [tv] (another case, surrounding spaces)
    removes every item. *)
Theorem applyFilters_type_exact (content : list Content) (filters : SearchFilters)
    (ftype : string) :
  Filters.type filters = Some ftype -> trim ftype <> "" ->
  ftype <> "movie" -> ftype <> "tv" ->
  applyFilters content filters = [].
Proof.
  intros Ht Hblank Hm Htv. unfold applyFilters.
  induction content as [|x l IH]; simpl; [reflexivity|].
  assert (E : filterCallback filters x = false).
  { unfold filterCallback. rewrite Ht, (activeFilter_nonblank ftype Hblank).
    assert (Hne : (typeString (type x) =? ftype) = false).
    { apply String.eqb_neq. destruct (type x); simpl; congruence. }
    now rewrite Hne. }
  now rewrite E.
Qed.

Lemma applyFilters_type_exact_witness :
  applyFilters [Samples.splitA; Samples.splitB] (Samples.onlyType "Movie") = []
  /\ applyFilters [Samples.splitA; Samples.splitB] (Samples.onlyType "movie") = [Samples.splitA].
Proof.
  split; [|vm_compute; reflexivity].
  apply (applyFilters_type_exact _ (Samples.onlyType "Movie") "Movie" eq_refl);
    vm_compute; discriminate.
Defined.

(** ** Converted items under the filters *)

Lemma mapString_append (f : ascii -> ascii) (a b : string) :
  mapString f (a +:+ b) = mapString f a +:+ mapString f b.
Proof.
  induction a as [|c a IH]; simpl; [reflexivity | now rewrite IH].
Qed.

Lemma toLowerCase_join (separator : string) (l : list string) :
  toLowerCase (Convert.join separator l)
  = Convert.join (toLowerCase separator) (map toLowerCase l).
Proof.
  induction l as [|x l IH]; [reflexivity|].
  destruct l as [|y l]; [reflexivity|].
  change (Convert.join separator (x :: y :: l))
    with (x +:+ separator +:+ Convert.join separator (y :: l)).
  unfold toLowerCase in *. rewrite !mapString_append, IH. reflexivity.
Qed.

Lemma prefix_refl (x : string) : String.prefix x x = true.
Proof.
  induction x as [|c x IH]; simpl; [reflexivity|].
  destruct (ascii_dec c c) as [_|F]; [exact IH | congruence].
Qed.

Lemma includes_join (separator x : string) (l : list string) :
  In x l -> includes (Convert.join separator l) x = true.
Proof.
  induction l as [|y l IH]; [contradiction|].
  intros [-> | Hin].
  - destruct l as [|z l]; simpl.
    + apply includes_prefix, prefix_refl.
    + apply includes_prefix, prefix_append.
  - destruct l as [|z l]; [contradiction|].
    change (Convert.join separator (y :: z :: l))
      with (y +:+ separator +:+ Convert.join separator (z :: l)).
    apply includes_append_l, includes_append_l, IH, Hin.
Qed.

Lemma includes_empty_l (x : string) : includes "" x = true -> x = "".
Proof.
  simpl. rewrite orb_false_r. destruct x; [reflexivity | discriminate].
Qed.

Lemma includes_empty_r (s : string) : includes s "" = true.
Proof.
  destruct s; reflexivity.
Qed.

Lemma genreName_In (id : Z) (name : string) :
  In (id, name) Convert.GENRE_MAP -> Convert.genreName Convert.GENRE_MAP id = Some name.
Proof.
  assert (H : forallb (fun '(i, n) =>
                match Convert.genreName Convert.GENRE_MAP i with
                | Some n' => n' =? n
                | None => false
                end) Convert.GENRE_MAP = true) by (vm_compute; reflexivity).
  rewrite forallb_forall in H. intros Hin. specialize (H _ Hin). cbn beta iota in H.
  destruct (Convert.genreName Convert.GENRE_MAP id) as [n'|]; [|discriminate].
  apply String.eqb_eq in H. now subst.
Qed.

Lemma genreText_includes (ids : list Z) (id : Z) (name : string) :
  In (id, name) Convert.GENRE_MAP -> In id ids ->
  includes (toLowerCase (Convert.genreText ids)) (toLowerCase name) = true.
Proof.
  intros Htable Hid. unfold Convert.genreText, Convert.orElse.
  set (names := List.filter truthy (omap (Convert.genreName Convert.GENRE_MAP) ids)).
  assert (Hname : In name names).
  { subst names. apply filter_In. split.
    - apply list_elem_of_In, list_elem_of_omap. exists id.
      split; [now apply list_elem_of_In | now apply genreName_In].
    - assert (H : forallb (fun '(_, n) => truthy n) Convert.GENRE_MAP = true)
        by (vm_compute; reflexivity).
      rewrite forallb_forall in H. exact (H _ Htable). }
  assert (Hjoin : includes (toLowerCase (Convert.join ", " names)) (toLowerCase name) = true).
  { rewrite toLowerCase_join. apply includes_join, in_map, Hname. }
  destruct (truthy (Convert.join ", " names)) eqn:E; [exact Hjoin|].
  unfold truthy in E. apply negb_false_iff, String.eqb_eq in E. rewrite E in Hjoin.
  apply includes_empty_l in Hjoin. rewrite Hjoin. apply includes_empty_r.
Qed.

(** X3. A title that carries one of the known upstream genre ids is kept
    by the genre filter named after that genre: the converter writes the
    genre's name into [genre], and the filter looks for it without regard
    to case. *)
Theorem genre_filter_keeps_converted (b : Convert.Builtins) (platforms : list string)
    (movie : TMDBMovie.t) (show : TMDBTVShow.t) (id : Z) (name : string)
    (filters : SearchFilters) :
  In (id, name) Convert.GENRE_MAP ->
  Filters.genre filters = Some name \/ Filters.genre filters = Some (toLowerCase name) ->
  (In id (TMDBMovie.genre_ids movie) ->
     genrePredicate filters (Convert.convertTMDBMovieToContent b platforms movie) = true)
  /\ (In id (TMDBTVShow.genre_ids show) ->
     genrePredicate filters (Convert.convertTMDBTVToContent b platforms show) = true).
Proof.
  intros Htable Hfilter.
  assert (Hcheck : forallb (fun '(_, n) =>
            match activeFilter (Some n), activeFilter (Some (toLowerCase n)) with
            | Some a, Some a' =>
                (trim (toLowerCase a) =? toLowerCase n) && (trim (toLowerCase a') =? toLowerCase n)
            | _, _ => false
            end) Convert.GENRE_MAP = true) by (vm_compute; reflexivity).
  rewrite forallb_forall in Hcheck. specialize (Hcheck _ Htable). cbn beta iota in Hcheck.
  destruct (activeFilter (Some name)) as [a|] eqn:Ea; [|discriminate].
  destruct (activeFilter (Some (toLowerCase name))) as [a'|] eqn:Ea'; [|discriminate].
  apply andb_true_iff in Hcheck. destruct Hcheck as [H1 H2].
  apply String.eqb_eq in H1, H2.
  assert (Hgen : forall item, (exists ids, In id ids /\ genre item = Convert.genreText ids) ->
            genrePredicate filters item = true).
  { intros item (ids & Hid & Hg). unfold genrePredicate.
    destruct Hfilter as [-> | ->]; [rewrite Ea, H1 | rewrite Ea', H2];
      rewrite Hg; now apply (genreText_includes ids id name). }
  split; intros Hid; apply Hgen; eexists; (split; [exact Hid | reflexivity]).
Qed.

Lemma genre_filter_keeps_converted_witness :
  genre (Convert.convertTMDBMovieToContent MoreSamples.builtins ["Netflix"] MoreSamples.hindiFilm)
    = "Drama, Romance"
  /\ genrePredicate (OneFilter.genre "romance")
       (Convert.convertTMDBMovieToContent MoreSamples.builtins ["Netflix"] MoreSamples.hindiFilm)
     = true
  /\ genrePredicate (OneFilter.genre "romance")
       (Convert.convertTMDBTVToContent MoreSamples.builtins ["Netflix"] MoreSamples.koreanShow)
     = false.
Proof.
  split; [vm_compute; reflexivity|]. split; [|vm_compute; reflexivity].
  apply (proj1 (genre_filter_keeps_converted MoreSamples.builtins ["Netflix"]
                  MoreSamples.hindiFilm MoreSamples.koreanShow 10749%Z "Romance"
                  (OneFilter.genre "romance")
                  ltac:(vm_compute; tauto) (or_intror eq_refl))).
  vm_compute. tauto.
Defined.

(** X4. The language filter accepts the English name of a language as well
    as its code: for every entry of [LANGUAGE_CODES], a title whose upstream
    [original_language] is the entry's code is kept when the filter holds the
    entry's name or its code, in lower or upper case. *)
Theorem language_filter_keeps_converted (b : Convert.Builtins) (platforms : list string)
    (movie : TMDBMovie.t) (show : TMDBTVShow.t) (name code : string)
    (filters : SearchFilters) :
  In (name, code) LANGUAGE_CODES ->
  Filters.language filters = Some name \/ Filters.language filters = Some code
  \/ Filters.language filters = Some (toUpperCase name)
  \/ Filters.language filters = Some (toUpperCase code) ->
  (TMDBMovie.original_language movie = code ->
     languagePredicate filters (Convert.convertTMDBMovieToContent b platforms movie) = true)
  /\ (TMDBTVShow.original_language show = code ->
     languagePredicate filters (Convert.convertTMDBTVToContent b platforms show) = true).
Proof.
  intros Htable Hfilter.
  pose (check := fun (value code : string) =>
          match activeFilter (Some value) with
          | Some fl => languageIsMatch (trim (toUpperCase fl)) (trim (toUpperCase (toUpperCase code)))
          | None => false
          end).
  assert (Hcheck : forallb (fun '(n, c) =>
            check n c && check c c && check (toUpperCase n) c && check (toUpperCase c) c)
            LANGUAGE_CODES = true) by (vm_compute; reflexivity).
  rewrite forallb_forall in Hcheck. specialize (Hcheck _ Htable). cbn beta iota in Hcheck.
  rewrite !andb_true_iff in Hcheck. destruct Hcheck as [[[H1 H2] H3] H4].
  assert (Hgen : forall item, language item = toUpperCase code ->
            languagePredicate filters item = true).
  { intros item Hl. unfold languagePredicate. rewrite Hl. unfold check in *.
    destruct Hfilter as [-> | [-> | [-> | ->]]];
      match goal with
      | |- match activeFilter ?x with _ => _ end = true =>
          destruct (activeFilter x); [assumption | discriminate]
      end. }
  split; intros Hl; apply Hgen; cbn; now rewrite Hl.
Qed.

Lemma language_filter_keeps_converted_witness :
  languagePredicate (OneFilter.language "hindi")
    (Convert.convertTMDBMovieToContent MoreSamples.builtins ["Netflix"] MoreSamples.hindiFilm)
  = true
  /\ languagePredicate (OneFilter.language "hindi")
       (Convert.convertTMDBTVToContent MoreSamples.builtins ["Netflix"] MoreSamples.koreanShow)
     = false.
Proof.
  split; [|vm_compute; reflexivity].
  apply (proj1 (language_filter_keeps_converted MoreSamples.builtins ["Netflix"]
                  MoreSamples.hindiFilm MoreSamples.koreanShow "hindi" "hi"
                  (OneFilter.language "hindi")
                  ltac:(vm_compute; tauto) (or_introl eq_refl))).
  reflexivity.
Defined.



(** ** The envelope of [searchContent] *)

Lemma searchPages_errors_nonempty (fuel : nat) (search : nat -> APIResponse (list Content)) :
  forall (start : nat) (acc result : Collected),
  Forall (fun e => e <> "") (searchErrors acc) ->
  searchPages fuel search start acc = Some result ->
  Forall (fun e => e <> "") (searchErrors result).
Proof.
  induction fuel as [|fuel IH]; intros start acc result Hacc H; [discriminate|].
  destruct (shortPage (search start)) eqn:E.
  - rewrite searchPages_short in H by exact E. inversion H; subst; clear H.
    cbn [searchErrors]. apply Forall_app. split; [exact Hacc|].
    unfold pageError. destruct (success (search start)); [constructor|].
    destruct (error (search start)) as [e|]; [|constructor].
    destruct (truthy e) eqn:Et; constructor; [|constructor].
    intros ->. discriminate.
  - rewrite searchPages_full in H by exact E. eapply IH; [|exact H]. exact Hacc.
Qed.

Lemma gatherResults_errors_nonempty (w : World) (fuel : nat) (query : string)
    (filters : option SearchFilters) (g : Gathered) :
  gatherResults w fuel query filters = Some g ->
  Forall (fun e => e <> "") (movieSearchErrors g ++ tvSearchErrors g).
Proof.
  unfold gatherResults. intros H.
  destruct (searchPages fuel (searchMovies w query filters) 1 emptyCollected)
    as [movies|] eqn:EM; [|discriminate].
  destruct (searchPages fuel (searchTVShows w query filters) 1 emptyCollected)
    as [shows|] eqn:ET; [|discriminate].
  inversion H; subst; clear H. cbn [movieSearchErrors tvSearchErrors].
  apply Forall_app. split; eapply searchPages_errors_nonempty; try eassumption; constructor.
Qed.

(** X6. Every response of [searchContent] is well formed: a success carries
    a non-empty list, no error, and a message that counts the list; a failure
    carries no data and a non-empty error text. *)
Theorem searchContent_envelope (w : World) (fuel : nat) (query : string)
    (filters : option SearchFilters) (response : APIResponse (list Content))
    (reqs : list Request) :
  searchContent w fuel query filters = Some (response, reqs) ->
  wellFormedEnvelope response.
Proof.
  assert (Hfail : forall e, e <> "" -> wellFormedEnvelope (@failure (list Content) e)).
  { intros e He. right. cbn. eauto. }
  unfold searchContent. destruct (keyNotConfigured w).
  { intros H. inversion H; subst. apply Hfail. discriminate. }
  destruct (gatherResults w fuel query filters) as [g|] eqn:Eg; [|discriminate].
  pose proof (gatherResults_errors_nonempty _ _ _ _ _ Eg) as Herr.
  destruct (respond g filters) as [r|e] eqn:Er; intros H; inversion H; subst; clear H.
  - unfold respond in Er.
    assert (Hrest : match applyOptionalFilters (allResults g) filters with
              | Throw e => Throw e
              | Ok filteredResults =>
                  match sort compareRatings filteredResults with
                  | [] => Ok (failure noMatchMessage)
                  | _ :: _ => Ok (found (sort compareRatings filteredResults))
                  end
              end = Ok response -> wellFormedEnvelope response).
    { destruct (applyOptionalFilters (allResults g) filters) as [filtered|e]; [|discriminate].
      destruct (sort compareRatings filtered) as [|x l]; intros H; inversion H; subst.
      - apply Hfail. discriminate.
      - left. cbn. eauto 6. }
    destruct (allResults g) as [|x l]; [|exact (Hrest Er)].
    destruct (movieSearchErrors g ++ tvSearchErrors g) as [|e es]; [exact (Hrest Er)|].
    inversion Er; subst. apply Hfail. now inversion Herr.
  - apply Hfail. discriminate.
Qed.

Lemma searchContent_envelope_witness :
  wellFormedEnvelope (found (map Samples.showContent (rev Samples.duneShows))).
Proof.
  apply (searchContent_envelope Samples.moviesDown 5 "dune" (Some Samples.noFilters) _
           [requestOf SearchMovieEndpoint "dune" 1; requestOf SearchTVEndpoint "dune" 1]).
  vm_compute. reflexivity.
Defined.

(** ** Platforms and trailers *)

Section EnrichFacts.
Import Enrich.

Lemma NoDup_firstn {A : Type} (n : nat) (l : list A) : NoDup l -> NoDup (firstn n l).
Proof.
  intros H. revert n. induction H as [|x l Hx Hl IH]; intros [|n]; simpl; try constructor.
  - intros Hin. apply Hx. apply list_elem_of_In. apply list_elem_of_In in Hin.
    now apply In_firstn_list in Hin.
  - apply IH.
Qed.

(** X7. [getRandomStreamingPlatforms] returns one, two or three of the
    seven fallback platforms, none of them twice, whatever the random
    numbers are. *)
Theorem getRandomStreamingPlatforms_range (rnd : Randomness) :
  (0 <= firstDraw rnd)%Q -> (firstDraw rnd < 1)%Q ->
  Permutation (arrangement rnd fallbackPlatforms) fallbackPlatforms ->
  1 <= length (getRandomStreamingPlatforms rnd) <= 3
  /\ NoDup (getRandomStreamingPlatforms rnd)
  /\ forall p, In p (getRandomStreamingPlatforms rnd) -> In p fallbackPlatforms.
Proof.
  intros H0 H1 Hperm. unfold getRandomStreamingPlatforms.
  set (count := (Qfloor (firstDraw rnd * 3) + 1)%Z).
  assert (Hcount : (1 <= count <= 3)%Z).
  { subst count.
    pose proof (Qfloor_le (firstDraw rnd * 3)) as Hle.
    assert (Hlow : (0 <= Qfloor (firstDraw rnd * 3))%Z).
    { change 0%Z with (Qfloor 0). apply Qfloor_resp_le. lra. }
    assert (Hhigh : (Qfloor (firstDraw rnd * 3) < 3)%Z).
    { rewrite Zlt_Qlt. eapply Qle_lt_trans; [exact Hle|].
      change (inject_Z 3) with 3%Q. lra. }
    lia. }
  unfold slice0. destruct (count <? 0)%Z eqn:E; [apply Z.ltb_lt in E; lia|].
  assert (Hlen : length (arrangement rnd fallbackPlatforms) = 7)
    by (rewrite (Permutation_length Hperm); reflexivity).
  split; [|split].
  - rewrite length_firstn, Hlen. lia.
  - apply NoDup_firstn. rewrite Hperm.
    unfold fallbackPlatforms. repeat constructor; cbn; intros H;
      repeat (apply elem_of_cons in H; destruct H as [H|H]; [discriminate|]);
      now apply elem_of_nil in H.
  - intros p Hp. apply In_firstn_list in Hp. now apply (Permutation_in _ Hperm).
Qed.

Lemma getRandomStreamingPlatforms_range_witness :
  getRandomStreamingPlatforms MoreSamples.fixedChance = ["Hulu"; "Paramount+"; "Apple TV+"]
  /\ 1 <= length (getRandomStreamingPlatforms MoreSamples.fixedChance) <= 3
  /\ NoDup (getRandomStreamingPlatforms MoreSamples.fixedChance).
Proof.
  split; [vm_compute; reflexivity|].
  destruct (getRandomStreamingPlatforms_range MoreSamples.fixedChance) as (Hlen & Hnd & _).
  - vm_compute. discriminate.
  - reflexivity.
  - apply Permutation_sym, Permutation_rev.
  - split; assumption.
Defined.

(** X8. [fetchWatchProviders] never returns an empty list when its random
    fallback is not empty; and once the region lists two or more
    subscription providers, rental and purchase providers are left out. *)
Theorem fetchWatchProviders_result (response : Fetched (option RegionData))
    (randomPlatforms : list string) :
  randomPlatforms <> [] ->
  fetchWatchProviders response randomPlatforms <> []
  /\ (forall regionData providers,
        response = Answered (Ok (Some regionData)) ->
        flatrate regionData = Some providers -> 2 <= length providers ->
        fetchWatchProviders response randomPlatforms = map provider_name providers).
Proof.
  intros Hrandom. split.
  - unfold fetchWatchProviders.
    destruct response as [e|st|[[regionData|]|e]]; try exact Hrandom.
    match goal with |- match ?l with _ => _ end <> [] => destruct l end;
      [exact Hrandom | discriminate].
  - intros regionData providers -> Hflat Hlen. unfold fetchWatchProviders.
    rewrite Hflat. cbn [app].
    assert (E : (length (map provider_name providers) <? 2)%nat = false).
    { apply Nat.ltb_ge. now rewrite length_map. }
    rewrite E. destruct (rent regionData), (buy regionData);
      (destruct providers as [|p [|p' ps]]; [simpl in Hlen; lia | simpl in Hlen; lia | reflexivity]).
Qed.

Lemma fetchWatchProviders_result_witness :
  fetchWatchProviders (Answered (Ok (Some MoreSamples.rentOnly))) ["Hulu"]
    = ["Apple TV"; "Google Play Movies"]
  /\ fetchWatchProviders (Refused 404) ["Hulu"] <> [].
Proof.
  split; [reflexivity|].
  apply (fetchWatchProviders_result (Refused 404) ["Hulu"]). discriminate.
Defined.

Lemma orFind_find_Some {A : Type} (p q r : A -> bool) (l : list A) (x : A) :
  orFind (List.find p l) (orFind (List.find q l) (List.find r l)) = Some x ->
  In x l /\ (p x = true \/ q x = true \/ r x = true)
  /\ ((exists y, In y l /\ p y = true) -> p x = true)
  /\ ((exists y, In y l /\ q y = true) -> p x = true \/ q x = true).
Proof.
  destruct (List.find p l) as [a|] eqn:Ep; cbn [orFind].
  - intros H. inversion H; subst. apply find_some in Ep. destruct Ep. auto 6.
  - destruct (List.find q l) as [b|] eqn:Eq; cbn [orFind].
    + intros H. inversion H; subst. apply find_some in Eq. destruct Eq.
      repeat split; auto.
      intros (y & Hy & Hpy). rewrite (find_none _ _ Ep y Hy) in Hpy. discriminate.
    + intros H. apply find_some in H. destruct H. repeat split; auto.
      * intros (y & Hy & Hpy). rewrite (find_none _ _ Ep y Hy) in Hpy. discriminate.
      * intros (y & Hy & Hqy). rewrite (find_none _ _ Eq y Hy) in Hqy. discriminate.
Qed.

(** X9. The trailer that [fetchTrailerUrl] returns is a YouTube video of the
    reply, of type Trailer, Teaser or Clip, addressed by its key; an official
    YouTube trailer is preferred to any other video, and any YouTube trailer
    to a teaser or clip. *)
Theorem fetchTrailerUrl_choice (response : Fetched (option (list Video.t))) (url : string) :
  fetchTrailerUrl response = Some url ->
  exists videos video,
    response = Answered (Ok (Some videos))
    /\ In video videos
    /\ url = "https://www.youtube.com/watch?v=" +:+ Video.key video
    /\ Video.site video = "YouTube"
    /\ (Video.type video = "Trailer" \/ Video.type video = "Teaser"
        \/ Video.type video = "Clip")
    /\ ((exists v, In v videos /\ isOfficialTrailer v = true) ->
        isOfficialTrailer video = true)
    /\ ((exists v, In v videos /\ isTrailer v = true) -> Video.type video = "Trailer").
Proof.
  unfold fetchTrailerUrl.
  destruct response as [e|st|[[videos|]|e]]; try discriminate; cbn [default from_option].
  destruct (orFind _ _) as [video|] eqn:E; [|discriminate].
  intros H. inversion H; subst; clear H.
  apply orFind_find_Some in E. destruct E as (Hin & Hkind & Hofficial & Htrailer).
  exists videos, video. split; [reflexivity|]. split; [exact Hin|]. split; [reflexivity|].
  assert (Hsite : Video.site video = "YouTube"
                  /\ (Video.type video = "Trailer" \/ Video.type video = "Teaser"
                      \/ Video.type video = "Clip")).
  { unfold isOfficialTrailer, isTrailer, isTeaserOrClip in Hkind.
    rewrite !andb_true_iff, orb_true_iff, !String.eqb_eq in Hkind. tauto. }
  split; [tauto|]. split; [tauto|]. split; [exact Hofficial|].
  intros Hex. destruct (Htrailer Hex) as [H|H];
    unfold isOfficialTrailer, isTrailer in H;
    rewrite !andb_true_iff, !String.eqb_eq in H; tauto.
Qed.

Lemma fetchTrailerUrl_choice_witness :
  fetchTrailerUrl (Answered (Ok (Some [MoreSamples.vimeoTrailer; MoreSamples.fanClip;
                                       MoreSamples.officialTrailer])))
    = Some "https://www.youtube.com/watch?v=abc123"
  /\ exists videos video,
       Answered (Ok (Some [MoreSamples.vimeoTrailer; MoreSamples.fanClip;
                           MoreSamples.officialTrailer])) = Answered (Ok (Some videos))
       /\ In video videos
       /\ "https://www.youtube.com/watch?v=abc123"
          = "https://www.youtube.com/watch?v=" +:+ Video.key video
       /\ Video.site video = "YouTube"
       /\ (Video.type video = "Trailer" \/ Video.type video = "Teaser"
           \/ Video.type video = "Clip")
       /\ ((exists v, In v videos /\ isOfficialTrailer v = true) ->
           isOfficialTrailer video = true)
       /\ ((exists v, In v videos /\ isTrailer v = true) -> Video.type video = "Trailer").
Proof.
  split; [reflexivity|].
  apply (fetchTrailerUrl_choice _ "https://www.youtube.com/watch?v=abc123"). reflexivity.
Defined.

End EnrichFacts.

(** ** Category discovery *)

Section DiscoverFacts.
Import Discover.




Lemma sortedByRating_Sorted (allContent : list Content) :
  Sorted (fun a b => (tmdb_rating b <= tmdb_rating a)%Q) (sortedByRating allContent).
Proof.
  apply sort_Sorted; intros x y; unfold Qgtb.
  - rewrite Qltb_false_le. lra.
  - rewrite Qltb_lt. lra.
Qed.

(** X11. A successful [discoverContent] returns its items in descending
    order of [tmdb_rating]. *)
Theorem discoverContent_sorted (w : World) (up : Upstream) (searchIntent : SearchIntent)
    (filters : SearchFilters) (results : list Content) :
  data (fst (discoverContent w up searchIntent filters)) = Some results ->
  forall before a b after, results = before ++ a :: b :: after ->
    (tmdb_rating b <= tmdb_rating a)%Q.
Proof.
  unfold discoverContent. intros H.
  destruct (discoverPages (discoverMovies up) _ _ tenPages [] []) as [[movies|e] askedM];
    [|discriminate].
  destruct (discoverPages (discoverTVShows up) _ _ tenPages movies []) as [[allContent|e] askedT];
    [|discriminate].
  cbn in H. inversion H; subst.
  apply (Sorted_neighbours (fun a b => (tmdb_rating b <= tmdb_rating a)%Q)).
  apply sortedByRating_Sorted.
Qed.



(** X13. Of the genre keywords the interpreter recognises, every one but
    [sci-fi] resolves, in [discoverContent], to the upstream genre of that
    very name; [sci-fi] resolves to no genre, so that a discovery for it
    would not be restricted by genre. *)
Theorem interpreter_genres_resolve (keyword : string) :
  In keyword Interpreter.genres ->
  (keyword = "sci-fi" /\ genreId keyword = None)
  \/ (exists id name, genreId keyword = Some id /\ In (id, name) Convert.GENRE_MAP
                      /\ toLowerCase name = keyword).
Proof.
  intros Hin.
  assert (H : forallb (fun g =>
                match genreId g with
                | None => g =? "sci-fi"
                | Some id =>
                    match Convert.genreName Convert.GENRE_MAP id with
                    | Some name =>
                        (toLowerCase name =? g)
                        && existsb (fun '(i, n) => (i =? id)%Z && (n =? name)) Convert.GENRE_MAP
                    | None => false
                    end
                end) Interpreter.genres = true) by (vm_compute; reflexivity).
  rewrite forallb_forall in H. specialize (H _ Hin). cbn beta in H.
  destruct (genreId keyword) as [id|].
  - right. destruct (Convert.genreName Convert.GENRE_MAP id) as [name|]; [|discriminate].
    apply andb_true_iff in H. destruct H as [H1 H2].
    apply String.eqb_eq in H1. apply existsb_exists in H2.
    destruct H2 as ([i n] & Hi & Hx). apply andb_true_iff in Hx. destruct Hx as [Hx1 Hx2].
    apply Z.eqb_eq in Hx1. apply String.eqb_eq in Hx2. subst.
    exists id, name. auto.
  - left. apply String.eqb_eq in H. auto.
Qed.

Lemma discoverContent_sorted_witness :
  map title (default [] (data (fst (discoverContent Samples.moviesDown MoreSamples.smallCatalogue
                                      MoreSamples.noIntent Samples.noFilters))))
    = ["Dune: Part Two"; "Dune"; "Dune: Prophecy"; "Dune (2000)"]
  /\ (tmdb_rating (Samples.movieContent (Samples.movie "Dune" (78 # 10)))
      <= tmdb_rating (Samples.movieContent (Samples.movie "Dune: Part Two" (81 # 10))))%Q.
Proof.
  split; [vm_compute; reflexivity|].
  apply (discoverContent_sorted Samples.moviesDown MoreSamples.smallCatalogue
           MoreSamples.noIntent Samples.noFilters _ eq_refl
           [] _ _ (map Samples.showContent (rev Samples.duneShows))).
  vm_compute. reflexivity.
Defined.


Lemma interpreter_genres_resolve_witness :
  genreId "horror" = Some 27%Z
  /\ ((("horror" : string) = "sci-fi" /\ genreId "horror" = None)
      \/ (exists id name, genreId "horror" = Some id /\ In (id, name) Convert.GENRE_MAP
                          /\ toLowerCase name = "horror")).
Proof.
  split; [vm_compute; reflexivity|].
  apply (interpreter_genres_resolve "horror"). vm_compute. tauto.
Defined.

End DiscoverFacts.

Section TrendingFacts.
Import Trending.

Lemma StronglySorted_firstn_skipn {A : Type} (R : A -> A -> Prop) (l : list A) :
  StronglySorted R l ->
  forall n x y, In x (firstn n l) -> In y (skipn n l) -> R x y.
Proof.
  induction 1 as [|a l Hl IH Hall]; intros [|n] x y Hx Hy; simpl in *; try tauto.
  destruct Hx as [<-|Hx].
  - rewrite List.Forall_forall in Hall. apply Hall.
    rewrite <- (firstn_skipn n l). apply in_or_app. now right.
  - eapply IH; eassumption.
Qed.

Lemma ratedAtLeast_trans : Relations_1.Transitive ratedAtLeast.
Proof. intros a b c. unfold ratedAtLeast. lra. Qed.

Lemma topRated_spec (n : Z) (movies tvShows : list Content) :
  (0 <= n)%Z ->
  exists rest,
    Permutation (topRated n movies tvShows ++ rest) (movies ++ tvShows)
    /\ length (topRated n movies tvShows) = Nat.min (Z.to_nat n) (length (movies ++ tvShows))
    /\ (forall x y, In x (topRated n movies tvShows) -> In y rest -> ratedAtLeast x y)
    /\ Sorted ratedAtLeast (topRated n movies tvShows).
Proof.
  intros Hn. unfold topRated, slice0.
  destruct (n <? 0)%Z eqn:E; [apply Z.ltb_lt in E; lia|].
  pose proof (sortedByRating_Sorted (movies ++ tvShows)) as Hsorted.
  fold ratedAtLeast in Hsorted.
  set (sorted := Discover.sortedByRating (movies ++ tvShows)) in *.
  assert (Hperm : Permutation sorted (movies ++ tvShows)) by apply sort_Permutation.
  exists (skipn (Z.to_nat n) sorted). split; [|split; [|split]].
  - now rewrite firstn_skipn.
  - rewrite length_firstn. now rewrite (Permutation_length Hperm).
  - apply StronglySorted_firstn_skipn.
    apply Sorted_StronglySorted; [exact ratedAtLeast_trans | exact Hsorted].
  - apply Sorted_StronglySorted in Hsorted; [|exact ratedAtLeast_trans].
    apply StronglySorted_Sorted.
    clear -Hsorted. generalize (Z.to_nat n). induction Hsorted as [|a l Hl IH Hall];
      intros [|k]; simpl; try constructor.
    + apply IH.
    + rewrite List.Forall_forall in *. intros x Hx. apply Hall.
      eapply In_firstn_list; eassumption.
Qed.

Lemma bothResults_delivers (w : World) (movies : FetchOutcome TMDBMovie.t)
    (shows : FetchOutcome TMDBTVShow.t) (notOk : N -> N -> JsError)
    (movieResults : list TMDBMovie.t) (tvResults : list TMDBTVShow.t) :
  delivers movies movieResults -> delivers shows tvResults ->
  bothResults w movies shows notOk
  = Ok (map (convertTMDBMovieToContent w) movieResults,
        map (convertTMDBTVToContent w) tvResults).
Proof.
  intros (rm & -> & Hm & Jm) (rt & -> & Ht & Jt). unfold bothResults.
  now rewrite Hm, Ht, Jm, Jt.
Qed.

Lemma bothResults_Ok_inv (w : World) (movies : FetchOutcome TMDBMovie.t)
    (shows : FetchOutcome TMDBTVShow.t) (notOk : N -> N -> JsError)
    (found : list Content * list Content) :
  bothResults w movies shows notOk = Ok found ->
  exists movieResults tvResults,
    delivers movies movieResults /\ delivers shows tvResults
    /\ found = (map (convertTMDBMovieToContent w) movieResults,
                map (convertTMDBTVToContent w) tvResults).
Proof.
  unfold bothResults, delivers.
  destruct movies as [e|rm]; [discriminate|].
  destruct shows as [e|rt]; [discriminate|].
  destruct (Http.ok rm) eqn:Hm, (Http.ok rt) eqn:Ht; try discriminate.
  cbn [negb orb].
  destruct (Http.json rm) as [[ml|]|e] eqn:Jm, (Http.json rt) as [[tl|]|e'] eqn:Jt;
    try discriminate.
  intros H. inversion H; subst. exists ml, tl. eauto 10.
Qed.

(** X14. When both trending endpoints deliver, [fetchTrendingContent]
    succeeds with the twenty best rated of the movies and shows together
    (all of them when there are fewer), in descending order of
    [tmdb_rating]: no item it leaves out is rated higher than one it
    returns. *)
Theorem fetchTrendingContent_top_twenty (w : World) (up : Upstream) (timeWindow : string)
    (page : PageParameter) (movieResults : list TMDBMovie.t) (tvResults : list TMDBTVShow.t) :
  delivers (trendingMovies up timeWindow page) movieResults ->
  delivers (trendingTVShows up timeWindow page) tvResults ->
  exists top rest,
    fetchTrendingContent w up timeWindow page
    = {| success := true; data := Some top; error := None; message := None |}
    /\ Permutation (top ++ rest)
         (map (convertTMDBMovieToContent w) movieResults
          ++ map (convertTMDBTVToContent w) tvResults)
    /\ length top = Nat.min 20 (length movieResults + length tvResults)
    /\ (forall x y, In x top -> In y rest -> ratedAtLeast x y)
    /\ Sorted ratedAtLeast top.
Proof.
  intros HM HT. unfold fetchTrendingContent.
  rewrite (bothResults_delivers w _ _ _ _ _ HM HT).
  destruct (topRated_spec 20 (map (convertTMDBMovieToContent w) movieResults)
              (map (convertTMDBTVToContent w) tvResults)) as (rest & Hperm & Hlen & Hbest & Hsorted);
    [lia|].
  eexists; exists rest. split; [reflexivity|].
  split; [exact Hperm|]. split; [|split; assumption].
  rewrite Hlen, length_app, !length_map. reflexivity.
Qed.

Lemma fetchTrendingContent_top_twenty_witness :
  map title (default [] (data (fetchTrendingContent Samples.moviesDown MoreSamples.trendingWeek
                                 "day" (PageNumber 1))))
    = ["Dune: Part Two"; "Dune"; "Dune: Prophecy"; "Dune (2000)"]
  /\ exists top rest,
       fetchTrendingContent Samples.moviesDown MoreSamples.trendingWeek "day" (PageNumber 1)
       = {| success := true; data := Some top; error := None; message := None |}
       /\ Permutation (top ++ rest)
            (map (convertTMDBMovieToContent Samples.moviesDown) Samples.duneMovies
             ++ map (convertTMDBTVToContent Samples.moviesDown) Samples.duneShows)
       /\ length top = Nat.min 20 (length Samples.duneMovies + length Samples.duneShows)
       /\ (forall x y, In x top -> In y rest -> ratedAtLeast x y)
       /\ Sorted ratedAtLeast top.
Proof.
  split; [vm_compute; reflexivity|].
  apply (fetchTrendingContent_top_twenty Samples.moviesDown MoreSamples.trendingWeek
           "day" (PageNumber 1) Samples.duneMovies Samples.duneShows);
    eexists; repeat split; reflexivity.
Defined.

(** X15. [fetchTrendingContent] is all or nothing: it succeeds exactly when
    both endpoints deliver, and otherwise answers with the one failure
    [Failed to fetch trending content] and no data, whatever the other
    endpoint delivered. *)
Theorem fetchTrendingContent_all_or_nothing (w : World) (up : Upstream) (timeWindow : string)
    (page : PageParameter) :
  (success (fetchTrendingContent w up timeWindow page) = true
   <-> (exists movieResults, delivers (trendingMovies up timeWindow page) movieResults)
       /\ (exists tvResults, delivers (trendingTVShows up timeWindow page) tvResults))
  /\ (success (fetchTrendingContent w up timeWindow page) = false ->
      fetchTrendingContent w up timeWindow page = failure "Failed to fetch trending content").
Proof.
  unfold fetchTrendingContent.
  destruct (bothResults w _ _ _) as [[movies tvShows]|e] eqn:E.
  - apply bothResults_Ok_inv in E. destruct E as (ml & tl & HM & HT & _).
    split; [|discriminate]. split; eauto.
  - split; [|reflexivity]. split; [discriminate|].
    intros [[ml HM] [tl HT]].
    rewrite (bothResults_delivers w _ _ _ _ _ HM HT) in E. discriminate.
Qed.

(** X16. Every answer of [getTrendingContent] carries a list of at most a
    hundred items, in descending order of [tmdb_rating]; a failure carries
    the empty list and an error text, and without a configured key the
    answer is a failure whatever the endpoints would deliver. *)
Theorem getTrendingContent_envelope (w : World) (up : Upstream) :
  exists items,
    data (getTrendingContent w up) = Some items
    /\ length items <= 100
    /\ Sorted ratedAtLeast items
    /\ (success (getTrendingContent w up) = false ->
        items = [] /\ error (getTrendingContent w up) <> None)
    /\ (keyNotConfigured w = true -> success (getTrendingContent w up) = false).
Proof.
  unfold getTrendingContent.
  assert (Hfail : forall msg,
    exists items,
      data (emptyFailure msg) = Some items /\ length items <= 100
      /\ Sorted ratedAtLeast items
      /\ (success (emptyFailure msg) = false -> items = [] /\ error (emptyFailure msg) <> None)
      /\ (keyNotConfigured w = true -> success (emptyFailure msg) = false)).
  { intros msg. exists []. cbn. repeat split; auto; try lia; discriminate. }
  destruct (keyNotConfigured w) eqn:K; [apply Hfail|].
  destruct (bothResults w _ _ _) as [[movies tvShows]|[msg|]]; try apply Hfail.
  destruct (topRated_spec 100 movies tvShows) as (rest & _ & Hlen & _ & Hsorted); [lia|].
  exists (topRated 100 movies tvShows). cbn [data success error].
  split; [reflexivity|]. split; [rewrite Hlen; cbn; lia|]. split; [exact Hsorted|].
  split; discriminate.
Qed.

(** X17. The trending route asks [fetchTrendingContent] at most once, and
    exactly when it does not answer 400; what it asks for is the window
    [day] or [week] and a page that is either a number from 1 to 100 or
    [NaN]; its status is 200, 400 or 500. *)
Theorem trending_GET_validation
    (fetchTrending : string -> PageParameter -> APIResponse (list Content))
    (searchParams : list (string * string)) :
  let handled := GET fetchTrending searchParams in
  (trendingCalls handled = [] <-> Route.replyStatus (reply handled) = 400%N)
  /\ length (trendingCalls handled) <= 1
  /\ In (Route.replyStatus (reply handled)) [200%N; 400%N; 500%N]
  /\ (forall timeWindow page, In (timeWindow, page) (trendingCalls handled) ->
        (timeWindow = "day" \/ timeWindow = "week")
        /\ (page = PageNaN \/ exists n, page = PageNumber n /\ (1 <= n <= 100)%Z)).
Proof.
  cbv zeta. unfold GET.
  set (timeWindow := Convert.orElse _ _).
  destruct (existsb (String.eqb timeWindow) ["day"; "week"]) eqn:W; cbn [negb].
  2:{ cbn. repeat split; auto; try lia; tauto. }
  destruct (pageOutOfRange (pageOf searchParams)) eqn:P.
  { cbn. repeat split; auto; try lia; tauto. }
  assert (Hcall : forall tw page, In (tw, page) [(timeWindow, pageOf searchParams)] ->
            (tw = "day" \/ tw = "week")
            /\ (page = PageNaN \/ exists n, page = PageNumber n /\ (1 <= n <= 100)%Z)).
  { intros tw page [H|[]]. inversion H; subst. split.
    - cbn in W. rewrite !orb_true_iff, !String.eqb_eq in W.
      destruct W as [W|[W|W]]; [left | right | discriminate]; congruence.
    - unfold pageOutOfRange in P. destruct (pageOf searchParams) as [| |n] eqn:Epage.
      + unfold pageOf in Epage. destruct (parseInt _); discriminate.
      + now left.
      + right. exists n. split; [reflexivity|].
        apply orb_false_iff in P. destruct P as [P1 P2].
        apply Z.ltb_ge in P1. rewrite Z.gtb_ltb in P2. apply Z.ltb_ge in P2. lia. }
  destruct (success (fetchTrending timeWindow (pageOf searchParams))); cbn [negb];
    cbn [reply trendingCalls Route.replyStatus Route.errorReply length];
    (split; [split; discriminate|]); (split; [lia|]); (split; [cbn; tauto|]); exact Hcall.
Qed.

(** X18. A [page] parameter that is not a number passes the validation of
    the trending route: [fetchTrendingContent] is asked for the page
    [NaN]. *)
Theorem trending_GET_page_NaN
    (fetchTrending : string -> PageParameter -> APIResponse (list Content))
    (searchParams : list (string * string)) (text : string) :
  Route.get searchParams "timeWindow" = None ->
  Route.get searchParams "page" = Some text ->
  truthy text = true -> parseInt text = None ->
  trendingCalls (GET fetchTrending searchParams) = [("week", PageNaN)]
  /\ Route.replyStatus (reply (GET fetchTrending searchParams)) <> 400%N.
Proof.
  intros Hw Hp Ht Hn. unfold GET, pageOf, Route.getOrEmpty, Convert.orElse.
  rewrite Hw, Hp, Ht. cbn [truthy]. rewrite Ht, Hn.
  change (truthy "") with false. cbn [existsb String.eqb negb orb pageOutOfRange].
  change (("week" =? "day")%string) with false.
  change (("week" =? "week")%string) with true. cbn [orb negb].
  destruct (success (fetchTrending "week" PageNaN)); cbn; split; auto; discriminate.
Qed.

Lemma trending_GET_page_NaN_witness :
  trendingCalls (GET (fetchTrendingContent Samples.moviesDown MoreSamples.trendingWeek)
                   [("page", "abc")]) = [("week", PageNaN)]
  /\ Route.replyStatus (reply (GET (fetchTrendingContent Samples.moviesDown
                                      MoreSamples.trendingWeek) [("page", "abc")])) <> 400%N.
Proof.
  apply (trending_GET_page_NaN _ [("page", "abc")] "abc"); reflexivity.
Defined.

End TrendingFacts.

Section DetailsFacts.
Import Details.

Lemma fetchContentDetails_cases (b : Convert.Builtins) (up : Upstream) (id : Z)
    (type : ContentType) :
  fetchContentDetails b up id type = failure detailsFailure
  \/ exists content, fetchContentDetails b up id type = found content.
Proof.
  unfold fetchContentDetails.
  destruct type;
    [destruct (movieDetails up id) as [e|st|[movie|e]]
    |destruct (showDetails up id) as [e|st|[show|e]]]; eauto.
Qed.

(** X19. The details route over [fetchContentDetails] never answers 404:
    its status is 200, 400 or 500; it answers 400 exactly when it makes no
    request for details, and it asks only for a positive id and the type
    given in the query; 200 goes with a success, so that every failed
    lookup is reported as 500. *)
Theorem details_GET_never_404 (b : Convert.Builtins) (up : Upstream) (paramsId : string)
    (searchParams : list (string * string)) :
  let handled := liveGET b up paramsId searchParams in
  In (replyStatus (reply handled)) [200%N; 400%N; 500%N]
  /\ (detailsCalls handled = [] <-> replyStatus (reply handled) = 400%N)
  /\ (forall id type, In (id, type) (detailsCalls handled) ->
        (0 < id)%Z /\ Route.get searchParams "type" = Some (typeString type))
  /\ (replyStatus (reply handled) = 200%N <-> replySuccess (reply handled) = true).
Proof.
  cbv zeta. unfold liveGET, GET.
  assert (Hrejected : forall msg,
    let handled := {| reply := errorReply 400 (Some msg); detailsCalls := [] |} in
    In (replyStatus (reply handled)) [200%N; 400%N; 500%N]
    /\ (detailsCalls handled = [] <-> replyStatus (reply handled) = 400%N)
    /\ (forall id type, In (id, type) (detailsCalls handled) ->
          (0 < id)%Z /\ Route.get searchParams "type" = Some (typeString type))
    /\ (replyStatus (reply handled) = 200%N <-> replySuccess (reply handled) = true)).
  { intros msg. cbn. repeat split; auto; try tauto; discriminate. }
  destruct (parseInt paramsId) as [id|]; [|apply Hrejected].
  destruct (id <=? 0)%Z eqn:Hid; [apply Hrejected|]. apply Z.leb_gt in Hid.
  destruct (Route.get searchParams "type") as [type|]; [|apply Hrejected].
  destruct (truthy type); cbn [negb]; [|apply Hrejected].
  destruct (typeOf type) as [contentType|] eqn:Htype; [|apply Hrejected].
  assert (Hcall : forall i t, In (i, t) [(id, contentType)] ->
            (0 < i)%Z /\ Some type = Some (typeString t)).
  { intros i t [H|[]]. inversion H; subst. split; [exact Hid|].
    unfold typeOf in Htype.
    destruct (String.eqb type "movie") eqn:E1.
    - apply String.eqb_eq in E1. inversion Htype; subst. reflexivity.
    - destruct (String.eqb type "tv") eqn:E2; [|discriminate].
      apply String.eqb_eq in E2. inversion Htype; subst. reflexivity. }
  destruct (fetchContentDetails_cases b up id contentType) as [->|[content ->]];
    cbn; (split; [tauto|]); (split; [split; discriminate|]); (split; [exact Hcall|]);
    split; discriminate || reflexivity.
Qed.

(** X20. What a successful [fetchContentDetails] returns is of the
    requested type, names at least one streaming platform (from the watch
    providers or, failing them, from the random fallback), and has either
    no trailer or a YouTube address for one. *)
Theorem fetchContentDetails_content (b : Convert.Builtins) (up : Upstream) (id : Z)
    (requested : ContentType) (content : Content) :
  fairChance (chance up) ->
  data (fetchContentDetails b up id requested) = Some content ->
  type content = requested
  /\ streaming_platforms content <> []
  /\ (trailer_url content = None
      \/ exists key, trailer_url content = Some ("https://www.youtube.com/watch?v=" +:+ key)).
Proof.
  intros (H0 & H1 & Hperm) Hdata.
  assert (Hrandom : Enrich.getRandomStreamingPlatforms (chance up) <> []).
  { unfold Enrich.getRandomStreamingPlatforms.
    set (count := (Qfloor (Enrich.firstDraw (chance up) * 3) + 1)%Z).
    assert (Hcount : (1 <= count)%Z).
    { subst count.
      assert (Hlow : (0 <= Qfloor (Enrich.firstDraw (chance up) * 3))%Z).
      { change 0%Z with (Qfloor 0). apply Qfloor_resp_le. lra. }
      lia. }
    unfold slice0. destruct (count <? 0)%Z eqn:E; [apply Z.ltb_lt in E; lia|].
    pose proof (Permutation_length Hperm) as Hlen. cbn in Hlen.
    destruct (Enrich.arrangement (chance up) Enrich.fallbackPlatforms) as [|p ps];
      [discriminate|].
    destruct (Z.to_nat count) eqn:En; [lia|]. discriminate. }
  assert (Hplatforms : forall t i, streamingPlatformsOf up t i <> []).
  { intros t i. unfold streamingPlatformsOf, Enrich.fetchWatchProviders.
    destruct (watchProviders up t i) as [e|st|[[regionData|]|e]]; try exact Hrandom.
    match goal with |- match ?l with _ => _ end <> [] => destruct l end;
      [exact Hrandom | discriminate]. }
  assert (Htrailer : forall t i,
            trailerUrlOf up t i = None
            \/ exists key, trailerUrlOf up t i
                           = Some ("https://www.youtube.com/watch?v=" +:+ key)).
  { intros t i. unfold trailerUrlOf, Enrich.fetchTrailerUrl.
    destruct (videos up t i) as [e|st|[results|e]]; auto.
    destruct (Enrich.orFind _ _) as [video|]; eauto. }
  unfold fetchContentDetails in Hdata.
  destruct requested;
    [destruct (movieDetails up id) as [e|st|[movie|e]]
    |destruct (showDetails up id) as [e|st|[show|e]]]; try discriminate;
    cbn in Hdata; inversion Hdata; subst; cbn; auto.
Qed.

Lemma fetchContentDetails_content_witness :
  let content :=
    Convert.convertTMDBMovieToContentWithRealData MoreSamples.builtins
      ["Hulu"; "Paramount+"; "Apple TV+"] (Some "https://www.youtube.com/watch?v=abc123")
      MoreSamples.hindiFilm in
  data (fetchContentDetails MoreSamples.builtins MoreSamples.oneMovie 7 Movie) = Some content
  /\ type content = Movie
  /\ streaming_platforms content <> []
  /\ (trailer_url content = None
      \/ exists key,
           trailer_url content = Some ("https://www.youtube.com/watch?v=" +:+ key)).
Proof.
  cbv zeta. split; [vm_compute; reflexivity|].
  apply (fetchContentDetails_content MoreSamples.builtins MoreSamples.oneMovie 7 Movie).
  - split; [vm_compute; discriminate|]. split; [reflexivity|].
    apply Permutation_sym, Permutation_rev.
  - vm_compute. reflexivity.
Defined.

End DetailsFacts.

Section InterpreterFacts.
Import Regex Interpreter.


Lemma yearPattern_matchHere (prev : option ascii) (s : list ascii) (m : Match) :
  matchHere false yearPattern prev s = Some m ->
  exists a b d1 d2,
    matched m = string_of_list_ascii [a; b; d1; d2]
    /\ ((a = "1"%char /\ b = "9"%char) \/ (a = "2"%char /\ b = "0"%char))
    /\ isDigit d1 = true /\ isDigit d2 = true.
Proof.
  unfold matchHere, yearPattern. cbn [run Lit].
  destruct (xorb (wordBefore prev) (wordAfter s)); [|discriminate].
  destruct s as [|a [|b [|d1 [|d2 rest]]]]; cbn;
    repeat match goal with
           | |- context [if ?c then _ else _] => destruct c eqn:?
           end; try discriminate.
  all: replace (S (S (S (S (length rest)))) - length rest) with 4 by lia.
  all: intros H; inversion H; subst; clear H; cbn.
  all: exists a, b, d1, d2; split; [reflexivity|].
  all: repeat match goal with
              | H : (_ =? _)%char = true |- _ => apply Ascii.eqb_eq in H
              end; subst; auto.
Qed.

Lemma yearPattern_search (prev : option ascii) (s : list ascii) (m : Match) :
  search false yearPattern prev s = Some m ->
  exists a b d1 d2,
    matched m = string_of_list_ascii [a; b; d1; d2]
    /\ ((a = "1"%char /\ b = "9"%char) \/ (a = "2"%char /\ b = "0"%char))
    /\ isDigit d1 = true /\ isDigit d2 = true.
Proof.
  revert prev. induction s as [|c s IH]; intros prev; cbn [search];
    destruct (matchHere false yearPattern prev _) as [m'|] eqn:E; try discriminate.
  - intros H; inversion H; subst. eapply yearPattern_matchHere; eassumption.
  - intros H; inversion H; subst. eapply yearPattern_matchHere; eassumption.
  - apply IH.
Qed.

Lemma digitValue_decimal (d : ascii) :
  isDigit d = true ->
  exists v, digitValue 10 d = Some v /\ (0 <= v <= 9)%Z.
Proof.
  unfold isDigit, digitValue. intros H.
  apply andb_true_iff in H. destruct H as [H1 H2].
  apply N.leb_le in H1. apply N.leb_le in H2.
  assert (E : ((48 <=? Z.of_N (N_of_ascii d)) && (Z.of_N (N_of_ascii d) <=? 57))%Z = true).
  { apply andb_true_iff. split; apply Z.leb_le; lia. }
  rewrite E. exists (Z.of_N (N_of_ascii d) - 48)%Z.
  assert (L : (Z.of_N (N_of_ascii d) - 48 <? 10)%Z = true) by (apply Z.ltb_lt; lia).
  rewrite L. split; [reflexivity | lia].
Qed.

Lemma parseInt_year (a b d1 d2 : ascii) :
  (a = "1"%char /\ b = "9"%char) \/ (a = "2"%char /\ b = "0"%char) ->
  isDigit d1 = true -> isDigit d2 = true ->
  exists y, parseInt (string_of_list_ascii [a; b; d1; d2]) = Some y /\ (1900 <= y <= 2099)%Z.
Proof.
  intros Hab H1 H2.
  destruct (digitValue_decimal d1 H1) as (v1 & E1 & B1).
  destruct (digitValue_decimal d2 H2) as (v2 & E2 & B2).
  assert (D : forall c, In c ["0"; "1"; "2"; "9"]%char ->
            digitValue 10 c = Some (Z.of_N (N_of_ascii c) - 48)%Z).
  { intros c [<-|[<-|[<-|[<-|[]]]]]; reflexivity. }
  destruct Hab as [[-> ->]|[-> ->]]; unfold parseInt;
    cbn [list_ascii_of_string string_of_list_ascii];
    [change (trimStartChars ["1"; "9"; d1; d2]%char) with ["1"; "9"; d1; d2]%char
    |change (trimStartChars ["2"; "0"; d1; d2]%char) with ["2"; "0"; d1; d2]%char];
    cbn [readSign readDigits]; rewrite !D by (cbn; tauto);
    cbn [readDigits]; rewrite E1; cbn [readDigits]; rewrite E2; cbn [readDigits];
    eexists; (split; [reflexivity | cbn; lia]).
Qed.


(** Names the outermost [let] of the term a property is stated for. *)
Ltac name_let :=
  lazymatch goal with
  | |- ?P (let x := ?v in @?f x) =>
      let y := fresh x in
      change (let y := v in P (f y)); intro y; cbv beta
  end.

(** Brings the stages of [parseQueryIntelligently] into the context, for a
    goal about its result. *)
Ltac interpreter_stages :=
  match goal with
  | |- context [parseQueryIntelligently ?q ?g] => pattern (parseQueryIntelligently q g)
  end;
  match goal with
  | |- ?P _ => set (Q := P)
  end;
  cbv beta delta [parseQueryIntelligently]; repeat name_let.

Ltac stage_cases :=
  repeat match goal with
         | |- context [match List.find ?p ?l with _ => _ end] =>
             destruct (List.find p l) as [?|] eqn:?
         | |- context [let '(_, _) := ?x in _] => destruct x
         | |- context [match Regex.exec ?a ?b ?c with _ => _ end] =>
             destruct (Regex.exec a b c) as [?|] eqn:?
         | |- context [if ?c then _ else _] => destruct c eqn:?
         end.

(** X21. [parseQueryIntelligently] chooses discovery exactly when it drops
    the search terms; when it does not, the search terms are the query as
    given (not trimmed, not lower-cased) and the reasoning is the one for a
    title search. *)
Theorem interpreter_discovery_or_terms (query : string) (given : option SearchFilters) :
  let intent := parseQueryIntelligently query given in
  (useDiscoverAPI intent = true <-> searchTerms intent = None)
  /\ (useDiscoverAPI intent = false ->
      searchTerms intent = Some query /\ reasoning intent = "Using specific title search").
Proof.
  cbv zeta.
  assert (H : (fun intent =>
            (useDiscoverAPI intent = true /\ searchTerms intent = None)
            \/ (useDiscoverAPI intent = false /\ searchTerms intent = Some query
                /\ reasoning intent = "Using specific title search"))
            (parseQueryIntelligently query given)).
  { interpreter_stages.
    assert (H1 : Q afterLanguage) by (subst Q afterLanguage; stage_cases; cbn; auto).
    assert (H2 : Q afterGenre) by (subst Q afterGenre; stage_cases; cbn; auto).
    assert (H3 : Q afterPlatform) by (subst Q afterPlatform; stage_cases; cbn; auto).
    assert (H4 : Q afterYear) by (subst Q afterYear; stage_cases; cbn; auto).
    assert (H5 : Q afterType) by (subst Q afterType; stage_cases; cbn; auto).
    stage_cases; [subst Q; cbn; auto | exact H5]. }
  cbv beta in H. destruct H as [[-> ->]|(-> & -> & ->)]; split; try split; auto; discriminate.
Qed.

Ltac frame_fields :=
  cbn [filters discover withFilters setLanguage setGenre setPlatform setYear setType
       Filters.country Filters.rating_min Filters.genre Filters.platform Filters.type
       Filters.year Filters.language].

(** The filter set of the result, field by field: each field is decided by
    its own stage and left alone by the others. *)
Lemma interpreter_filters (query : string) (given : option SearchFilters) :
  (fun intent =>
     let f := filters intent in
     let f0 := default emptyFilters given in
     let queryLower := trim (toLowerCase query) in
     Filters.language f
     = match List.find (fun '(langName, _) => includes queryLower langName) LANGUAGE_CODES with
       | Some (_, langCode) => Some (toUpperCase langCode)
       | None => Filters.language f0
       end
     /\ Filters.genre f
        = match List.find (fun genre => includes queryLower genre) genres with
          | Some genre => Some genre
          | None => Filters.genre f0
          end
     /\ Filters.platform f
        = match List.find (fun platform => includes queryLower platform) platforms with
          | Some platform => Some platform
          | None => Filters.platform f0
          end
     /\ Filters.year f
        = match Regex.exec false yearPattern queryLower with
          | Some yearMatch => parseInt (Regex.matched yearMatch)
          | None => Filters.year f0
          end
     /\ Filters.type f
        = (if includes queryLower "movies" && negb (includes queryLower "tv")
           then Some "movie"
           else if includes queryLower "shows" || includes queryLower "series"
                   || includes queryLower "tv"
           then Some "tv" else Filters.type f0)
     /\ Filters.country f = Filters.country f0
     /\ Filters.rating_min f = Filters.rating_min f0)
    (parseQueryIntelligently query given).
Proof.
  interpreter_stages.
  set (f0 := default emptyFilters given) in *.
  assert (H1 : Filters.language (filters afterLanguage)
               = match List.find (fun '(langName, _) => includes queryLower langName)
                         LANGUAGE_CODES with
                 | Some (_, langCode) => Some (toUpperCase langCode)
                 | None => Filters.language f0
                 end
               /\ Filters.genre (filters afterLanguage) = Filters.genre f0
               /\ Filters.platform (filters afterLanguage) = Filters.platform f0
               /\ Filters.year (filters afterLanguage) = Filters.year f0
               /\ Filters.type (filters afterLanguage) = Filters.type f0
               /\ Filters.country (filters afterLanguage) = Filters.country f0
               /\ Filters.rating_min (filters afterLanguage) = Filters.rating_min f0).
  { subst afterLanguage start. cbv zeta.
    destruct (List.find _ LANGUAGE_CODES) as [[langName langCode]|];
      [destruct (_ || _)|]; frame_fields; repeat split; reflexivity. }
  destruct H1 as (Hl1 & Hg1 & Hp1 & Hy1 & Ht1 & Hc1 & Hr1).
  assert (H2 : Filters.language (filters afterGenre) = Filters.language (filters afterLanguage)
               /\ Filters.genre (filters afterGenre)
                  = match List.find (fun genre => includes queryLower genre) genres with
                    | Some genre => Some genre
                    | None => Filters.genre f0
                    end
               /\ Filters.platform (filters afterGenre) = Filters.platform f0
               /\ Filters.year (filters afterGenre) = Filters.year f0
               /\ Filters.type (filters afterGenre) = Filters.type f0
               /\ Filters.country (filters afterGenre) = Filters.country f0
               /\ Filters.rating_min (filters afterGenre) = Filters.rating_min f0).
  { subst afterGenre. cbv zeta.
    destruct (List.find _ genres) as [genre|];
      [destruct (_ || _)|]; frame_fields; repeat split; auto. }
  destruct H2 as (Hl2 & Hg2 & Hp2 & Hy2 & Ht2 & Hc2 & Hr2).
  assert (H3 : Filters.language (filters afterPlatform) = Filters.language (filters afterGenre)
               /\ Filters.genre (filters afterPlatform) = Filters.genre (filters afterGenre)
               /\ Filters.platform (filters afterPlatform)
                  = match List.find (fun platform => includes queryLower platform)
                            platforms with
                    | Some platform => Some platform
                    | None => Filters.platform f0
                    end
               /\ Filters.year (filters afterPlatform) = Filters.year f0
               /\ Filters.type (filters afterPlatform) = Filters.type f0
               /\ Filters.country (filters afterPlatform) = Filters.country f0
               /\ Filters.rating_min (filters afterPlatform) = Filters.rating_min f0).
  { subst afterPlatform. cbv zeta.
    destruct (List.find _ platforms) as [platform|];
      [destruct hasTopPattern|]; frame_fields; repeat split; auto. }
  destruct H3 as (Hl3 & Hg3 & Hp3 & Hy3 & Ht3 & Hc3 & Hr3).
  assert (H4 : Filters.language (filters afterYear) = Filters.language (filters afterPlatform)
               /\ Filters.genre (filters afterYear) = Filters.genre (filters afterPlatform)
               /\ Filters.platform (filters afterYear)
                  = Filters.platform (filters afterPlatform)
               /\ Filters.year (filters afterYear)
                  = match Regex.exec false yearPattern queryLower with
                    | Some yearMatch => parseInt (Regex.matched yearMatch)
                    | None => Filters.year f0
                    end
               /\ Filters.type (filters afterYear) = Filters.type f0
               /\ Filters.country (filters afterYear) = Filters.country f0
               /\ Filters.rating_min (filters afterYear) = Filters.rating_min f0).
  { subst afterYear.
    destruct (Regex.exec false yearPattern queryLower) as [yearMatch|];
      frame_fields; repeat split; auto. }
  destruct H4 as (Hl4 & Hg4 & Hp4 & Hy4 & Ht4 & Hc4 & Hr4).
  assert (H5 : Filters.language (filters afterType) = Filters.language (filters afterYear)
               /\ Filters.genre (filters afterType) = Filters.genre (filters afterYear)
               /\ Filters.platform (filters afterType) = Filters.platform (filters afterYear)
               /\ Filters.year (filters afterType) = Filters.year (filters afterYear)
               /\ Filters.type (filters afterType)
                  = (if includes queryLower "movies" && negb (includes queryLower "tv")
                     then Some "movie"
                     else if includes queryLower "shows" || includes queryLower "series"
                             || includes queryLower "tv"
                     then Some "tv" else Filters.type f0)
               /\ Filters.country (filters afterType) = Filters.country f0
               /\ Filters.rating_min (filters afterType) = Filters.rating_min f0).
  { subst afterType.
    destruct (includes queryLower "movies" && negb (includes queryLower "tv"));
      [|destruct (includes queryLower "shows" || includes queryLower "series"
                  || includes queryLower "tv")];
      frame_fields; repeat split; auto. }
  destruct H5 as (Hl5 & Hg5 & Hp5 & Hy5 & Ht5 & Hc5 & Hr5).
  assert (Hlast : filters (if hasTopPattern && (0 <? keyCount (filters afterType))%nat
                           then discover (filters afterType)
                                  "Top-rated content discovery with filters"
                           else afterType) = filters afterType).
  { destruct (hasTopPattern && _); reflexivity. }
  subst Q. cbv beta zeta. rewrite Hlast. fold f0.
  rewrite Hl5, Hl4, Hl3, Hl2, Hg5, Hg4, Hg3, Hp5, Hp4, Hy5. auto 10.
Qed.

Lemma find_absent {A : Type} (p : A -> bool) (l : list A) :
  (forall x, In x l -> p x = false) -> List.find p l = None.
Proof.
  induction l as [|a l IH]; intros H; [reflexivity|].
  cbn [List.find]. rewrite (H a (or_introl eq_refl)). apply IH.
  intros x Hx. apply H. now right.
Qed.

(** X22. The interpreter changes only the fields whose keywords the query
    (of ASCII text) holds: [country] and [rating_min] are always the caller's, and so is
    each of [language], [genre], [platform], [year] and [type] when the
    lower-cased, trimmed query names no language, no genre keyword, no
    platform keyword, no year, and none of [movies], [shows], [series] and
    [tv]. *)
Theorem interpreter_frame (query : string) (given : option SearchFilters) :
  isASCII query = true ->
  let f := filters (parseQueryIntelligently query given) in
  let f0 := default emptyFilters given in
  let queryLower := trim (toLowerCase query) in
  Filters.country f = Filters.country f0
  /\ Filters.rating_min f = Filters.rating_min f0
  /\ ((forall langName langCode, In (langName, langCode) LANGUAGE_CODES ->
         includes queryLower langName = false) ->
      Filters.language f = Filters.language f0)
  /\ ((forall genre, In genre genres -> includes queryLower genre = false) ->
      Filters.genre f = Filters.genre f0)
  /\ ((forall platform, In platform platforms -> includes queryLower platform = false) ->
      Filters.platform f = Filters.platform f0)
  /\ (exec false yearPattern queryLower = None -> Filters.year f = Filters.year f0)
  /\ (includes queryLower "movies" = false -> includes queryLower "shows" = false ->
      includes queryLower "series" = false -> includes queryLower "tv" = false ->
      Filters.type f = Filters.type f0).
Proof.
  intros _. cbv zeta.
  destruct (interpreter_filters query given) as (Hl & Hg & Hp & Hy & Ht & Hc & Hr).
  cbv zeta in *.
  split; [exact Hc|]. split; [exact Hr|]. split; [|split; [|split; [|split]]].
  - intros H. rewrite Hl, find_absent; [reflexivity|].
    intros [langName langCode] Hin. eapply H, Hin.
  - intros H. rewrite Hg, find_absent; [reflexivity | exact H].
  - intros H. rewrite Hp, find_absent; [reflexivity | exact H].
  - intros H. now rewrite Hy, H.
  - intros H1 H2 H3 H4. now rewrite Ht, H1, H2, H3, H4.
Qed.

Lemma interpreter_frame_witness :
  filters (parseQueryIntelligently "Dune" (Some (Samples.onlyType "tv")))
    = Samples.onlyType "tv"
  /\ Filters.country (filters (parseQueryIntelligently "Dune" (Some (Samples.onlyType "tv"))))
     = Some "".
Proof.
  split; [vm_compute; reflexivity|].
  pose proof (interpreter_frame "Dune" (Some (Samples.onlyType "tv")) eq_refl) as H.
  cbv zeta in H. destruct H as (Hcountry & _). exact Hcountry.
Defined.

(** X23. A year that the interpreter reads off a query of ASCII text lies
    between 1900 and 2099; of these, only 1900 is a year that
    [applyFilters] then does not filter by. *)
Theorem interpreter_year (query : string) (given : option SearchFilters) (yearMatch : Match) :
  isASCII query = true ->
  exec false yearPattern (trim (toLowerCase query)) = Some yearMatch ->
  exists y,
    Filters.year (filters (parseQueryIntelligently query given)) = Some y
    /\ parseInt (matched yearMatch) = Some y
    /\ (1900 <= y <= 2099)%Z
    /\ (activeYear (Some y) = None <-> y = 1900%Z).
Proof.
  intros _ Hexec.
  destruct (interpreter_filters query given) as (_ & _ & _ & Hy & _).
  cbv zeta in Hy. rewrite Hexec in Hy.
  destruct (yearPattern_search _ _ _ Hexec) as (a & b & d1 & d2 & Hm & Hab & H1 & H2).
  destruct (parseInt_year a b d1 d2 Hab H1 H2) as (y & Hparse & Hrange).
  rewrite <- Hm in Hparse. exists y.
  split; [now rewrite Hy|]. split; [exact Hparse|]. split; [exact Hrange|].
  unfold activeYear.
  destruct (y =? 0)%Z eqn:E0; [apply Z.eqb_eq in E0; lia|].
  destruct (y >? 1900)%Z eqn:E1; cbn [negb andb]; rewrite Z.gtb_ltb in E1.
  - apply Z.ltb_lt in E1. split; [discriminate | lia].
  - apply Z.ltb_ge in E1. split; [lia | reflexivity].
Qed.

Lemma interpreter_year_witness :
  Filters.year (filters (parseQueryIntelligently "Horror movies from 2023" None))
    = Some 2023%Z
  /\ exists y,
       Filters.year (filters (parseQueryIntelligently "Horror movies from 2023" None)) = Some y
       /\ parseInt "2023" = Some y
       /\ (1900 <= y <= 2099)%Z
       /\ (activeYear (Some y) = None <-> y = 1900%Z).
Proof.
  split; [vm_compute; reflexivity|].
  apply (interpreter_year "Horror movies from 2023" None
           {| matched := "2023"; groups := [(1, "20")] |});
    vm_compute; reflexivity.
Defined.

(** X24. When the query (of ASCII text) names a language of the table, the interpreter
    sets [language] to the upper-cased code of a language the query names,
    and [discoverContent] resolves that value to the very code, which it
    sends as [with_original_language]. *)
Theorem interpreter_language (query : string) (given : option SearchFilters) :
  isASCII query = true ->
  (exists langName langCode,
      In (langName, langCode) LANGUAGE_CODES
      /\ includes (trim (toLowerCase query)) langName = true) ->
  exists langName langCode,
    In (langName, langCode) LANGUAGE_CODES
    /\ includes (trim (toLowerCase query)) langName = true
    /\ Filters.language (filters (parseQueryIntelligently query given))
       = Some (toUpperCase langCode)
    /\ Discover.languageParameter (toUpperCase langCode) = Discover.Code langCode.
Proof.
  intros _ (name & code & Hin & Hnamed).
  destruct (interpreter_filters query given) as (Hl & _). cbv zeta in Hl.
  destruct (List.find _ LANGUAGE_CODES) as [[langName langCode]|] eqn:E.
  - apply find_some in E. destruct E as [Hfound Hinc].
    exists langName, langCode. split; [exact Hfound|]. split; [exact Hinc|].
    split; [exact Hl|].
    assert (T : forallb (fun '(_, c) =>
                  match Discover.languageParameter (toUpperCase c) with
                  | Discover.Code c' => c' =? c
                  | _ => false
                  end) LANGUAGE_CODES = true) by (vm_compute; reflexivity).
    rewrite forallb_forall in T. specialize (T _ Hfound). cbn beta iota in T.
    destruct (Discover.languageParameter (toUpperCase langCode)); try discriminate.
    apply String.eqb_eq in T. now subst.
  - pose proof (find_none _ _ E (name, code) Hin) as F. cbn beta iota in F. congruence.
Qed.

Lemma interpreter_language_witness :
  Filters.language (filters (parseQueryIntelligently "Best Korean shows" None)) = Some "KO"
  /\ exists langName langCode,
       In (langName, langCode) LANGUAGE_CODES
       /\ includes (trim (toLowerCase "Best Korean shows")) langName = true
       /\ Filters.language (filters (parseQueryIntelligently "Best Korean shows" None))
          = Some (toUpperCase langCode)
       /\ Discover.languageParameter (toUpperCase langCode) = Discover.Code langCode.
Proof.
  split; [vm_compute; reflexivity|].
  apply (interpreter_language "Best Korean shows" None); [reflexivity|].
  exists "korean", "ko". split; [cbn; tauto | vm_compute; reflexivity].
Defined.

End InterpreterFacts.

Section RouteBoundary.

(** X25. The search route and [applyFilters] draw the line at different
    places: the route lets a [year] of 1900 and a [rating_min] of 0 through
    to the filter set, where [applyFilters] takes neither for a filter; every
    other year and rating the route lets through is in force. *)
Theorem route_filters_in_force (rt : Route.Runtime) (searchParams : list (string * string)) :
  (forall y, Filters.year (Route.buildFilters rt searchParams) = Some y ->
     (1900 <= y <= Route.currentYear rt + 5)%Z
     /\ (activeYear (Some y) = None <-> y = 1900%Z)
     /\ (y <> 1900%Z -> activeYear (Some y) = Some y))
  /\ (forall r, Filters.rating_min (Route.buildFilters rt searchParams) = Some r ->
     (0 <= r <= 10)%Q
     /\ (activeRating (Some r) = None <-> (r == 0)%Q)
     /\ (~ (r == 0)%Q -> activeRating (Some r) = Some r)).
Proof.
  split.
  - intros y. cbn [Route.buildFilters Filters.year]. unfold Route.yearFilter.
    destruct (Route.get searchParams "year") as [year|]; [|discriminate].
    destruct (truthy year); [|discriminate].
    destruct (parseInt year) as [yearNum|]; [|discriminate].
    destruct ((yearNum >=? 1900) && (yearNum <=? Route.currentYear rt + 5))%Z eqn:E;
      [|discriminate].
    intros H; inversion H; subst; clear H.
    apply andb_true_iff in E. destruct E as [E1 E2].
    rewrite Z.geb_leb in E1. apply Z.leb_le in E1, E2.
    split; [lia|]. unfold activeYear.
    destruct (y =? 0)%Z eqn:E0; [apply Z.eqb_eq in E0; lia|].
    destruct (y >? 1900)%Z eqn:E3; cbn [negb andb]; rewrite Z.gtb_ltb in E3.
    + apply Z.ltb_lt in E3. repeat split; try discriminate; try lia; reflexivity.
    + apply Z.ltb_ge in E3. repeat split; try reflexivity; try lia.
  - intros r. cbn [Route.buildFilters Filters.rating_min]. unfold Route.ratingFilter.
    destruct (Route.get searchParams "rating_min") as [ratingMin|]; [|discriminate].
    destruct (truthy ratingMin); [|discriminate].
    unfold withinRange. destruct (Route.Number_parseFloat rt ratingMin) as [| |q];
      try discriminate.
    destruct (Qle_bool 0 q && Qle_bool q 10) eqn:E; [|discriminate].
    intros H; inversion H; subst; clear H.
    apply andb_true_iff in E. destruct E as [E1 E2]. apply Qle_bool_iff in E1, E2.
    split; [split; assumption|]. unfold activeRating.
    destruct (Qeq_bool r 0) eqn:E0; cbn [negb andb].
    + apply Qeq_bool_eq in E0. repeat split; auto. intros F. contradiction.
    + assert (N0 : ~ (r == 0)%Q) by (intros F; apply Qeq_eq_bool in F; congruence).
      assert (P : Qgtb r 0 = true) by (apply Qltb_lt; lra).
      rewrite P. repeat split; try discriminate; try reflexivity. intros F. contradiction.
Qed.

Lemma route_filters_in_force_witness :
  Filters.year (Route.buildFilters (Samples.runtime None) [("q", "dune"); ("year", "1900")])
    = Some 1900%Z
  /\ activeYear (Some 1900%Z) = None.
Proof.
  split; [reflexivity|].
  destruct (route_filters_in_force (Samples.runtime None) [("q", "dune"); ("year", "1900")])
    as [Hyear _].
  destruct (Hyear 1900%Z eq_refl) as (_ & Hinert & _). now apply Hinert.
Defined.

End RouteBoundary.

Section MockRecommendations.
Import Recommendations.

Lemma firstn_nonempty {A : Type} (n : nat) (l : list A) :
  0 < n -> l <> [] -> firstn n l <> [].
Proof.
  destruct n; [lia|]. destruct l; [congruence|]. discriminate.
Qed.

(** X26. With a comparator that only rearranges, [generateMockRecommendations]
    returns at most [maxRecommendations] entries and at least one when that
    is 1 or more; every entry comes from the static table, from a list
    whose key the lower-cased query contains or from the default list, and
    from the default list only when the query contains no key. *)
Theorem generateMockRecommendations_selection (env : Env) (query : string)
    (maxRecommendations : Z) :
  isASCII query = true ->
  (forall l, Permutation (shuffled env l) l) ->
  (0 <= maxRecommendations)%Z ->
  let result := generateMockRecommendations env query maxRecommendations in
  let named key := negb (key =? "default") && includes (toLowerCase query) key in
  (Z.of_nat (length result) <= maxRecommendations)%Z
  /\ ((1 <= maxRecommendations)%Z -> result <> [])
  /\ (forall r, In r result ->
        exists key list, In (key, list) mockRecommendations /\ In r list
                         /\ (named key = true
                             \/ (key = "default"
                                 /\ forall key' list', In (key', list') mockRecommendations ->
                                      named key' = false))).
Proof.
  intros _ Hshuffle Hmax. cbv zeta. unfold generateMockRecommendations.
  set (named := fun key => negb (key =? "default") && includes (toLowerCase query) key).
  set (selected := concat (map _ mockRecommendations)).
  assert (Hsel : selected
                 = concat (map (fun '(key, recommendations) =>
                                  if named key then recommendations else [])
                               mockRecommendations)).
  { reflexivity. }
  set (chosen := match selected with [] => _ | _ :: _ => selected end).
  assert (Hnonempty : chosen <> []).
  { subst chosen. destruct selected; [|discriminate]. vm_compute. discriminate. }
  assert (Hfrom : forall r, In r chosen ->
            exists key list, In (key, list) mockRecommendations /\ In r list
                             /\ (named key = true
                                 \/ (key = "default"
                                     /\ forall key' list', In (key', list') mockRecommendations ->
                                          named key' = false))).
  { intros r Hr. subst chosen. destruct selected as [|first rest] eqn:E.
    - assert (Hnone : forall key' list', In (key', list') mockRecommendations ->
                        named key' = false).
      { intros key' list' Hin. destruct (named key') eqn:N; [|reflexivity].
        exfalso.
        assert (Hlist : list' <> []).
        { assert (T : forallb (fun '(_, l) => negb (length l =? 0)%nat) mockRecommendations
                      = true) by (vm_compute; reflexivity).
          rewrite forallb_forall in T. specialize (T _ Hin). cbn beta iota in T.
          intros ->. cbn in T. discriminate T. }
        destruct list' as [|x xs]; [congruence|].
        assert (Hx : In x (concat (map (fun '(key, recommendations) =>
                                          if named key then recommendations else [])
                                       mockRecommendations))).
        { apply in_concat. exists (x :: xs). split; [|now left].
          apply in_map_iff. exists (key', x :: xs). split; [|exact Hin].
          cbn beta iota. now rewrite N. }
        rewrite <- Hsel in Hx. destruct Hx. }
      exists "default".
      assert (D : exists list, List.find (fun '(key, _) => key =? "default") mockRecommendations
                               = Some ("default", list))
        by (eexists; vm_compute; reflexivity).
      destruct D as [list D]. rewrite D in Hr. cbn in Hr.
      exists list. split; [|split; [exact Hr | right; split; [reflexivity | exact Hnone]]].
      apply find_some in D. apply D.
    - rewrite Hsel in Hr. apply in_concat in Hr. destruct Hr as (l & Hl & Hrl).
      apply in_map_iff in Hl. destruct Hl as ([key recs] & Hkey & Hin).
      cbn beta iota in Hkey. destruct (named key) eqn:N; subst l; [|destruct Hrl].
      exists key, recs. auto. }
  unfold slice0. destruct (maxRecommendations <? 0)%Z eqn:E; [apply Z.ltb_lt in E; lia|].
  split; [|split].
  - rewrite length_firstn. lia.
  - intros Hone. apply firstn_nonempty; [lia|].
    intros F. apply Hnonempty. apply Permutation_nil. rewrite <- F. apply Hshuffle.
  - intros r Hr. apply In_firstn_list in Hr. apply Hfrom.
    eapply Permutation_in; [apply Hshuffle | exact Hr].
Qed.

Lemma generateMockRecommendations_selection_witness :
  map title (generateMockRecommendations Samples.noLLM "something on HBO tonight" 5)
    = ["Game of Thrones"; "The Last of Us"]
  /\ (Z.of_nat (length (generateMockRecommendations Samples.noLLM
                          "something on HBO tonight" 5)) <= 5)%Z.
Proof.
  split; [vm_compute; reflexivity|].
  pose proof (generateMockRecommendations_selection Samples.noLLM "something on HBO tonight" 5
                eq_refl (fun l => Permutation_refl l)) as H.
  cbv zeta in H. apply H. lia.
Defined.

End MockRecommendations.

Section TitleFacts.
Import Titles.

Lemma existsb_eqb_In (x : string) (l : list string) :
  existsb (String.eqb x) l = true <-> In x l.
Proof.
  rewrite existsb_exists. split.
  - intros (y & Hy & E). apply String.eqb_eq in E. now subst.
  - intros H. exists x. split; [exact H | apply String.eqb_refl].
Qed.

Lemma unique_spec (l seen : list string) :
  NoDup (unique seen l)
  /\ forall x, In x (unique seen l) <-> In x l /\ ~ In x seen.
Proof.
  revert seen. induction l as [|a l IH]; intros seen; cbn [unique].
  - split; [constructor | intros x; cbn; tauto].
  - destruct (existsb (String.eqb a) seen) eqn:E.
    + apply existsb_eqb_In in E. destruct (IH seen) as [Hnd Hin].
      split; [exact Hnd|]. intros x. rewrite Hin. cbn [In].
      split; [tauto|]. intros [[<-|H] Hx]; tauto.
    + assert (Ha : ~ In a seen).
      { intros H. apply existsb_eqb_In in H. congruence. }
      destruct (IH (a :: seen)) as [Hnd Hin]. split.
      * constructor; [|exact Hnd]. rewrite list_elem_of_In, Hin. cbn [In]. tauto.
      * intros x. cbn [In]. rewrite Hin. cbn [In].
        destruct (string_dec a x) as [->|Hne]; tauto.
Qed.

Lemma unique_filter (p : string -> bool) (l seen : list string) :
  unique (List.filter p seen) (List.filter p l) = List.filter p (unique seen l).
Proof.
  revert seen. induction l as [|a l IH]; intros seen; [reflexivity|].
  cbn [List.filter unique]. destruct (p a) eqn:Pa.
  - cbn [unique].
    assert (E : existsb (String.eqb a) (List.filter p seen) = existsb (String.eqb a) seen).
    { destruct (existsb (String.eqb a) seen) eqn:E.
      - apply existsb_eqb_In. apply filter_In. split; [now apply existsb_eqb_In | exact Pa].
      - destruct (existsb (String.eqb a) (List.filter p seen)) eqn:F; [|reflexivity].
        apply existsb_eqb_In, filter_In in F. destruct F as [F _].
        apply existsb_eqb_In in F. congruence. }
    rewrite E. destruct (existsb (String.eqb a) seen); [apply IH|].
    cbn [List.filter]. rewrite Pa. f_equal. rewrite <- IH. cbn [List.filter]. now rewrite Pa.
  - destruct (existsb (String.eqb a) seen); [apply IH|].
    cbn [List.filter]. rewrite Pa. rewrite <- IH. cbn [List.filter]. now rewrite Pa.
Qed.

Lemma In_firstn_more {A : Type} (n : nat) (l : list A) (x : A) :
  In x (firstn n l) -> In x (firstn (S n) l).
Proof.
  revert n. induction l as [|a l IH]; intros [|n]; cbn; try tauto.
  intros [H|H]; [now left | right; now apply IH].
Qed.

Lemma In_firstn_filter {A : Type} (p : A -> bool) (n : nat) (l : list A) (x : A) :
  In x (firstn n l) -> p x = true -> In x (firstn n (List.filter p l)).
Proof.
  revert n. induction l as [|a l IH]; intros [|n]; cbn [firstn List.filter In]; try tauto.
  intros [<-|H] Hp.
  - rewrite Hp. now left.
  - destruct (p a); [right; now apply IH|]. apply In_firstn_more. now apply IH.
Qed.

Lemma generateSearchTitles_In (query : string) (filtersType : option string) (title : string) :
  In title (generateSearchTitles query filtersType) ->
  In title (suggestedTitles query) /\ typeFilter filtersType title = true.
Proof.
  unfold generateSearchTitles. intros H. apply In_slice0 in H.
  apply (unique_spec _ []) in H. destruct H as [H _]. now apply filter_In in H.
Qed.

(** X27. For a query of ASCII text, [generateSearchTitles] returns at most
    fifty titles, none of them twice; each comes from the general list or
    from the list of a key that matches the query, and passes the type
    filter; without a type filter there is always at least one. *)
Theorem generateSearchTitles_unique_bounded (query : string) (filtersType : option string) :
  isASCII query = true ->
  let titles := generateSearchTitles query filtersType in
  NoDup titles
  /\ length titles <= 50
  /\ (forall title, In title titles ->
        typeFilter filtersType title = true
        /\ (In title generalTitles
            \/ exists key list, In (key, list) titleSuggestions /\ In title list
                                /\ keyMatches (toLowerCase query) key = true))
  /\ (filtersType = None -> titles <> []).
Proof.
  intros _. cbv zeta. split; [|split; [|split]].
  - unfold generateSearchTitles, slice0. cbn [Z.ltb Z.compare Z.to_nat].
    apply NoDup_firstn. apply unique_spec.
  - unfold generateSearchTitles, slice0. cbn [Z.ltb Z.compare].
    rewrite length_firstn. change (Z.to_nat 50) with 50. lia.
  - intros title H. apply generateSearchTitles_In in H. destruct H as [H Ht].
    split; [exact Ht|]. unfold suggestedTitles in H.
    destruct (concat _) as [|first rest] eqn:E; [now left|].
    right. rewrite <- E in H. apply in_concat in H. destruct H as (l & Hl & Hin).
    apply in_map_iff in Hl. destruct Hl as ([key list] & Hkey & Htable).
    cbn beta iota in Hkey.
    destruct (keyMatches (toLowerCase query) key) eqn:K; subst l; [|destruct Hin].
    exists key, list. auto.
  - intros ->. unfold generateSearchTitles. cbn [typeFilter].
    assert (F : forall l : list string, List.filter (fun _ => true) l = l).
    { induction l as [|a l IH]; cbn; [reflexivity | now rewrite IH]. }
    rewrite F.
    assert (Hne : suggestedTitles query <> []).
    { unfold suggestedTitles. destruct (concat _); discriminate. }
    destruct (suggestedTitles query) as [|first rest]; [congruence|].
    cbn. discriminate.
Qed.

Lemma generateSearchTitles_unique_bounded_witness :
  generateSearchTitles "HBO crime" (Some "movie") = ["Mare of Easttown"; "Zodiac"]
  /\ NoDup (generateSearchTitles "HBO crime" (Some "movie"))
  /\ length (generateSearchTitles "HBO crime" (Some "movie")) <= 50.
Proof.
  split; [vm_compute; reflexivity|].
  pose proof (generateSearchTitles_unique_bounded "HBO crime" (Some "movie") eq_refl) as H.
  cbv zeta in H. destruct H as (Hnd & Hlen & _). split; assumption.
Defined.

Lemma typeFilter_movie (title : string) :
  typeFilter (Some "movie") title = negb (existsb (String.eqb title) tvShowsRemoved).
Proof. reflexivity. Qed.

Lemma typeFilter_tv (title : string) :
  typeFilter (Some "tv") title = existsb (String.eqb title) tvShowsKept.
Proof. reflexivity. Qed.

(** X28. The two type filters split the suggestions: for every query, the
    titles offered for movies and those offered for TV shows have nothing
    in common, and every title offered without a type filter is offered
    for one of the two. *)
Theorem generateSearchTitles_by_type (query : string) :
  disjoint (generateSearchTitles query (Some "movie")) (generateSearchTitles query (Some "tv"))
  /\ (forall title, In title (generateSearchTitles query None) ->
        In title (generateSearchTitles query (Some "movie"))
        \/ In title (generateSearchTitles query (Some "tv"))).
Proof.
  assert (Hsame : forall title, In title tvShowsRemoved <-> In title tvShowsKept).
  { assert (T1 : forallb (fun t => existsb (String.eqb t) tvShowsKept) tvShowsRemoved = true)
      by (vm_compute; reflexivity).
    assert (T2 : forallb (fun t => existsb (String.eqb t) tvShowsRemoved) tvShowsKept = true)
      by (vm_compute; reflexivity).
    rewrite forallb_forall in T1, T2. intros title. split; intros H.
    - now apply existsb_eqb_In, T1.
    - now apply existsb_eqb_In, T2. }
  split.
  - intros title Hm Ht.
    apply generateSearchTitles_In in Hm. apply generateSearchTitles_In in Ht.
    destruct Hm as [_ Hm]. destruct Ht as [_ Ht].
    rewrite typeFilter_movie in Hm. rewrite typeFilter_tv in Ht.
    apply negb_true_iff in Hm. apply existsb_eqb_In, Hsame, existsb_eqb_In in Ht. congruence.
  - intros title H. unfold generateSearchTitles in *.
    assert (F : forall l : list string, List.filter (typeFilter None) l = l).
    { induction l as [|a l IH]; cbn; [reflexivity | now rewrite IH]. }
    rewrite F in H. unfold slice0 in *. cbn [Z.ltb Z.compare] in *.
    change (@nil string) with (List.filter (typeFilter (Some "movie")) []) at 1.
    change (@nil string) with (List.filter (typeFilter (Some "tv")) []) at 2.
    rewrite !unique_filter.
    destruct (typeFilter (Some "movie") title) eqn:M.
    + left. now apply In_firstn_filter.
    + right. apply In_firstn_filter; [exact H|].
      rewrite typeFilter_movie in M. rewrite typeFilter_tv. apply negb_false_iff in M.
      now apply existsb_eqb_In, Hsame, existsb_eqb_In in M.
Qed.


End TitleFacts.

Section KeylessSearch.

(** X30. Without a configured API key the search route answers every
    acceptable query with status 500 and the text that asks for the key,
    after one call of [searchContent] that returns at once, whatever the
    fuel, and sends no request upstream. *)
Theorem GET_without_key (w : World) (fuel : nat) (parseFloat : string -> JsNumber) (now : Z)
    (searchParams : list (string * string)) (q : string) :
  keyNotConfigured w = true ->
  Route.get searchParams "q" = Some q -> trim q <> "" -> lengthUTF16 q <= 100 ->
  let rt := Route.liveRuntime w fuel parseFloat now in
  Route.GET rt searchParams
  = {| Route.reply :=
         Some (Route.errorReply 500
                 (Some "TMDB API key is not configured. Please add your TMDB API key to environment variables."));
       Route.searchCalls := [(trim q, Route.buildFilters rt searchParams)] |}
  /\ option_map snd (searchContent w fuel (trim q) (Some (Route.buildFilters rt searchParams)))
     = Some [].
Proof.
  intros Hkey Hq Htrim Hlen. cbv zeta.
  assert (Hne : q <> "") by (intros ->; now apply Htrim).
  split.
  - unfold Route.GET. rewrite Hq.
    assert (E : negb (truthy q) || (lengthUTF16 (trim q) =? 0)%nat = false).
    { apply orb_false_iff. split.
      - unfold truthy. rewrite negb_involutive. now apply String.eqb_neq.
      - destruct (lengthUTF16 (trim q) =? 0)%nat eqn:E0; [|reflexivity].
        apply length_zero_empty in E0. contradiction. }
    rewrite E.
    assert (E2 : (100 <? lengthUTF16 q)%nat = false) by (apply Nat.ltb_ge; lia).
    rewrite E2. cbv zeta. cbn [Route.liveRuntime Route.searchContentOf].
    unfold searchContent. rewrite Hkey. reflexivity.
  - unfold searchContent. rewrite Hkey. reflexivity.
Qed.

Lemma GET_without_key_witness :
  Route.replyStatus
    (default (Route.errorReply 0 None)
       (Route.reply (Route.GET (Route.liveRuntime MoreSamples.keyless 0
                                  Samples.decimalParseFloat 2026)
                       [("q", "dune")]))) = 500%N.
Proof.
  assert (H3 : trim "dune" <> "") by (vm_compute; discriminate).
  assert (H4 : lengthUTF16 "dune" <= 100) by (vm_compute; lia).
  destruct (GET_without_key MoreSamples.keyless 0 Samples.decimalParseFloat 2026
              [("q", "dune")] "dune" eq_refl eq_refl H3 H4) as [H _].
  cbv zeta in H. rewrite H. reflexivity.
Defined.

End KeylessSearch.
